(** * CivicConnectAi: issue submission, status workflow and statistics

    A shallow embedding of the server side of the application:
    - [shared/schema.ts]: the tables [users], [issues],
      [issue_status_history], [issue_comments] and [departments] with
      their declared constraints;
    - [server/storage.ts]: the methods of [DatabaseStorage] on these
      tables;
    - [server/openai.ts]: the normalisation of the replies of the AI service
      in [analyzeIssueImage], [transcribeAudio] and [extractIssueFromText];
    - [server/routes.ts]: the handlers of the routes under [/api];
    - the admin dashboard of the client: the request that its edit dialog
      sends.

    Conventions of the embedding.
    - A string is the sequence of the bytes of its UTF-8 encoding.
    - A JavaScript value that is a string or [undefined] is an
      [option string]; it is truthy when it is a non-empty string.  Where
      the program tells [null] from [undefined] the value is a
      [JS.Nullable].
    - A JavaScript number is a [JSNumber]: NaN, an infinity or the
      rational that a finite double is; the two zeros are one.  The
      functions that read a number out of a text round it to the nearest
      double.  The arithmetic of the statistics is exact.
    - A row holds what its table holds: a [real] column a single-precision
      number, a [jsonb] column the JSON text of the object.  An answer
      that carries a row carries these values: the numeral that it writes
      for a [real] is the one that the database prints.
    - A [Date] is its [getTime()], a [Z] of milliseconds.
    - Code that can throw returns an [Outcome]; code that also reads or
      writes the database runs in the monad [M], in which a write made
      before an exception stays made (the handlers open no transaction).
    - The database refuses a write that breaks a constraint declared in
      the schema (primary key, not null, label of an enum, reference to
      another table, range of a number): the statement throws and writes
      nothing.
    - Values produced outside the program (generated row ids, clock
      readings, replies of the AI service) are inputs of the handlers.
    - Logging with [console.error] and the handling of the uploaded files
      on disk are left out. *)

From Stdlib Require Import String Ascii List ZArith QArith Qround Bool Lia Lqa.
Import ListNotations.

Local Open Scope Z_scope.

(** ** JavaScript values *)

Module JS.

(** [!!v] for a value that is a string or [undefined]. *)
Definition truthy (v : option string) : bool :=
  match v with
  | Some s => negb (s =? "")%string
  | None => false
  end.

(** [a || b] where both sides are strings or [undefined]. *)
Definition or_else (a b : option string) : option string :=
  if truthy a then a else b.

(** [a || "literal"]: the chain ends in a string literal. *)
Definition or_lit (a : option string) (lit : string) : string :=
  match a with
  | Some s => if (s =? "")%string then lit else s
  | None => lit
  end.

(** [a || null]: [undefined] and the empty string both become [null]. *)
Definition or_null (a : option string) : option string :=
  if truthy a then a else None.

(** [o?.f] *)
Definition opt_chain {A B : Type} (o : option A) (f : A -> B) : option B :=
  option_map f o.

(** A key of a JSON object that is absent, [null], or holds a value. *)
Inductive Nullable (A : Type) : Type :=
| undefined
| null
| value (a : A).

Arguments undefined {A}.
Arguments null {A}.
Arguments value {A} a.

Inductive JSNumber : Type :=
| NaN
| Infinity (negative : bool)
| Finite (q : Q).

(** [!!n] for a number: [0] and [NaN] are falsy. *)
Definition truthy_num (n : JSNumber) : bool :=
  match n with
  | NaN => false
  | Infinity _ => true
  | Finite q => negb (Qeq_bool q 0)
  end.

(** A value that the program uses as a number.  One that is no number (a
    string, a boolean, [null], an array, an object, or a key that is
    absent) is given by what the program asks of it: whether it is truthy
    and what [ToNumber] makes of it. *)
Inductive Value : Type :=
| number (n : JSNumber)
| other (truthy : bool) (toNumber : JSNumber).

Definition truthy_value (v : Value) : bool :=
  match v with
  | number n => truthy_num n
  | other t _ => t
  end.

Definition ToNumber (v : Value) : JSNumber :=
  match v with
  | number n => n
  | other _ n => n
  end.

(** [Math.min] and [Math.max]: NaN when an argument is NaN. *)
Definition Math_min (a b : JSNumber) : JSNumber :=
  match a, b with
  | NaN, _ => NaN
  | _, NaN => NaN
  | Infinity true, _ => a
  | _, Infinity true => b
  | Infinity false, _ => b
  | _, Infinity false => a
  | Finite p, Finite q => if Qle_bool p q then a else b
  end.

Definition Math_max (a b : JSNumber) : JSNumber :=
  match a, b with
  | NaN, _ => NaN
  | _, NaN => NaN
  | Infinity false, _ => a
  | _, Infinity false => b
  | Infinity true, _ => b
  | _, Infinity true => a
  | Finite p, Finite q => if Qle_bool p q then b else a
  end.

(** [Math.ceil] and [Math.round] (ties go up) on finite numbers. *)
Definition Math_ceil (x : Q) : Z := Qceiling x.
Definition Math_round (x : Q) : Z := Qfloor (x + (1 # 2)).

(** *** Binary floating point

    The binary floating-point number nearest to [n / d], for [n] and [d]
    positive, with [prec] bits and no bit below [2 ^ emin]; a tie goes to
    the even significand.  The result is [m * 2 ^ e], given as [(m, e)]. *)
Definition nearest (prec emin : Z) (n d : Z) : Z * Z :=
  let g := Z.log2 n - Z.log2 d in
  let below := if 0 <=? g then n <? d * 2 ^ g else n * 2 ^ (- g) <? d in
  let e := Z.max ((if below then g - 1 else g) - (prec - 1)) emin in
  let num := if 0 <=? e then n else n * 2 ^ (- e) in
  let den := if 0 <=? e then d * 2 ^ e else d in
  let m := num / den in
  let r := num mod den in
  (if 2 * r <? den then m
   else if den <? 2 * r then m + 1
   else if Z.even m then m else m + 1,
   e).

(** [m * 2 ^ e] as a rational. *)
Definition scale2 (m e : Z) : Q :=
  if 0 <=? e then inject_Z (m * 2 ^ e) else m # Z.to_pos (2 ^ (- e)).

(** Rounding to a binary format, to an infinity from [2 ^ emax] on. *)
Definition round (prec emin emax : Z) (q : Q) : JSNumber :=
  match Qnum q with
  | 0 => Finite 0
  | Zpos n =>
      let (m, e) := nearest prec emin (Zpos n) (Zpos (Qden q)) in
      if emax <=? Z.log2 m + e then Infinity false
      else Finite (Qred (scale2 m e))
  | Zneg n =>
      let (m, e) := nearest prec emin (Zpos n) (Zpos (Qden q)) in
      if emax <=? Z.log2 m + e then Infinity true
      else Finite (Qred (scale2 (- m) e))
  end.

(** The double and the single-precision number nearest to a rational. *)
Definition to_double : Q -> JSNumber := round 53 (-1074) 1024.
Definition to_single : Q -> JSNumber := round 24 (-149) 128.

(** [m * 10^k] as a rational. *)
Definition scale10 (m k : Z) : Q :=
  if 0 <=? k then (m * 10 ^ k) # 1 else m # Z.to_pos (10 ^ (- k)).

(** *** [Number::toString]

    The text of a finite number is the decimal numeral with the fewest
    digits that reads back as the number, the nearest to it if there are
    several.  [shortest] is the value of that numeral; [to_format] says
    how a numeral is read back. *)

(** [a / b < 10 ^ n] *)
Definition below10 (a b n : Z) : bool :=
  if 0 <=? n then a <? b * 10 ^ n else a * 10 ^ (- n) <? b.

Fixpoint adjust10 (fuel : nat) (a b n : Z) : Z :=
  match fuel with
  | O => n
  | S f =>
      if negb (below10 a b n) then adjust10 f a b (n + 1)
      else if below10 a b (n - 1) then adjust10 f a b (n - 1)
      else n
  end.

(** The [n] with [10 ^ (n - 1) <= a / b < 10 ^ n], for [a] and [b]
    positive. *)
Definition magnitude10 (a b : Z) : Z :=
  adjust10 8 a b ((Z.log2 a - Z.log2 b) * 30103 / 100000).

Definition same_number (x y : JSNumber) : bool :=
  match x, y with
  | Finite p, Finite q => Qeq_bool p q
  | Infinity a, Infinity b => Bool.eqb a b
  | NaN, NaN => true
  | _, _ => false
  end.

(** The numerals with [k] digits on both sides of [x], for [k] from 1 on,
    until one reads back as [x]. *)
Fixpoint shortest_from (to_format : Q -> JSNumber) (fuel : nat) (k : Z)
  (x : Q) (n : Z) : Q :=
  match fuel with
  | O => x
  | S f =>
      let unit := scale10 1 (n - k) in
      let s := Qfloor (x / unit) in
      let lo := (inject_Z s * unit)%Q in
      let hi := (inject_Z (s + 1) * unit)%Q in
      match same_number (to_format lo) (Finite x),
            same_number (to_format hi) (Finite x) with
      | true, true =>
          match (x - lo ?= hi - x)%Q with
          | Lt => lo
          | Gt => hi
          | Eq => if Z.even s then lo else hi
          end
      | true, false => lo
      | false, true => hi
      | false, false => shortest_from to_format f (k + 1) x n
      end
  end.

Definition shortest (to_format : Q -> JSNumber) (x : Q) : Q :=
  match Qnum x with
  | 0 => 0
  | Zpos a =>
      shortest_from to_format 20 1 x (magnitude10 (Zpos a) (Zpos (Qden x)))
  | Zneg a =>
      - shortest_from to_format 20 1 (- x)
          (magnitude10 (Zpos a) (Zpos (Qden x)))
  end.

(** *** [parseFloat]

    ECMAScript: skip leading white space, take the longest prefix that is
    a [StrDecimalLiteral] (sign, [Infinity], digits with an optional
    fraction and an optional exponent), and return NaN when there is no
    such prefix, else the double nearest to the numeral.  White space is
    the characters [WhiteSpace] and [LineTerminator]: U+0009 to U+000D,
    U+0020, U+00A0, U+1680, U+2000 to U+200A, U+2028, U+2029, U+202F,
    U+205F, U+3000 and U+FEFF. *)

(** The white space of one byte. *)
Definition is_white_space (c : ascii) : bool :=
  let n := nat_of_ascii c in
  (Nat.eqb n 32 || (Nat.leb 9 n && Nat.leb n 13))%bool.

(** The first byte of a white space character of two or three bytes. *)
Definition is_lead_byte (c : ascii) : bool :=
  let n := nat_of_ascii c in
  (Nat.eqb n 194 || Nat.eqb n 225 || Nat.eqb n 226 || Nat.eqb n 227
   || Nat.eqb n 239)%bool.

(** U+00A0 is C2 A0. *)
Definition is_white_space2 (c1 c2 : ascii) : bool :=
  (Nat.eqb (nat_of_ascii c1) 194 && Nat.eqb (nat_of_ascii c2) 160)%bool.

(** U+1680 is E1 9A 80; U+2000 to U+200A, U+2028, U+2029 and U+202F are
    E2 80 followed by 80 to 8A, A8, A9 and AF; U+205F is E2 81 9F; U+3000
    is E3 80 80; U+FEFF is EF BB BF. *)
Definition is_white_space3 (c1 c2 c3 : ascii) : bool :=
  let b1 := nat_of_ascii c1 in
  let b2 := nat_of_ascii c2 in
  let b3 := nat_of_ascii c3 in
  ((Nat.eqb b1 225 && Nat.eqb b2 154 && Nat.eqb b3 128)
   || (Nat.eqb b1 226 && Nat.eqb b2 128
       && ((Nat.leb 128 b3 && Nat.leb b3 138)
           || Nat.eqb b3 168 || Nat.eqb b3 169 || Nat.eqb b3 175))
   || (Nat.eqb b1 226 && Nat.eqb b2 129 && Nat.eqb b3 159)
   || (Nat.eqb b1 227 && Nat.eqb b2 128 && Nat.eqb b3 128)
   || (Nat.eqb b1 239 && Nat.eqb b2 187 && Nat.eqb b3 191))%bool.

Fixpoint trimStart (s : string) : string :=
  match s with
  | String c1 r1 =>
      if is_white_space c1 then trimStart r1
      else if is_lead_byte c1 then
        match r1 with
        | String c2 r2 =>
            if is_white_space2 c1 c2 then trimStart r2
            else
              match r2 with
              | String c3 r3 =>
                  if is_white_space3 c1 c2 c3 then trimStart r3 else s
              | EmptyString => s
              end
        | EmptyString => s
        end
      else s
  | EmptyString => s
  end.

Definition digit_value (c : ascii) : option Z :=
  let n := nat_of_ascii c in
  if (Nat.leb 48 n && Nat.leb n 57)%bool then Some (Z.of_nat (n - 48)) else None.

(** The digits at the head of [s]: their value after [acc], how many
    there are, and the rest of the string. *)
Fixpoint take_digits (s : string) (acc : Z) (count : nat) : Z * nat * string :=
  match s with
  | String c r =>
      match digit_value c with
      | Some d => take_digits r (10 * acc + d) (S count)
      | None => (acc, count, s)
      end
  | EmptyString => (acc, count, s)
  end.

Definition take_sign (s : string) : bool * string :=
  match s with
  | String "-"%char r => (true, r)
  | String "+"%char r => (false, r)
  | _ => (false, s)
  end.

(** The exponent part [e], [e+] or [e-] followed by at least one digit;
    [0] when the text after the mantissa is no exponent part. *)
Definition take_exponent (s : string) : Z :=
  match s with
  | String c r =>
      if (Ascii.eqb c "e" || Ascii.eqb c "E")%bool then
        let (neg, r') := take_sign r in
        let '(v, n, _) := take_digits r' 0 0%nat in
        match n with
        | O => 0
        | S _ => if neg then - v else v
        end
      else 0
  | EmptyString => 0
  end.

Definition parseFloat (input : string) : JSNumber :=
  let (neg, s) := take_sign (trimStart input) in
  if String.prefix "Infinity" s then Infinity neg
  else
    let '(ip, ni, s1) := take_digits s 0 0%nat in
    let '(m, nf, s2) :=
      match s1 with
      | String "."%char r => take_digits r ip 0%nat
      | _ => (ip, 0%nat, s1)
      end in
    match (ni + nf)%nat with
    | O => NaN
    | S _ =>
        let k := take_exponent s2 - Z.of_nat nf in
        to_double (scale10 (if neg then - m else m) k)
    end.

End JS.

(** ** [shared/schema.ts] *)

Module Schema.

Inductive IssueType : Type :=
| pothole | garbage | streetlight | water_leakage | road_damage | other.

Inductive IssueStatus : Type :=
| submitted | acknowledged | in_progress | resolved | rejected.

Inductive Priority : Type :=
| low | medium | high | critical.

Inductive Language : Type :=
| en | hi | mr.

Local Open Scope string_scope.

(** The labels of the four [pgEnum]s. *)
Definition issueTypeEnum (s : string) : option IssueType :=
  if s =? "pothole" then Some pothole
  else if s =? "garbage" then Some garbage
  else if s =? "streetlight" then Some streetlight
  else if s =? "water_leakage" then Some water_leakage
  else if s =? "road_damage" then Some road_damage
  else if s =? "other" then Some other
  else None.

Definition issueStatusEnum (s : string) : option IssueStatus :=
  if s =? "submitted" then Some submitted
  else if s =? "acknowledged" then Some acknowledged
  else if s =? "in_progress" then Some in_progress
  else if s =? "resolved" then Some resolved
  else if s =? "rejected" then Some rejected
  else None.

Definition priorityEnum (s : string) : option Priority :=
  if s =? "low" then Some low
  else if s =? "medium" then Some medium
  else if s =? "high" then Some high
  else if s =? "critical" then Some critical
  else None.

Definition languageEnum (s : string) : option Language :=
  if s =? "en" then Some en
  else if s =? "hi" then Some hi
  else if s =? "mr" then Some mr
  else None.

Definition issueType_label (t : IssueType) : string :=
  match t with
  | pothole => "pothole" | garbage => "garbage" | streetlight => "streetlight"
  | water_leakage => "water_leakage" | road_damage => "road_damage"
  | other => "other"
  end.

Definition issueStatus_label (t : IssueStatus) : string :=
  match t with
  | submitted => "submitted" | acknowledged => "acknowledged"
  | in_progress => "in_progress" | resolved => "resolved"
  | rejected => "rejected"
  end.


Definition issueStatus_eqb (a b : IssueStatus) : bool :=
  match a, b with
  | submitted, submitted | acknowledged, acknowledged
  | in_progress, in_progress | resolved, resolved | rejected, rejected => true
  | _, _ => false
  end.

(** [status === 'label'] on a row, whose status column is nullable. *)
Definition status_is (st : IssueStatus) (s : option IssueStatus) : bool :=
  match s with
  | Some s' => issueStatus_eqb s' st
  | None => false
  end.

End Schema.

(** [IssueDetectionResult] of [server/openai.ts]; the fields come out of
    [JSON.parse] unchecked, so the two enumerated ones are kept as strings
    and the confidence can be NaN. *)
Module IssueDetectionResult.
Record t : Type := mk {
  issueType : string;
  confidence : JS.JSNumber;
  description : string;
  severity : string;
  suggestedDepartment : string }.
End IssueDetectionResult.

(** The detection result in the column [ai_detection_result]: JSON has no
    NaN and no infinity, [JSON.stringify] writes [null] for them. *)
Module StoredDetection.
Record t : Type := mk {
  issueType : string;
  confidence : option Q;
  description : string;
  severity : string;
  suggestedDepartment : string }.
End StoredDetection.

(** A row of the table [issues]; a nullable column is an [option]. *)
Module Issue.
Record t : Type := mk {
  id : string;
  reporterId : option string;
  title : string;
  description : option string;
  issueType : Schema.IssueType;
  priority : option Schema.Priority;
  status : option Schema.IssueStatus;
  location : string;
  latitude : option JS.JSNumber;
  longitude : option JS.JSNumber;
  address : option string;
  ward : option string;
  assignedDepartment : option string;
  assignedTo : option string;
  photoUrl : option string;
  audioUrl : option string;
  transcription : option string;
  aiDetectionResult : option StoredDetection.t;
  aiConfidence : option JS.JSNumber;
  estimatedResolutionDays : option Z;
  actualResolutionDate : option Z;
  smsNotificationSent : option bool;
  language : option Schema.Language;
  createdAt : option Z;
  updatedAt : option Z }.
End Issue.

(** [InsertIssue]: the columns of [issues] without [id], [createdAt] and
    [updatedAt].  [None] is a key that is absent (or [null] for a column
    without default); the columns with a default then take it. *)
Module InsertIssue.
Record t : Type := mk {
  reporterId : option string;
  title : string;
  description : option string;
  issueType : Schema.IssueType;
  priority : option Schema.Priority;
  status : option Schema.IssueStatus;
  location : string;
  latitude : option JS.JSNumber;
  longitude : option JS.JSNumber;
  address : option string;
  ward : option string;
  assignedDepartment : option string;
  assignedTo : option string;
  photoUrl : option string;
  audioUrl : option string;
  transcription : option string;
  aiDetectionResult : option IssueDetectionResult.t;
  aiConfidence : option JS.JSNumber;
  estimatedResolutionDays : option Z;
  actualResolutionDate : option Z;
  smsNotificationSent : option bool;
  language : option Schema.Language }.
End InsertIssue.

(** A row of the table [issue_status_history]. *)
Module IssueStatusHistory.
Record t : Type := mk {
  id : string;
  issueId : option string;
  status : Schema.IssueStatus;
  notes : option string;
  updatedBy : option string;
  createdAt : option Z }.
End IssueStatusHistory.

(** [InsertIssueStatusHistory] as the handlers build it: [status] is taken
    from the request body unchecked, so it is a string, [null] or
    [undefined]. *)
Module InsertIssueStatusHistory.
Record t : Type := mk {
  issueId : option string;
  status : JS.Nullable string;
  notes : option string;
  updatedBy : option string }.
End InsertIssueStatusHistory.

(** The database: the ids of the rows of [users] (all that the foreign keys
    look at) and the rows of [issues] and [issue_status_history], oldest
    first. *)
Module Db.
Record t : Type := mk {
  users : list string;
  issues : list Issue.t;
  issueStatusHistory : list IssueStatusHistory.t }.
End Db.

(** ** Exceptions and the database monad *)

Inductive Exn : Type :=
| ZodError (paths : list string)      (* [insertIssueSchema.parse] *)
| InvalidEnumValue (value : string)   (* a text that is no label of the enum *)
| NumericValueOutOfRange (type : string)
| NotNullViolation (column : string)
| ForeignKeyViolation (column : string)
| UniqueViolation (column : string)
| Error (message : string).           (* [throw new Error(message)] *)

Inductive Outcome (A : Type) : Type :=
| Return (a : A)
| Throw (e : Exn).

Arguments Return {A} a.
Arguments Throw {A} e.

Definition M (A : Type) : Type := Db.t -> Outcome A * Db.t.

Definition ret {A : Type} (a : A) : M A := fun db => (Return a, db).

Definition bind {A B : Type} (c : M A) (k : A -> M B) : M B :=
  fun db =>
    match c db with
    | (Return a, db') => k a db'
    | (Throw e, db') => (Throw e, db')
    end.

Definition lift {A : Type} (o : Outcome A) : M A := fun db => (o, db).

Declare Scope db_scope.
Delimit Scope db_scope with db.
Notation "x <- c ;; k" := (bind c (fun x => k))
  (at level 100, c at next level, right associativity) : db_scope.
Notation "c ;;; k" := (bind c (fun _ => k))
  (at level 100, right associativity) : db_scope.

(** ** [server/storage.ts] *)

(** The keys of [Partial<InsertIssue>] that the status handler sets in its
    [updateData]; [status] comes from the request body unchecked. *)
Module IssueUpdates.
Record t : Type := mk {
  status : JS.Nullable string;
  assignedDepartment : option string;
  assignedTo : option string;
  actualResolutionDate : option Z }.
End IssueUpdates.

Module StatsFilters.
Record t : Type := mk { department : option string }.
End StatsFilters.

Module Stats.
Record t : Type := mk {
  total : nat;
  pending : nat;
  inProgress : nat;
  resolved : nat;
  avgResolutionDays : Q }.
End Stats.

Module Storage.

Definition mem (x : string) (l : list string) : bool :=
  existsb (String.eqb x) l.

(** A foreign key column: [NULL], or the key of a row of the table. *)
Definition references (v : option string) (keys : list string) : bool :=
  match v with
  | Some k => mem k keys
  | None => true
  end.

Definition issue_ids (db : Db.t) : list string :=
  map Issue.id (Db.issues db).

Definition history_ids (db : Db.t) : list string :=
  map IssueStatusHistory.id (Db.issueStatusHistory db).

(** [column.default(d)]: the default when the key is absent. *)
Definition with_default {A : Type} (v : option A) (d : A) : option A :=
  match v with
  | Some a => Some a
  | None => Some d
  end.

(** A number in a [real] column.  The driver sends the text of the
    number, [String(x)], and the database reads the text as a
    single-precision number. *)
Definition float4 (x : JS.JSNumber) : JS.JSNumber :=
  match x with
  | JS.Finite q => JS.to_single (JS.shortest JS.to_double q)
  | _ => x
  end.

Definition real (v : option JS.JSNumber) : option JS.JSNumber :=
  option_map float4 v.

(** The database refuses a text that is out of the range of the type: one
    that it reads as an infinity, or as zero though the number is not
    zero. *)
Definition real_ok (v : option JS.JSNumber) : bool :=
  match v with
  | Some (JS.Finite q) =>
      match float4 (JS.Finite q) with
      | JS.Finite f => (Qeq_bool q 0 || negb (Qeq_bool f 0))%bool
      | _ => false
      end
  | _ => true
  end.

(** [JSON.stringify] for a [jsonb] column. *)
Definition jsonb (r : IssueDetectionResult.t) : StoredDetection.t :=
  {| StoredDetection.issueType := IssueDetectionResult.issueType r;
     StoredDetection.confidence :=
       match IssueDetectionResult.confidence r with
       | JS.Finite q => Some q
       | _ => None
       end;
     StoredDetection.description := IssueDetectionResult.description r;
     StoredDetection.severity := IssueDetectionResult.severity r;
     StoredDetection.suggestedDepartment :=
       IssueDetectionResult.suggestedDepartment r |}.

(** The row that [db.insert(issues).values(issue)] writes; [newId] is the
    value of [gen_random_uuid()] and [now] the one of [defaultNow()]. *)
Definition new_issue_row (newId : string) (now : Z) (issue : InsertIssue.t)
  : Issue.t :=
  {| Issue.id := newId;
     Issue.reporterId := InsertIssue.reporterId issue;
     Issue.title := InsertIssue.title issue;
     Issue.description := InsertIssue.description issue;
     Issue.issueType := InsertIssue.issueType issue;
     Issue.priority := with_default (InsertIssue.priority issue) Schema.medium;
     Issue.status := with_default (InsertIssue.status issue) Schema.submitted;
     Issue.location := InsertIssue.location issue;
     Issue.latitude := real (InsertIssue.latitude issue);
     Issue.longitude := real (InsertIssue.longitude issue);
     Issue.address := InsertIssue.address issue;
     Issue.ward := InsertIssue.ward issue;
     Issue.assignedDepartment := InsertIssue.assignedDepartment issue;
     Issue.assignedTo := InsertIssue.assignedTo issue;
     Issue.photoUrl := InsertIssue.photoUrl issue;
     Issue.audioUrl := InsertIssue.audioUrl issue;
     Issue.transcription := InsertIssue.transcription issue;
     Issue.aiDetectionResult :=
       option_map jsonb (InsertIssue.aiDetectionResult issue);
     Issue.aiConfidence := real (InsertIssue.aiConfidence issue);
     Issue.estimatedResolutionDays := InsertIssue.estimatedResolutionDays issue;
     Issue.actualResolutionDate := InsertIssue.actualResolutionDate issue;
     Issue.smsNotificationSent :=
       with_default (InsertIssue.smsNotificationSent issue) false;
     Issue.language := with_default (InsertIssue.language issue) Schema.en;
     Issue.createdAt := Some now;
     Issue.updatedAt := Some now |}.

(** [createIssue]: the insert is refused when a number is out of the
    range of its column, when the generated id is taken (primary key) or
    when [reporterId] names no user (foreign key). *)
Definition createIssue (newId : string) (now : Z) (issue : InsertIssue.t)
  : M Issue.t :=
  fun db =>
    if negb (real_ok (InsertIssue.latitude issue)
             && real_ok (InsertIssue.longitude issue)
             && real_ok (InsertIssue.aiConfidence issue))
    then (Throw (NumericValueOutOfRange "real"), db)
    else if mem newId (issue_ids db) then (Throw (UniqueViolation "id"), db)
    else if negb (references (InsertIssue.reporterId issue) (Db.users db))
    then (Throw (ForeignKeyViolation "reporter_id"), db)
    else
      let newIssue := new_issue_row newId now issue in
      (Return newIssue,
       {| Db.users := Db.users db;
          Db.issues := Db.issues db ++ [newIssue];
          Db.issueStatusHistory := Db.issueStatusHistory db |}).

(** [getIssue]: [[issue]] of the rows with this id. *)
Definition getIssue (id : string) (db : Db.t) : option Issue.t :=
  find (fun i => String.eqb (Issue.id i) id) (Db.issues db).

(** [.set({ ...updates, updatedAt: new Date() })] on one row: a key that
    is absent leaves its column alone, and [status: null] empties the
    column.  [st] is the status of [updates] as a value of the enum. *)
Definition set_columns (st : JS.Nullable Schema.IssueStatus)
  (updates : IssueUpdates.t) (now : Z) (i : Issue.t) : Issue.t :=
  {| Issue.id := Issue.id i;
     Issue.reporterId := Issue.reporterId i;
     Issue.title := Issue.title i;
     Issue.description := Issue.description i;
     Issue.issueType := Issue.issueType i;
     Issue.priority := Issue.priority i;
     Issue.status :=
       match st with
       | JS.value s => Some s
       | JS.null => None
       | JS.undefined => Issue.status i
       end;
     Issue.location := Issue.location i;
     Issue.latitude := Issue.latitude i;
     Issue.longitude := Issue.longitude i;
     Issue.address := Issue.address i;
     Issue.ward := Issue.ward i;
     Issue.assignedDepartment :=
       match IssueUpdates.assignedDepartment updates with
       | Some d => Some d
       | None => Issue.assignedDepartment i
       end;
     Issue.assignedTo :=
       match IssueUpdates.assignedTo updates with
       | Some a => Some a
       | None => Issue.assignedTo i
       end;
     Issue.photoUrl := Issue.photoUrl i;
     Issue.audioUrl := Issue.audioUrl i;
     Issue.transcription := Issue.transcription i;
     Issue.aiDetectionResult := Issue.aiDetectionResult i;
     Issue.aiConfidence := Issue.aiConfidence i;
     Issue.estimatedResolutionDays := Issue.estimatedResolutionDays i;
     Issue.actualResolutionDate :=
       match IssueUpdates.actualResolutionDate updates with
       | Some d => Some d
       | None => Issue.actualResolutionDate i
       end;
     Issue.smsNotificationSent := Issue.smsNotificationSent i;
     Issue.language := Issue.language i;
     Issue.createdAt := Issue.createdAt i;
     Issue.updatedAt := Some now |}.

Definition update_where (id : string) (f : Issue.t -> Issue.t)
  (rows : list Issue.t) : list Issue.t :=
  map (fun i => if String.eqb (Issue.id i) id then f i else i) rows.

(** [updateIssue]: [UPDATE issues SET ... WHERE id = $id RETURNING *] and
    [[updatedIssue]] of the rows returned, which is [undefined] ([None])
    when no row has this id.  A status text that is no label of
    [issue_status] makes the statement fail. *)
Definition updateIssue (id : string) (updates : IssueUpdates.t) (now : Z)
  : M (option Issue.t) :=
  fun db =>
    let run (st : JS.Nullable Schema.IssueStatus) :=
      let rows := update_where id (set_columns st updates now) (Db.issues db) in
      (Return (find (fun i => String.eqb (Issue.id i) id) rows),
       {| Db.users := Db.users db;
          Db.issues := rows;
          Db.issueStatusHistory := Db.issueStatusHistory db |}) in
    match IssueUpdates.status updates with
    | JS.undefined => run JS.undefined
    | JS.null => run JS.null
    | JS.value s =>
        match Schema.issueStatusEnum s with
        | Some st => run (JS.value st)
        | None => (Throw (InvalidEnumValue s), db)
        end
    end.

(** [addStatusHistory]: the insert is refused when [status] is absent or
    [null] (not null) or no label of the enum, when the generated id is
    taken, or when [issueId] or [updatedBy] names no row (foreign keys). *)
Definition addStatusHistory (newId : string) (now : Z)
  (history : InsertIssueStatusHistory.t) : M IssueStatusHistory.t :=
  fun db =>
    match InsertIssueStatusHistory.status history with
    | JS.undefined | JS.null => (Throw (NotNullViolation "status"), db)
    | JS.value s =>
        match Schema.issueStatusEnum s with
        | None => (Throw (InvalidEnumValue s), db)
        | Some st =>
            if mem newId (history_ids db)
            then (Throw (UniqueViolation "id"), db)
            else if negb (references (InsertIssueStatusHistory.issueId history)
                                     (issue_ids db))
            then (Throw (ForeignKeyViolation "issue_id"), db)
            else if negb (references (InsertIssueStatusHistory.updatedBy history)
                                     (Db.users db))
            then (Throw (ForeignKeyViolation "updated_by"), db)
            else
              let newHistory :=
                {| IssueStatusHistory.id := newId;
                   IssueStatusHistory.issueId :=
                     InsertIssueStatusHistory.issueId history;
                   IssueStatusHistory.status := st;
                   IssueStatusHistory.notes :=
                     InsertIssueStatusHistory.notes history;
                   IssueStatusHistory.updatedBy :=
                     InsertIssueStatusHistory.updatedBy history;
                   IssueStatusHistory.createdAt := Some now |} in
              (Return newHistory,
               {| Db.users := Db.users db;
                  Db.issues := Db.issues db;
                  Db.issueStatusHistory :=
                    Db.issueStatusHistory db ++ [newHistory] |})
        end
    end.

(** [new Date(d).getTime()] for a timestamp column: [null] is the epoch. *)
Definition getTime (d : option Z) : Z :=
  match d with
  | Some t => t
  | None => 0
  end.

Definition isSome {A : Type} (o : option A) : bool :=
  match o with Some _ => true | None => false end.

(** The query of [getIssueStats]: all the issues, or those whose
    [assignedDepartment] is the department of the filter when that is
    given and not empty. *)
Definition baseQuery (filters : option StatsFilters.t) (db : Db.t)
  : list Issue.t :=
  match filters with
  | Some f =>
      match StatsFilters.department f with
      | Some d =>
          if (d =? "")%string then Db.issues db
          else
            filter (fun i =>
                      match Issue.assignedDepartment i with
                      | Some a => String.eqb a d
                      | None => false
                      end) (Db.issues db)
      | None => Db.issues db
      end
  | None => Db.issues db
  end.

Definition diffDays (issue : Issue.t) : Z :=
  let resolutionDate := getTime (Issue.actualResolutionDate issue) in
  let createdDate := getTime (Issue.createdAt issue) in
  JS.Math_ceil (inject_Z (resolutionDate - createdDate)
                / inject_Z (1000 * 60 * 60 * 24)).

Definition getIssueStats (filters : option StatsFilters.t) (db : Db.t)
  : Stats.t :=
  let allIssues := baseQuery filters db in
  let resolvedIssues :=
    filter (fun i => Schema.status_is Schema.resolved (Issue.status i)
                     && isSome (Issue.actualResolutionDate i))%bool
           allIssues in
  {| Stats.total := length allIssues;
     Stats.pending :=
       length (filter (fun i =>
                         Schema.status_is Schema.submitted (Issue.status i)
                         || Schema.status_is Schema.acknowledged (Issue.status i))%bool
                      allIssues);
     Stats.inProgress :=
       length (filter (fun i => Schema.status_is Schema.in_progress (Issue.status i))
                      allIssues);
     Stats.resolved :=
       length (filter (fun i => Schema.status_is Schema.resolved (Issue.status i))
                      allIssues);
     Stats.avgResolutionDays :=
       match resolvedIssues with
       | [] => 0%Q
       | _ :: _ =>
           let totalDays :=
             fold_left (fun sum issue => sum + diffDays issue) resolvedIssues 0 in
           (inject_Z
              (JS.Math_round
                 (inject_Z totalDays
                  / inject_Z (Z.of_nat (length resolvedIssues)) * 10))
            / 10)%Q
       end |}.

End Storage.

(** ** [server/openai.ts] *)

(** What a call of the AI service, followed by [JSON.parse] of its answer,
    comes to: a parsed object, or an exception with its message. *)
Inductive Reply (A : Type) : Type :=
| Replied (result : A)
| Failed (message : string).

Arguments Replied {A} result.
Arguments Failed {A} message.

(** The object parsed from the answer to the image prompt, every key
    optional; [confidence] is whatever value the answer gives it. *)
Module RawDetection.
Record t : Type := mk {
  issueType : option string;
  confidence : JS.Value;
  description : option string;
  severity : option string;
  suggestedDepartment : option string }.
End RawDetection.

(** The transcription together with the parsed language answer. *)
Module RawTranscription.
Record t : Type := mk {
  text : string;
  language : option string }.
End RawTranscription.

Module Transcription.
Record t : Type := mk {
  text : string;
  language : string }.
End Transcription.

Module RawExtraction.
Record t : Type := mk {
  issueType : option string;
  location : option string;
  description : option string;
  priority : option string }.
End RawExtraction.

Module ExtractedInfo.
Record t : Type := mk {
  issueType : string;
  location : option string;
  description : string;
  priority : string }.
End ExtractedInfo.

Module OpenAI.

Local Open Scope string_scope.

(** [result.confidence || 0] as [Math.min] takes it, a number. *)
Definition confidence_or_0 (c : JS.Value) : JS.JSNumber :=
  if JS.truthy_value c then JS.ToNumber c else JS.Finite 0.

Definition analyzeIssueImage (reply : Reply RawDetection.t)
  : Outcome IssueDetectionResult.t :=
  match reply with
  | Replied result =>
      Return
        {| IssueDetectionResult.issueType :=
             JS.or_lit (RawDetection.issueType result) "other";
           IssueDetectionResult.confidence :=
             JS.Math_max (JS.Finite 0) (JS.Math_min (JS.Finite 1)
               (confidence_or_0 (RawDetection.confidence result)));
           IssueDetectionResult.description :=
             JS.or_lit (RawDetection.description result)
                       "Issue detected in image";
           IssueDetectionResult.severity :=
             JS.or_lit (RawDetection.severity result) "medium";
           IssueDetectionResult.suggestedDepartment :=
             JS.or_lit (RawDetection.suggestedDepartment result)
                       "General Services" |}
  | Failed message => Throw (Error ("Failed to analyze image: " ++ message))
  end.

Definition transcribeAudio (reply : Reply RawTranscription.t)
  : Outcome Transcription.t :=
  match reply with
  | Replied r =>
      Return
        {| Transcription.text := RawTranscription.text r;
           Transcription.language :=
             JS.or_lit (RawTranscription.language r) "en" |}
  | Failed message => Throw (Error ("Failed to transcribe audio: " ++ message))
  end.

Definition extractIssueFromText (reply : Reply RawExtraction.t)
  (text language : string) : Outcome ExtractedInfo.t :=
  match reply with
  | Replied result =>
      Return
        {| ExtractedInfo.issueType :=
             JS.or_lit (RawExtraction.issueType result) "other";
           ExtractedInfo.location := RawExtraction.location result;
           ExtractedInfo.description :=
             JS.or_lit (RawExtraction.description result) text;
           ExtractedInfo.priority :=
             JS.or_lit (RawExtraction.priority result) "medium" |}
  | Failed message =>
      Throw (Error ("Failed to extract issue information: " ++ message))
  end.

End OpenAI.

(** ** [server/routes.ts] *)

(** [req.body] of [POST /api/issues]: the text fields of the multipart
    form, each a string or absent. *)
Module IssueForm.
Record t : Type := mk {
  title : option string;
  description : option string;
  issueType : option string;
  priority : option string;
  location : option string;
  latitude : option string;
  longitude : option string;
  address : option string;
  ward : option string;
  assignedDepartment : option string;
  reporterId : option string;
  photoUrl : option string;
  audioUrl : option string;
  language : option string }.
End IssueForm.

(** [req.files] of [POST /api/issues], each upload with what the AI service
    answers for it.  Reading and deleting the uploaded files is taken to
    succeed. *)
Module Files.
Record t : Type := mk {
  photo : option (Reply RawDetection.t);
  audio : option (Reply RawTranscription.t * Reply RawExtraction.t) }.
End Files.

(** The object literal [issueData]. *)
Module IssueData.
Record t : Type := mk {
  title : string;
  description : option string;
  issueType : string;
  priority : string;
  location : string;
  latitude : option JS.JSNumber;
  longitude : option JS.JSNumber;
  address : string;
  ward : string;
  assignedDepartment : string;
  reporterId : option string;
  photoUrl : option string;
  audioUrl : option string;
  transcription : option string;
  aiDetectionResult : option IssueDetectionResult.t;
  aiConfidence : option JS.JSNumber;
  language : string }.
End IssueData.

(** [req.body] of [PATCH /api/issues/:id/status]: JSON strings, [null] or
    absent.  The program tells [null] from absent for [status] only; for
    the other keys both are [None]. *)
Module StatusUpdate.
Record t : Type := mk {
  status : JS.Nullable string;
  notes : option string;
  updatedBy : option string;
  assignedDepartment : option string;
  assignedTo : option string }.
End StatusUpdate.

(** [insertIssueSchema.parse] of [shared/schema.ts], on the object that the
    submission handler builds.  [createInsertSchema] derives the schema
    from the columns: the three enumerated fields must be labels of their
    enum, and a number of a [real] column must be a number, not NaN, from
    -8388608 to 8388607; the other fields of [issueData] have the type of
    their column by construction.  The error lists the fields refused. *)
Module InsertIssueSchema.

Local Open Scope string_scope.

Definition number_ok (n : option JS.JSNumber) : bool :=
  match n with
  | Some (JS.Finite q) => (Qle_bool (-8388608) q && Qle_bool q 8388607)%bool
  | Some _ => false
  | None => true
  end.

Definition issues_of (d : IssueData.t) : list string :=
  (match Schema.issueTypeEnum (IssueData.issueType d) with
   | Some _ => [] | None => ["issueType"] end)
  ++ (match Schema.priorityEnum (IssueData.priority d) with
      | Some _ => [] | None => ["priority"] end)
  ++ (if number_ok (IssueData.latitude d) then [] else ["latitude"])
  ++ (if number_ok (IssueData.longitude d) then [] else ["longitude"])
  ++ (if number_ok (IssueData.aiConfidence d) then [] else ["aiConfidence"])
  ++ (match Schema.languageEnum (IssueData.language d) with
      | Some _ => [] | None => ["language"] end).

Definition parse (d : IssueData.t) : Outcome InsertIssue.t :=
  match Schema.issueTypeEnum (IssueData.issueType d),
        Schema.priorityEnum (IssueData.priority d),
        Schema.languageEnum (IssueData.language d),
        (number_ok (IssueData.latitude d)
         && number_ok (IssueData.longitude d)
         && number_ok (IssueData.aiConfidence d))%bool with
  | Some issueType, Some priority, Some language, true =>
      Return
        {| InsertIssue.reporterId := IssueData.reporterId d;
           InsertIssue.title := IssueData.title d;
           InsertIssue.description := IssueData.description d;
           InsertIssue.issueType := issueType;
           InsertIssue.priority := Some priority;
           InsertIssue.status := None;
           InsertIssue.location := IssueData.location d;
           InsertIssue.latitude := IssueData.latitude d;
           InsertIssue.longitude := IssueData.longitude d;
           InsertIssue.address := Some (IssueData.address d);
           InsertIssue.ward := Some (IssueData.ward d);
           InsertIssue.assignedDepartment := Some (IssueData.assignedDepartment d);
           InsertIssue.assignedTo := None;
           InsertIssue.photoUrl := IssueData.photoUrl d;
           InsertIssue.audioUrl := IssueData.audioUrl d;
           InsertIssue.transcription := IssueData.transcription d;
           InsertIssue.aiDetectionResult := IssueData.aiDetectionResult d;
           InsertIssue.aiConfidence := IssueData.aiConfidence d;
           InsertIssue.estimatedResolutionDays := None;
           InsertIssue.actualResolutionDate := None;
           InsertIssue.smsNotificationSent := None;
           InsertIssue.language := Some language |}
  | _, _, _, _ => Throw (ZodError (issues_of d))
  end.

End InsertIssueSchema.

Inductive Json : Type :=
| JsonIssue (issue : option Issue.t)     (* [undefined] gives an empty body *)
| JsonStats (stats : Stats.t)
| JsonMessage (message : string) (error : option Exn).

Module Response.
Record t : Type := mk { status : Z; json : Json }.
End Response.

(** The generated ids and the clock readings of one request. *)
Module PostEnv.
Record t : Type := mk {
  issueId : string;       (* [gen_random_uuid()] of the issue *)
  issueNow : Z;           (* [defaultNow()] of the issue *)
  historyId : string;
  historyNow : Z }.
End PostEnv.

Module PatchEnv.
Record t : Type := mk {
  now : Z;                (* [new Date()] in the handler *)
  updatedAt : Z;          (* [new Date()] in [updateIssue] *)
  historyId : string;
  historyNow : Z }.
End PatchEnv.

Module Routes.

Local Open Scope string_scope.
Local Open Scope db_scope.

(** [try { ... res.json(..) } catch (error) { res.status(500).json(..) }] *)
Definition try_respond (c : M Response.t) (h : Exn -> Response.t)
  (db : Db.t) : Response.t * Db.t :=
  match c db with
  | (Return r, db') => (r, db')
  | (Throw e, db') => (h e, db')
  end.

(** [try { x = await f() } catch (error) { console.error(..) }] with [x]
    initialised to [null]. *)
Definition or_null_on_throw {A : Type} (o : Outcome A) : option A :=
  match o with
  | Return a => Some a
  | Throw _ => None
  end.

(** "Process photo if uploaded" *)
Definition process_photo (files : Files.t) : option IssueDetectionResult.t :=
  match Files.photo files with
  | Some reply => or_null_on_throw (OpenAI.analyzeIssueImage reply)
  | None => None
  end.

(** "Process audio if uploaded": [transcription] and [extractedInfo]. *)
Definition process_audio (files : Files.t)
  : option string * option ExtractedInfo.t :=
  match Files.audio files with
  | Some (transcriptionReply, extractionReply) =>
      match OpenAI.transcribeAudio transcriptionReply with
      | Return transcriptionResult =>
          let transcription := Transcription.text transcriptionResult in
          (Some transcription,
           or_null_on_throw
             (OpenAI.extractIssueFromText extractionReply transcription
                (Transcription.language transcriptionResult)))
      | Throw _ => (None, None)
      end
  | None => (None, None)
  end.

(** [s ? parseFloat(s) : null] *)
Definition parse_coordinate (s : option string) : option JS.JSNumber :=
  match s with
  | Some v => if JS.truthy s then Some (JS.parseFloat v) else None
  | None => None
  end.

(** [aiDetectionResult?.confidence || null] *)
Definition confidence_or_null (aiDetectionResult : option IssueDetectionResult.t)
  : option JS.JSNumber :=
  match aiDetectionResult with
  | Some r =>
      let c := IssueDetectionResult.confidence r in
      if JS.truthy_num c then Some c else None
  | None => None
  end.

(** "Prepare issue data" *)
Definition issueData (body : IssueForm.t)
  (aiDetectionResult : option IssueDetectionResult.t)
  (transcription : option string)
  (extractedInfo : option ExtractedInfo.t) : IssueData.t :=
  {| IssueData.title :=
       JS.or_lit
         (JS.or_else (IssueForm.title body)
            (JS.or_else
               (JS.opt_chain aiDetectionResult IssueDetectionResult.description)
               (JS.opt_chain extractedInfo ExtractedInfo.description)))
         "New Issue";
     IssueData.description :=
       JS.or_else (IssueForm.description body)
         (JS.or_else
            (JS.opt_chain aiDetectionResult IssueDetectionResult.description)
            (JS.opt_chain extractedInfo ExtractedInfo.description));
     IssueData.issueType :=
       JS.or_lit
         (JS.or_else (IssueForm.issueType body)
            (JS.or_else
               (JS.opt_chain aiDetectionResult IssueDetectionResult.issueType)
               (JS.opt_chain extractedInfo ExtractedInfo.issueType)))
         "other";
     IssueData.priority :=
       JS.or_lit
         (JS.or_else (IssueForm.priority body)
            (JS.or_else
               (JS.opt_chain aiDetectionResult IssueDetectionResult.severity)
               (JS.opt_chain extractedInfo ExtractedInfo.priority)))
         "medium";
     IssueData.location :=
       JS.or_lit
         (JS.or_else (IssueForm.location body)
            (match extractedInfo with
             | Some e => ExtractedInfo.location e
             | None => None
             end))
         "";
     IssueData.latitude := parse_coordinate (IssueForm.latitude body);
     IssueData.longitude := parse_coordinate (IssueForm.longitude body);
     IssueData.address := JS.or_lit (IssueForm.address body) "";
     IssueData.ward := JS.or_lit (IssueForm.ward body) "";
     IssueData.assignedDepartment :=
       JS.or_lit
         (JS.or_else (IssueForm.assignedDepartment body)
            (JS.opt_chain aiDetectionResult
               IssueDetectionResult.suggestedDepartment))
         "";
     IssueData.reporterId := JS.or_null (IssueForm.reporterId body);
     IssueData.photoUrl := JS.or_null (IssueForm.photoUrl body);
     IssueData.audioUrl := JS.or_null (IssueForm.audioUrl body);
     IssueData.transcription := transcription;
     IssueData.aiDetectionResult := aiDetectionResult;
     IssueData.aiConfidence := confidence_or_null aiDetectionResult;
     IssueData.language := JS.or_lit (IssueForm.language body) "en" |}.

(** [POST /api/issues] from "Prepare issue data" on, given what the
    processing of the uploads left in [aiDetectionResult], [transcription]
    and [extractedInfo]. *)
Definition create_from (env : PostEnv.t) (body : IssueForm.t)
  (aiDetectionResult : option IssueDetectionResult.t)
  (transcription : option string)
  (extractedInfo : option ExtractedInfo.t) : Db.t -> Response.t * Db.t :=
  let issueData := issueData body aiDetectionResult transcription extractedInfo in
  try_respond
    (validatedData <- lift (InsertIssueSchema.parse issueData) ;;
     newIssue <- Storage.createIssue (PostEnv.issueId env)
                   (PostEnv.issueNow env) validatedData ;;
     Storage.addStatusHistory (PostEnv.historyId env) (PostEnv.historyNow env)
       {| InsertIssueStatusHistory.issueId := Some (Issue.id newIssue);
          InsertIssueStatusHistory.status := JS.value "submitted";
          InsertIssueStatusHistory.notes := Some "Issue submitted";
          InsertIssueStatusHistory.updatedBy :=
            JS.or_null (IssueForm.reporterId body) |} ;;;
     ret {| Response.status := 201;
            Response.json := JsonIssue (Some newIssue) |})
    (fun error =>
       {| Response.status := 500;
          Response.json := JsonMessage "Failed to create issue" (Some error) |}).

(** [POST /api/issues] *)
Definition post_api_issues (env : PostEnv.t) (body : IssueForm.t)
  (files : Files.t) : Db.t -> Response.t * Db.t :=
  let aiDetectionResult := process_photo files in
  let (transcription, extractedInfo) := process_audio files in
  create_from env body aiDetectionResult transcription extractedInfo.

(** [if (v) updateData.key = v] *)
Definition if_truthy (v : option string) : option string :=
  if JS.truthy v then v else None.

(** [status === "resolved"] *)
Definition is_resolved (status : JS.Nullable string) : bool :=
  match status with
  | JS.value s => s =? "resolved"
  | _ => false
  end.

(** [updateData] of the status handler. *)
Definition updateData (now : Z) (body : StatusUpdate.t) : IssueUpdates.t :=
  {| IssueUpdates.status := StatusUpdate.status body;
     IssueUpdates.assignedDepartment :=
       if_truthy (StatusUpdate.assignedDepartment body);
     IssueUpdates.assignedTo := if_truthy (StatusUpdate.assignedTo body);
     IssueUpdates.actualResolutionDate :=
       if is_resolved (StatusUpdate.status body) then Some now else None |}.

(** [PATCH /api/issues/:id/status] *)
Definition patch_api_issues_id_status (env : PatchEnv.t) (id : string)
  (body : StatusUpdate.t) : Db.t -> Response.t * Db.t :=
  try_respond
    (updatedIssue <- Storage.updateIssue id
                       (updateData (PatchEnv.now env) body)
                       (PatchEnv.updatedAt env) ;;
     Storage.addStatusHistory (PatchEnv.historyId env) (PatchEnv.historyNow env)
       {| InsertIssueStatusHistory.issueId := Some id;
          InsertIssueStatusHistory.status := StatusUpdate.status body;
          InsertIssueStatusHistory.notes := StatusUpdate.notes body;
          InsertIssueStatusHistory.updatedBy := StatusUpdate.updatedBy body |} ;;;
     ret {| Response.status := 200;
            Response.json := JsonIssue updatedIssue |})
    (fun _ =>
       {| Response.status := 500;
          Response.json := JsonMessage "Failed to update issue status" None |}).

(** [GET /api/issues/:id] *)
Definition get_api_issues_id (id : string) (db : Db.t) : Response.t :=
  match Storage.getIssue id db with
  | None => {| Response.status := 404;
               Response.json := JsonMessage "Issue not found" None |}
  | Some issue => {| Response.status := 200;
                     Response.json := JsonIssue (Some issue) |}
  end.

(** [GET /api/stats] *)
Definition get_api_stats (department : option string) (db : Db.t) : Response.t :=
  {| Response.status := 200;
     Response.json :=
       JsonStats (Storage.getIssueStats
                    (Some {| StatsFilters.department := department |}) db) |}.

End Routes.

(** ** The statistics as the specification words them *)

Module StatsSpec.

Definition day : Z := 86400 * 1000.

Fixpoint count_status (st : Schema.IssueStatus) (l : list Issue.t) : nat :=
  match l with
  | [] => 0
  | i :: r =>
      match Issue.status i with
      | Some s => if Schema.issueStatus_eqb s st then S (count_status st r)
                  else count_status st r
      | None => count_status st r
      end
  end.

(** Status resolved and an [actualResolutionDate] present. *)
Definition qualifies (i : Issue.t) : bool :=
  match Issue.status i, Issue.actualResolutionDate i with
  | Some Schema.resolved, Some _ => true
  | _, _ => false
  end.

(** The least number of whole days that covers the time from creation to
    resolution. *)
Definition resolution_days (i : Issue.t) : Z :=
  - ((Storage.getTime (Issue.createdAt i)
      - Storage.getTime (Issue.actualResolutionDate i)) / day).

Fixpoint sum_days (l : list Issue.t) : Z :=
  match l with
  | [] => 0
  | i :: r => resolution_days i + sum_days r
  end.

Definition mean_days (l : list Issue.t) : Q :=
  inject_Z (sum_days l) / inject_Z (Z.of_nat (length l)).

(** The department filter, when one applies. *)
Definition in_scope (filters : option StatsFilters.t) (i : Issue.t) : Prop :=
  match filters with
  | Some f =>
      match StatsFilters.department f with
      | Some d => d = ""%string \/ Issue.assignedDepartment i = Some d
      | None => True
      end
  | None => True
  end.

End StatsSpec.

(** ** The two writes of a status update *)

Module WorkflowSpec.

(** The database after the first write, [updateIssue]. *)
Definition after_update (env : PatchEnv.t) (id : string)
  (body : StatusUpdate.t) (st : JS.Nullable Schema.IssueStatus) (db : Db.t)
  : Db.t :=
  {| Db.users := Db.users db;
     Db.issues :=
       Storage.update_where id
         (Storage.set_columns st (Routes.updateData (PatchEnv.now env) body)
            (PatchEnv.updatedAt env))
         (Db.issues db);
     Db.issueStatusHistory := Db.issueStatusHistory db |}.

(** The entry that the second write, [addStatusHistory], appends. *)
Definition history_entry (env : PatchEnv.t) (id : string)
  (body : StatusUpdate.t) (st : Schema.IssueStatus) : IssueStatusHistory.t :=
  {| IssueStatusHistory.id := PatchEnv.historyId env;
     IssueStatusHistory.issueId := Some id;
     IssueStatusHistory.status := st;
     IssueStatusHistory.notes := StatusUpdate.notes body;
     IssueStatusHistory.updatedBy := StatusUpdate.updatedBy body;
     IssueStatusHistory.createdAt := Some (PatchEnv.historyNow env) |}.

Definition append_history (e : IssueStatusHistory.t) (db : Db.t) : Db.t :=
  {| Db.users := Db.users db;
     Db.issues := Db.issues db;
     Db.issueStatusHistory := Db.issueStatusHistory db ++ [e] |}.

(** The history insert of a status update is accepted: the generated id
    is free, the issue exists and the actor is absent or a user. *)
Definition history_accepted (env : PatchEnv.t) (id : string)
  (body : StatusUpdate.t) (db : Db.t) : bool :=
  negb (Storage.mem (PatchEnv.historyId env) (Storage.history_ids db))
  && Storage.isSome (Storage.getIssue id db)
  && Storage.references (StatusUpdate.updatedBy body) (Db.users db).

Definition failed_to_update : Response.t :=
  {| Response.status := 500;
     Response.json := JsonMessage "Failed to update issue status" None |}.

End WorkflowSpec.

(** ** The fusion of a submission as the specification words it *)

Module SubmissionSpec.

Local Open Scope string_scope.


(** The same without a default: [None] when every candidate is absent
    or empty. *)
Fixpoint first_present (candidates : list (option string)) : option string :=
  match candidates with
  | [] => None
  | Some s :: rest => if s =? "" then first_present rest else Some s
  | None :: rest => first_present rest
  end.

Definition description_of (r : option IssueDetectionResult.t) : option string :=
  option_map IssueDetectionResult.description r.

Definition voice_description_of (e : option ExtractedInfo.t) : option string :=
  option_map ExtractedInfo.description e.

Definition noFiles : Files.t := {| Files.photo := None; Files.audio := None |}.





(** The issue that a response carries, if it carries one. *)
Definition issue_of (r : Response.t) : option Issue.t :=
  match Response.json r with
  | JsonIssue i => i
  | _ => None
  end.

(** The first history entry of a new issue. *)
Definition first_entry (env : PostEnv.t) (body : IssueForm.t)
  : IssueStatusHistory.t :=
  {| IssueStatusHistory.id := PostEnv.historyId env;
     IssueStatusHistory.issueId := Some (PostEnv.issueId env);
     IssueStatusHistory.status := Schema.submitted;
     IssueStatusHistory.notes := Some "Issue submitted";
     IssueStatusHistory.updatedBy := JS.or_null (IssueForm.reporterId body);
     IssueStatusHistory.createdAt := Some (PostEnv.historyNow env) |}.

(** The database after an issue and its first history entry are stored. *)
Definition after_create (env : PostEnv.t) (body : IssueForm.t)
  (row : Issue.t) (db : Db.t) : Db.t :=
  {| Db.users := Db.users db;
     Db.issues := Db.issues db ++ [row];
     Db.issueStatusHistory :=
       Db.issueStatusHistory db ++ [first_entry env body] |}.

End SubmissionSpec.

(** ** Sample data *)

Module Sample.

Local Open Scope string_scope.

(** An issue as [createIssue] stores a bare report, with the columns the
    workflow and the statistics look at given. *)
Definition issue (id : string) (status : Schema.IssueStatus)
  (department : option string) (createdAt : Z)
  (actualResolutionDate : option Z) : Issue.t :=
  {| Issue.id := id;
     Issue.reporterId := None;
     Issue.title := "Pothole on Main Road";
     Issue.description := Some "Large pothole causing traffic issues";
     Issue.issueType := Schema.pothole;
     Issue.priority := Some Schema.high;
     Issue.status := Some status;
     Issue.location := "Bandra West, Mumbai";
     Issue.latitude := None;
     Issue.longitude := None;
     Issue.address := Some "";
     Issue.ward := Some "";
     Issue.assignedDepartment := department;
     Issue.assignedTo := None;
     Issue.photoUrl := None;
     Issue.audioUrl := None;
     Issue.transcription := None;
     Issue.aiDetectionResult := None;
     Issue.aiConfidence := None;
     Issue.estimatedResolutionDays := None;
     Issue.actualResolutionDate := actualResolutionDate;
     Issue.smsNotificationSent := Some false;
     Issue.language := Some Schema.en;
     Issue.createdAt := Some createdAt;
     Issue.updatedAt := Some createdAt |}.

Definition t0 : Z := 1700000000000.

(** One user, and three issues: one open, one resolved after two days and
    a half, one resolved after three days. *)
Definition db : Db.t :=
  {| Db.users := ["u1"];
     Db.issues :=
       [ issue "i1" Schema.submitted (Some "Public Works") t0 None;
         issue "i2" Schema.resolved (Some "Public Works") t0
               (Some (t0 + 216000000));
         issue "i3" Schema.resolved (Some "Sanitation") t0
               (Some (t0 + 259200000)) ];
     Db.issueStatusHistory := [] |}.


Definition patchEnv : PatchEnv.t :=
  {| PatchEnv.now := t0 + 432000000;
     PatchEnv.updatedAt := t0 + 432000001;
     PatchEnv.historyId := "h1";
     PatchEnv.historyNow := t0 + 432000002 |}.

(** A status update by the user "u1" with no assignment. *)
Definition statusUpdate (status : string) : StatusUpdate.t :=
  {| StatusUpdate.status := JS.value status;
     StatusUpdate.notes := Some "checked on site";
     StatusUpdate.updatedBy := Some "u1";
     StatusUpdate.assignedDepartment := None;
     StatusUpdate.assignedTo := None |}.



Definition postEnv : PostEnv.t :=
  {| PostEnv.issueId := "i4";
     PostEnv.issueNow := t0 + 500000000;
     PostEnv.historyId := "h1";
     PostEnv.historyNow := t0 + 500000001 |}.

(** A form with nothing filled in. *)
Definition emptyForm : IssueForm.t :=
  {| IssueForm.title := None;
     IssueForm.description := None;
     IssueForm.issueType := None;
     IssueForm.priority := None;
     IssueForm.location := None;
     IssueForm.latitude := None;
     IssueForm.longitude := None;
     IssueForm.address := None;
     IssueForm.ward := None;
     IssueForm.assignedDepartment := None;
     IssueForm.reporterId := None;
     IssueForm.photoUrl := None;
     IssueForm.audioUrl := None;
     IssueForm.language := None |}.

(** A report filled in by hand, with the coordinates as the browser
    sends them. *)
Definition form : IssueForm.t :=
  {| IssueForm.title := Some "Streetlight Not Working";
     IssueForm.description := Some "Street light has been non-functional for 3 days";
     IssueForm.issueType := Some "streetlight";
     IssueForm.priority := Some "high";
     IssueForm.location := Some "Andheri East, Mumbai";
     IssueForm.latitude := Some "19.1197";
     IssueForm.longitude := Some "72.8697";
     IssueForm.address := Some "WEH Metro Station, Andheri East";
     IssueForm.ward := Some "E";
     IssueForm.assignedDepartment := None;
     IssueForm.reporterId := Some "u1";
     IssueForm.photoUrl := None;
     IssueForm.audioUrl := None;
     IssueForm.language := Some "en" |}.

(** What the validation passes on of the sample form. *)
Definition validForm : InsertIssue.t :=
  {| InsertIssue.reporterId := Some "u1";
     InsertIssue.title := "Streetlight Not Working";
     InsertIssue.description :=
       Some "Street light has been non-functional for 3 days";
     InsertIssue.issueType := Schema.streetlight;
     InsertIssue.priority := Some Schema.high;
     InsertIssue.status := None;
     InsertIssue.location := "Andheri East, Mumbai";
     InsertIssue.latitude := Some (JS.parseFloat "19.1197");
     InsertIssue.longitude := Some (JS.parseFloat "72.8697");
     InsertIssue.address := Some "WEH Metro Station, Andheri East";
     InsertIssue.ward := Some "E";
     InsertIssue.assignedDepartment := Some "";
     InsertIssue.assignedTo := None;
     InsertIssue.photoUrl := None;
     InsertIssue.audioUrl := None;
     InsertIssue.transcription := None;
     InsertIssue.aiDetectionResult := None;
     InsertIssue.aiConfidence := None;
     InsertIssue.estimatedResolutionDays := None;
     InsertIssue.actualResolutionDate := None;
     InsertIssue.smsNotificationSent := None;
     InsertIssue.language := Some Schema.en |}.

(** The empty form with a latitude that is no number. *)
Definition formWithLatitude (latitude : string) : IssueForm.t :=
  {| IssueForm.title := None;
     IssueForm.description := None;
     IssueForm.issueType := None;
     IssueForm.priority := None;
     IssueForm.location := None;
     IssueForm.latitude := Some latitude;
     IssueForm.longitude := None;
     IssueForm.address := None;
     IssueForm.ward := None;
     IssueForm.assignedDepartment := None;
     IssueForm.reporterId := None;
     IssueForm.photoUrl := None;
     IssueForm.audioUrl := None;
     IssueForm.language := None |}.

(** The answer of the image service of the example of the specification,
    with the confidence given. *)
Definition detection (confidence : JS.Value) : RawDetection.t :=
  {| RawDetection.issueType := Some "pothole";
     RawDetection.confidence := confidence;
     RawDetection.description := Some "Large pothole";
     RawDetection.severity := Some "high";
     RawDetection.suggestedDepartment := None |}.

Definition photoOnly (reply : Reply RawDetection.t) : Files.t :=
  {| Files.photo := Some reply; Files.audio := None |}.


End Sample.

(** ** Integrity of the database *)

From Stdlib Require Import Permutation Sorted.

Module Integrity.

(** The primary keys of [issues] and [issue_status_history]. *)
Definition unique_keys (db : Db.t) : Prop :=
  NoDup (Storage.issue_ids db) /\ NoDup (Storage.history_ids db).

(** The three references of the schema: [issues.reporter_id] and
    [issue_status_history.updated_by] to [users.id],
    [issue_status_history.issue_id] to [issues.id]. *)
Definition foreign_keys (db : Db.t) : Prop :=
  (forall i, In i (Db.issues db) ->
             Storage.references (Issue.reporterId i) (Db.users db) = true)
  /\ (forall h, In h (Db.issueStatusHistory db) ->
                Storage.references (IssueStatusHistory.issueId h)
                  (Storage.issue_ids db) = true
                /\ Storage.references (IssueStatusHistory.updatedBy h)
                     (Db.users db) = true).

Definition consistent (db : Db.t) : Prop :=
  unique_keys db /\ foreign_keys db.

(** The columns of an issue that a status update never writes. *)
Definition report_of (i : Issue.t)
  : string * option string * string * option string * Schema.IssueType
    * option Schema.Priority * string * option JS.JSNumber
    * option JS.JSNumber * option Z :=
  (Issue.id i, Issue.reporterId i, Issue.title i, Issue.description i,
   Issue.issueType i, Issue.priority i, Issue.location i, Issue.latitude i,
   Issue.longitude i, Issue.createdAt i).

End Integrity.

(** ** More sample data *)

Module Examples.

Local Open Scope string_scope.

(** The issue that the hand-filled sample form is stored as. *)
Definition streetlight : Issue.t :=
  {| Issue.id := "i4";
     Issue.reporterId := Some "u1";
     Issue.title := "Streetlight Not Working";
     Issue.description := Some "Street light has been non-functional for 3 days";
     Issue.issueType := Schema.streetlight;
     Issue.priority := Some Schema.high;
     Issue.status := Some Schema.submitted;
     Issue.location := "Andheri East, Mumbai";
     Issue.latitude := Some (Storage.float4 (JS.parseFloat "19.1197"));
     Issue.longitude := Some (Storage.float4 (JS.parseFloat "72.8697"));
     Issue.address := Some "WEH Metro Station, Andheri East";
     Issue.ward := Some "E";
     Issue.assignedDepartment := Some "";
     Issue.assignedTo := None;
     Issue.photoUrl := None;
     Issue.audioUrl := None;
     Issue.transcription := None;
     Issue.aiDetectionResult := None;
     Issue.aiConfidence := None;
     Issue.estimatedResolutionDays := None;
     Issue.actualResolutionDate := None;
     Issue.smsNotificationSent := Some false;
     Issue.language := Some Schema.en;
     Issue.createdAt := Some (Sample.t0 + 500000000);
     Issue.updatedAt := Some (Sample.t0 + 500000000) |}.

(** The three issues of the sample database. *)
Definition i1 : Issue.t :=
  Sample.issue "i1" Schema.submitted (Some "Public Works") Sample.t0 None.
Definition i2 : Issue.t :=
  Sample.issue "i2" Schema.resolved (Some "Public Works") Sample.t0
    (Some (Sample.t0 + 216000000)).
Definition i3 : Issue.t :=
  Sample.issue "i3" Schema.resolved (Some "Sanitation") Sample.t0
    (Some (Sample.t0 + 259200000)).



(** The sample database with its issues in the opposite order. *)
Definition reversed : Db.t :=
  {| Db.users := Db.users Sample.db;
     Db.issues := [i3; i2; i1];
     Db.issueStatusHistory := [] |}.

End Examples.

(** ** Counting by status *)

Module Counting.

(** The issues whose status column is null. *)
Fixpoint count_without_status (l : list Issue.t) : nat :=
  match l with
  | [] => 0
  | i :: r =>
      match Issue.status i with
      | Some _ => count_without_status r
      | None => S (count_without_status r)
      end
  end.

(** 1 when the status column holds [st], else 0. *)
Definition one_if (st : Schema.IssueStatus) (s : option Schema.IssueStatus)
  : nat :=
  if Schema.status_is st s then 1 else 0.

End Counting.

(** ** The tables [issue_comments] and [departments] *)

(** A row of the table [issue_comments]. *)
Module IssueComment.
Record t : Type := mk {
  id : string;
  issueId : option string;
  userId : option string;
  comment : string;
  isInternal : option bool;
  createdAt : option Z }.
End IssueComment.

(** [InsertIssueComment]: a key that is absent is [None]. *)
Module InsertIssueComment.
Record t : Type := mk {
  issueId : option string;
  userId : option string;
  comment : string;
  isInternal : option bool }.
End InsertIssueComment.

(** A row of the table [departments]. *)
Module Department.
Record t : Type := mk {
  id : string;
  name : string;
  description : option string;
  contactEmail : option string;
  contactPhone : option string;
  isActive : option bool;
  createdAt : option Z }.
End Department.

(** [InsertDepartment]: [isActive] has a default, which stands in when
    the key is absent but not when it is [null]. *)
Module InsertDepartment.
Record t : Type := mk {
  name : string;
  description : option string;
  contactEmail : option string;
  contactPhone : option string;
  isActive : JS.Nullable bool }.
End InsertDepartment.

(** The database with these two tables beside the three of [Db]. *)
Module Store.
Record t : Type := mk {
  db : Db.t;
  issueComments : list IssueComment.t;
  departments : list Department.t }.
End Store.

(** ** Queries with a filter, an order and a page *)

(** [ORDER BY]: an insertion sort.  Rows with equal keys come in an order
    that SQL leaves open; nothing proved below depends on it. *)
Module OrderBy.

Fixpoint insert {A : Type} (leb : A -> A -> bool) (x : A) (l : list A)
  : list A :=
  match l with
  | [] => [x]
  | y :: r => if leb x y then x :: l else y :: insert leb x r
  end.

Fixpoint sort {A : Type} (leb : A -> A -> bool) (l : list A) : list A :=
  match l with
  | [] => []
  | x :: r => insert leb x (sort leb r)
  end.

(** A nullable timestamp in ascending order: [NULL] sorts as larger than
    every value. *)
Definition timestamp_leb (a b : option Z) : bool :=
  match a, b with
  | _, None => true
  | None, Some _ => false
  | Some x, Some y => x <=? y
  end.

(** [asc(column)] and [desc(column)] on a timestamp column. *)
Definition asc {A : Type} (column : A -> option Z) (a b : A) : bool :=
  timestamp_leb (column a) (column b).

Definition desc {A : Type} (column : A -> option Z) (a b : A) : bool :=
  timestamp_leb (column b) (column a).

End OrderBy.

(** [parseInt(string)] with no radix: leading white space is skipped, a
    sign is read, the prefix [0x] selects base 16, and the longest run of
    digits is the value, rounded to a double; NaN when there is no
    digit. *)
Module JSInt.

Definition hex_digit_value (c : ascii) : option Z :=
  let n := nat_of_ascii c in
  if (Nat.leb 48 n && Nat.leb n 57)%bool then Some (Z.of_nat (n - 48))
  else if (Nat.leb 97 n && Nat.leb n 102)%bool then Some (Z.of_nat (n - 87))
  else if (Nat.leb 65 n && Nat.leb n 70)%bool then Some (Z.of_nat (n - 55))
  else None.

Fixpoint take_hex_digits (s : string) (acc : Z) (count : nat)
  : Z * nat * string :=
  match s with
  | String c r =>
      match hex_digit_value c with
      | Some d => take_hex_digits r (16 * acc + d) (S count)
      | None => (acc, count, s)
      end
  | EmptyString => (acc, count, s)
  end.

Definition parseInt (input : string) : JS.JSNumber :=
  let (neg, s) := JS.take_sign (JS.trimStart input) in
  let '(v, n, _) :=
    match s with
    | String "0"%char (String "x"%char r) => take_hex_digits r 0 0%nat
    | String "0"%char (String "X"%char r) => take_hex_digits r 0 0%nat
    | _ => JS.take_digits s 0 0%nat
    end in
  match n with
  | O => JS.NaN
  | S _ => JS.to_double (inject_Z (if neg then - v else v))
  end.

End JSInt.

(** The [filters] of [getIssues]. *)
Module IssueFilters.
Record t : Type := mk {
  reporterId : option string;
  status : option string;
  issueType : option string;
  department : option string;
  limit : JS.JSNumber;
  offset : JS.JSNumber }.
End IssueFilters.

Module Queries.

(** [column = value] on a nullable text column. *)
Definition eq_text (column : option string) (value : string) : bool :=
  match column with
  | Some c => String.eqb c value
  | None => false
  end.

Definition issueType_eqb (a b : Schema.IssueType) : bool :=
  match a, b with
  | Schema.pothole, Schema.pothole | Schema.garbage, Schema.garbage
  | Schema.streetlight, Schema.streetlight
  | Schema.water_leakage, Schema.water_leakage
  | Schema.road_damage, Schema.road_damage | Schema.other, Schema.other => true
  | _, _ => false
  end.

(** One condition of [getIssues]: absent when the filter is falsy. *)
Definition condition (filter : option string) (test : string -> Issue.t -> bool)
  (i : Issue.t) : bool :=
  match filter with
  | Some v => if (v =? "")%string then true else test v i
  | None => true
  end.

(** [and(...conditions)] for enum labels that are known. *)
Definition matches (filters : IssueFilters.t) (i : Issue.t) : bool :=
  condition (IssueFilters.reporterId filters)
    (fun v i => eq_text (Issue.reporterId i) v) i
  && condition (IssueFilters.status filters)
       (fun v i =>
          match Schema.issueStatusEnum v, Issue.status i with
          | Some st, Some s => Schema.issueStatus_eqb s st
          | _, _ => false
          end) i
  && condition (IssueFilters.issueType filters)
       (fun v i =>
          match Schema.issueTypeEnum v with
          | Some t => issueType_eqb (Issue.issueType i) t
          | None => false
          end) i
  && condition (IssueFilters.department filters)
       (fun v i => eq_text (Issue.assignedDepartment i) v) i.

(** A filter on an enum column whose text is no label of the enum. *)
Definition bad_label {A : Type} (enum : string -> option A)
  (filter : option string) : option string :=
  match filter with
  | Some v =>
      if (v =? "")%string then None
      else match enum v with
           | Some _ => None
           | None => Some v
           end
  | None => None
  end.

(** A number as a [bigint] parameter of a statement.  The driver sends
    its text, which the database reads as an integer from -2^63 to
    2^63 - 1; any other text makes the statement fail. *)
Definition bigint (n : JS.JSNumber) : option Z :=
  match n with
  | JS.Finite q =>
      let r := Qred q in
      if (Pos.eqb (Qden r) 1 && (- 2 ^ 63 <=? Qnum r) && (Qnum r <? 2 ^ 63))%bool
      then Some (Qnum r)
      else None
  | _ => None
  end.

(** [n >= 0] *)
Definition is_nonneg (n : JS.JSNumber) : bool :=
  match n with
  | JS.Finite q => Qle_bool 0 q
  | JS.Infinity negative => negb negative
  | JS.NaN => false
  end.

(** [if (filters?.offset) query.offset(filters.offset)]: NaN and 0 leave
    the rows as they are; the query builder writes [offset $n] for any
    other number, and the database refuses a negative one. *)
Definition apply_offset (offset : JS.JSNumber) (rows : list Issue.t)
  : Outcome (list Issue.t) :=
  if JS.truthy_num offset then
    match bigint offset with
    | Some n =>
        if n <? 0 then Throw (Error "OFFSET must not be negative")
        else Return (skipn (Z.to_nat n) rows)
    | None => Throw (Error "invalid input for type bigint")
    end
  else Return rows.

(** [if (filters?.limit) query.limit(filters.limit)]: NaN and 0 leave the
    rows as they are, and so does a negative number, for which the query
    builder writes no [limit]. *)
Definition apply_limit (limit : JS.JSNumber) (rows : list Issue.t)
  : Outcome (list Issue.t) :=
  if (JS.truthy_num limit && is_nonneg limit)%bool then
    match bigint limit with
    | Some n => Return (firstn (Z.to_nat n) rows)
    | None => Throw (Error "invalid input for type bigint")
    end
  else Return rows.

(** The offset is taken before the limit, as in SQL. *)
Definition page (limit offset : JS.JSNumber) (rows : list Issue.t)
  : Outcome (list Issue.t) :=
  match apply_offset offset rows with
  | Return rest => apply_limit limit rest
  | Throw e => Throw e
  end.

(** [getIssues].  The statement fails on a text that is no label of the
    enum of its column and on a limit or an offset that the database does
    not take. *)
Definition getIssues (filters : IssueFilters.t) (db : Db.t)
  : Outcome (list Issue.t) :=
  match bad_label Schema.issueStatusEnum (IssueFilters.status filters),
        bad_label Schema.issueTypeEnum (IssueFilters.issueType filters) with
  | Some v, _ => Throw (InvalidEnumValue v)
  | None, Some v => Throw (InvalidEnumValue v)
  | None, None =>
      page (IssueFilters.limit filters) (IssueFilters.offset filters)
        (OrderBy.sort (OrderBy.desc Issue.createdAt)
           (filter (matches filters) (Db.issues db)))
  end.

(** [getIssueStatusHistory] *)
Definition getIssueStatusHistory (issueId : string) (db : Db.t)
  : list IssueStatusHistory.t :=
  OrderBy.sort (OrderBy.asc IssueStatusHistory.createdAt)
    (filter (fun h => eq_text (IssueStatusHistory.issueId h) issueId)
       (Db.issueStatusHistory db)).

End Queries.

(** What a listing promises, in the words of a caller. *)
Module ListingSpec.

(** A filter that is absent or empty asks nothing. *)
Definition asked (filter : option string) (P : string -> Prop) : Prop :=
  match filter with
  | Some v => v = ""%string \/ P v
  | None => True
  end.

Definition satisfies (filters : IssueFilters.t) (i : Issue.t) : Prop :=
  asked (IssueFilters.reporterId filters)
    (fun v => Issue.reporterId i = Some v)
  /\ asked (IssueFilters.status filters)
       (fun v => option_map Schema.issueStatus_label (Issue.status i) = Some v)
  /\ asked (IssueFilters.issueType filters)
       (fun v => Schema.issueType_label (Issue.issueType i) = v)
  /\ asked (IssueFilters.department filters)
       (fun v => Issue.assignedDepartment i = Some v).

(** Each row is at least as new as every row after it; a row with no
    creation time counts as newest. *)
Definition newest_first (issues : list Issue.t) : Prop :=
  StronglySorted
    (fun a b =>
       OrderBy.timestamp_leb (Issue.createdAt b) (Issue.createdAt a) = true)
    issues.


End ListingSpec.

(** The answers of the reading endpoints. *)
Module Answer.

Inductive Payload : Type :=
| Issues (issues : list Issue.t)
| History (history : list IssueStatusHistory.t)
| Detection (result : StoredDetection.t)
| Transcribed (transcription language : string)
    (extractedInfo : ExtractedInfo.t)
| Comment (comment : IssueComment.t)
| Comments (comments : list IssueComment.t)
| Departments (departments : list Department.t)
| Message (message : string).

Record t : Type := mk { status : Z; json : Payload }.

End Answer.

(** [req.query] of [GET /api/issues]. *)
Module IssuesQuery.
Record t : Type := mk {
  reporterId : option string;
  status : option string;
  issueType : option string;
  department : option string;
  limit : option string;
  offset : option string }.
End IssuesQuery.

Module ReadRoutes.

Local Open Scope string_scope.

(** [x = "default"] in a destructuring: the default stands in for
    [undefined] only. *)
Definition default_to (v : option string) (default : string) : string :=
  match v with
  | Some s => s
  | None => default
  end.

(** The [filters] object that [GET /api/issues] builds. *)
Definition filters_of (query : IssuesQuery.t) : IssueFilters.t :=
  {| IssueFilters.reporterId := IssuesQuery.reporterId query;
     IssueFilters.status := IssuesQuery.status query;
     IssueFilters.issueType := IssuesQuery.issueType query;
     IssueFilters.department := IssuesQuery.department query;
     IssueFilters.limit :=
       JSInt.parseInt (default_to (IssuesQuery.limit query) "50");
     IssueFilters.offset :=
       JSInt.parseInt (default_to (IssuesQuery.offset query) "0") |}.

(** [GET /api/issues] *)
Definition get_api_issues (query : IssuesQuery.t) (db : Db.t) : Answer.t :=
  match Queries.getIssues (filters_of query) db with
  | Return issues =>
      {| Answer.status := 200; Answer.json := Answer.Issues issues |}
  | Throw _ =>
      {| Answer.status := 500;
         Answer.json := Answer.Message "Failed to fetch issues" |}
  end.


End ReadRoutes.


Module ListingExamples.

Local Open Scope string_scope.

(** The issues of the department "Public Works", two per page. *)
Definition publicWorks : IssueFilters.t :=
  {| IssueFilters.reporterId := None;
     IssueFilters.status := None;
     IssueFilters.issueType := None;
     IssueFilters.department := Some "Public Works";
     IssueFilters.limit := JS.Finite 2;
     IssueFilters.offset := JS.Finite 0 |}.

(** The query of the map for resolved potholes, and the same with a
    limit. *)
Definition resolvedPotholes (limit : option string) : IssuesQuery.t :=
  {| IssuesQuery.reporterId := None;
     IssuesQuery.status := Some "resolved";
     IssuesQuery.issueType := Some "pothole";
     IssuesQuery.department := None;
     IssuesQuery.limit := limit;
     IssuesQuery.offset := None |}.

(** A query for a status that does not exist. *)
Definition closedIssues : IssuesQuery.t :=
  {| IssuesQuery.reporterId := None;
     IssuesQuery.status := Some "closed";
     IssuesQuery.issueType := None;
     IssuesQuery.department := None;
     IssuesQuery.limit := None;
     IssuesQuery.offset := None |}.

End ListingExamples.

(** ** The two preview endpoints *)

Module PreviewRoutes.

Local Open Scope string_scope.

(** [POST /api/analyze-image]; [file] is the upload, if any, with what the
    AI service answers for it. *)
Definition post_api_analyze_image (file : option (Reply RawDetection.t))
  : Answer.t :=
  match file with
  | None =>
      {| Answer.status := 400;
         Answer.json := Answer.Message "No image file provided" |}
  | Some reply =>
      match OpenAI.analyzeIssueImage reply with
      | Return result =>
          {| Answer.status := 200;
             Answer.json := Answer.Detection (Storage.jsonb result) |}
      | Throw _ =>
          {| Answer.status := 500;
             Answer.json := Answer.Message "Failed to analyze image" |}
      end
  end.

(** [POST /api/transcribe-audio] *)
Definition post_api_transcribe_audio
  (file : option (Reply RawTranscription.t * Reply RawExtraction.t))
  : Answer.t :=
  match file with
  | None =>
      {| Answer.status := 400;
         Answer.json := Answer.Message "No audio file provided" |}
  | Some (transcriptionReply, extractionReply) =>
      match OpenAI.transcribeAudio transcriptionReply with
      | Return result =>
          match OpenAI.extractIssueFromText extractionReply
                  (Transcription.text result) (Transcription.language result) with
          | Return extractedInfo =>
              {| Answer.status := 200;
                 Answer.json :=
                   Answer.Transcribed (Transcription.text result)
                     (Transcription.language result) extractedInfo |}
          | Throw _ =>
              {| Answer.status := 500;
                 Answer.json := Answer.Message "Failed to transcribe audio" |}
          end
      | Throw _ =>
          {| Answer.status := 500;
             Answer.json := Answer.Message "Failed to transcribe audio" |}
      end
  end.

End PreviewRoutes.


Module PreviewExamples.

Local Open Scope string_scope.

(** An answer of the image service with the confidence "high": a string
    is truthy, and [ToNumber] makes NaN of this one. *)
Definition unsure : RawDetection.t := Sample.detection (JS.other true JS.NaN).

(** What [analyzeIssueImage] makes of it. *)
Definition unsureResult : IssueDetectionResult.t :=
  {| IssueDetectionResult.issueType := "pothole";
     IssueDetectionResult.confidence := JS.NaN;
     IssueDetectionResult.description := "Large pothole";
     IssueDetectionResult.severity := "high";
     IssueDetectionResult.suggestedDepartment := "General Services" |}.

(** A recording that is transcribed, with no language detected, and from
    which nothing is extracted but a location. *)
Definition recording : Reply RawTranscription.t * Reply RawExtraction.t :=
  (Replied {| RawTranscription.text := "light is broken";
              RawTranscription.language := None |},
   Replied {| RawExtraction.issueType := None;
              RawExtraction.location := Some "Main Road";
              RawExtraction.description := Some "";
              RawExtraction.priority := None |}).

Definition extracted : ExtractedInfo.t :=
  {| ExtractedInfo.issueType := "other";
     ExtractedInfo.location := Some "Main Road";
     ExtractedInfo.description := "light is broken";
     ExtractedInfo.priority := "medium" |}.

End PreviewExamples.

(** ** Decimal numerals *)

From Stdlib Require Decimal DecimalFacts DecimalNat DecimalString.

Module Numeral.

Local Open Scope string_scope.

(** [n.toString()] for a natural number: its decimal digits, "0" for 0. *)
Definition toString (n : nat) : string :=
  DecimalString.NilZero.string_of_uint (Nat.to_uint n).

(** A run of decimal digits, leading zeros kept, as after a decimal
    point. *)
Definition digits (d : Decimal.uint) : string :=
  DecimalString.NilEmpty.string_of_uint d.

(** How many digits, and the number they write. *)
Definition size (d : Decimal.uint) : nat := DecimalNat.Unsigned.usize d.
Definition value (d : Decimal.uint) : nat := Nat.of_uint d.

(** The numeral [n.d]: an integer part, a point and fraction digits. *)
Definition decimal (n : nat) (d : Decimal.uint) : string :=
  toString n ++ "." ++ digits d.

(** The text does not go on with a digit. *)
Definition ends_number (rest : string) : Prop :=
  match rest with
  | String c _ => JS.digit_value c = None
  | EmptyString => True
  end.

End Numeral.

Module NumeralExamples.

Local Open Scope string_scope.

(** The query for the first [limit] issues of any kind. *)
Definition firstIssues (limit : string) : IssuesQuery.t :=
  {| IssuesQuery.reporterId := None;
     IssuesQuery.status := None;
     IssuesQuery.issueType := None;
     IssuesQuery.department := None;
     IssuesQuery.limit := Some limit;
     IssuesQuery.offset := None |}.

End NumeralExamples.

(** ** Comments and departments *)

(** [req.body] of [POST /api/issues/:id/comments]. *)
Module CommentForm.
Record t : Type := mk {
  userId : option string;
  comment : option string;
  isInternal : option bool }.
End CommentForm.

(** The object literal [commentData]; [comment] is still unchecked. *)
Module CommentData.
Record t : Type := mk {
  issueId : string;
  userId : option string;
  comment : option string;
  isInternal : bool }.
End CommentData.

Module CommentEnv.
Record t : Type := mk {
  commentId : string;     (* [gen_random_uuid()] *)
  commentNow : Z }.       (* [defaultNow()] *)
End CommentEnv.

Module Discussion.

Local Open Scope string_scope.

Definition comment_ids (s : Store.t) : list string :=
  map IssueComment.id (Store.issueComments s).

(** [insertIssueCommentSchema.parse]: the column [comment] is not null,
    so the text must be there; any string will do, the empty one too. *)
Definition parse (d : CommentData.t) : Outcome InsertIssueComment.t :=
  match CommentData.comment d with
  | Some text =>
      Return
        {| InsertIssueComment.issueId := Some (CommentData.issueId d);
           InsertIssueComment.userId := CommentData.userId d;
           InsertIssueComment.comment := text;
           InsertIssueComment.isInternal := Some (CommentData.isInternal d) |}
  | None => Throw (ZodError ["comment"])
  end.

(** [addIssueComment]: the insert is refused when the generated id is
    taken or when [issueId] or [userId] names no row. *)
Definition addIssueComment (newId : string) (now : Z)
  (comment : InsertIssueComment.t) (s : Store.t)
  : Outcome IssueComment.t * Store.t :=
  if Storage.mem newId (comment_ids s)
  then (Throw (UniqueViolation "id"), s)
  else if negb (Storage.references (InsertIssueComment.issueId comment)
                  (Storage.issue_ids (Store.db s)))
  then (Throw (ForeignKeyViolation "issue_id"), s)
  else if negb (Storage.references (InsertIssueComment.userId comment)
                  (Db.users (Store.db s)))
  then (Throw (ForeignKeyViolation "user_id"), s)
  else
    let newComment :=
      {| IssueComment.id := newId;
         IssueComment.issueId := InsertIssueComment.issueId comment;
         IssueComment.userId := InsertIssueComment.userId comment;
         IssueComment.comment := InsertIssueComment.comment comment;
         IssueComment.isInternal :=
           Storage.with_default (InsertIssueComment.isInternal comment) false;
         IssueComment.createdAt := Some now |} in
    (Return newComment,
     {| Store.db := Store.db s;
        Store.issueComments := Store.issueComments s ++ [newComment];
        Store.departments := Store.departments s |}).

(** [getIssueComments] *)
Definition getIssueComments (issueId : string) (s : Store.t)
  : list IssueComment.t :=
  OrderBy.sort (OrderBy.asc IssueComment.createdAt)
    (filter (fun c => Queries.eq_text (IssueComment.issueId c) issueId)
       (Store.issueComments s)).

(** [req.body.isInternal || false] *)
Definition or_false (b : option bool) : bool :=
  match b with
  | Some v => v
  | None => false
  end.

(** [POST /api/issues/:id/comments] *)
Definition post_api_issues_id_comments (env : CommentEnv.t) (id : string)
  (body : CommentForm.t) (s : Store.t) : Answer.t * Store.t :=
  let commentData :=
    {| CommentData.issueId := id;
       CommentData.userId := CommentForm.userId body;
       CommentData.comment := CommentForm.comment body;
       CommentData.isInternal := or_false (CommentForm.isInternal body) |} in
  let failed :=
    {| Answer.status := 500;
       Answer.json := Answer.Message "Failed to add comment" |} in
  match parse commentData with
  | Return validatedData =>
      match addIssueComment (CommentEnv.commentId env)
              (CommentEnv.commentNow env) validatedData s with
      | (Return newComment, s') =>
          ({| Answer.status := 201;
              Answer.json := Answer.Comment newComment |}, s')
      | (Throw _, s') => (failed, s')
      end
  | Throw _ => (failed, s)
  end.

(** [GET /api/issues/:id/comments] *)
Definition get_api_issues_id_comments (id : string) (s : Store.t) : Answer.t :=
  {| Answer.status := 200;
     Answer.json := Answer.Comments (getIssueComments id s) |}.

End Discussion.

(** The departments are listed by name; how two names compare is the
    collation of the database, a parameter here. *)
Section Directory.

Variable name_leb : string -> string -> bool.

Definition department_ids (s : Store.t) : list string :=
  map Department.id (Store.departments s).

(** [column.default(d)] for a key that can also be [null]. *)
Definition default_unless_null {A : Type} (v : JS.Nullable A) (d : A)
  : option A :=
  match v with
  | JS.undefined => Some d
  | JS.null => None
  | JS.value a => Some a
  end.

(** [createDepartment]: the insert is refused when the generated id is
    taken; a department created without the key [isActive] is active. *)
Definition createDepartment (newId : string) (now : Z)
  (department : InsertDepartment.t) (s : Store.t)
  : Outcome Department.t * Store.t :=
  if Storage.mem newId (department_ids s)
  then (Throw (UniqueViolation "id"), s)
  else
    let newDepartment :=
      {| Department.id := newId;
         Department.name := InsertDepartment.name department;
         Department.description := InsertDepartment.description department;
         Department.contactEmail := InsertDepartment.contactEmail department;
         Department.contactPhone := InsertDepartment.contactPhone department;
         Department.isActive :=
           default_unless_null (InsertDepartment.isActive department) true;
         Department.createdAt := Some now |} in
    (Return newDepartment,
     {| Store.db := Store.db s;
        Store.issueComments := Store.issueComments s;
        Store.departments := Store.departments s ++ [newDepartment] |}).

(** [isActive = true]: a null flag does not match. *)
Definition is_active (d : Department.t) : bool :=
  match Department.isActive d with
  | Some b => b
  | None => false
  end.

(** [getDepartments] *)
Definition getDepartments (s : Store.t) : list Department.t :=
  OrderBy.sort (fun a b => name_leb (Department.name a) (Department.name b))
    (filter is_active (Store.departments s)).

(** [GET /api/departments] *)
Definition get_api_departments (s : Store.t) : Answer.t :=
  {| Answer.status := 200;
     Answer.json := Answer.Departments (getDepartments s) |}.

End Directory.

Module DiscussionExamples.

Local Open Scope string_scope.

Definition store : Store.t :=
  {| Store.db := Sample.db;
     Store.issueComments := [];
     Store.departments := [] |}.

Definition env : CommentEnv.t :=
  {| CommentEnv.commentId := "c1";
     CommentEnv.commentNow := Sample.t0 + 600000000 |}.

(** A comment by the user "u1" with the flag left out. *)
Definition remark (text : option string) : CommentForm.t :=
  {| CommentForm.userId := Some "u1";
     CommentForm.comment := text;
     CommentForm.isInternal := None |}.

Definition stored : IssueComment.t :=
  {| IssueComment.id := "c1";
     IssueComment.issueId := Some "i1";
     IssueComment.userId := Some "u1";
     IssueComment.comment := "";
     IssueComment.isInternal := Some false;
     IssueComment.createdAt := Some (Sample.t0 + 600000000) |}.

(** The department "Sanitation" of the seed script. *)
Definition sanitation : InsertDepartment.t :=
  {| InsertDepartment.name := "Sanitation";
     InsertDepartment.description :=
       Some "Handles garbage collection, waste management, and street cleaning";
     InsertDepartment.contactEmail := Some "sanitation@city.gov";
     InsertDepartment.contactPhone := Some "+1-555-0102";
     InsertDepartment.isActive := JS.undefined |}.

End DiscussionExamples.

(** ** The update dialog of the admin dashboard *)

(** The state [updateData] of [AdminPanel]; [status] is copied from an
    issue and is [None] when the issue has none. *)
Module UpdateData.
Record t : Type := mk {
  status : option string;
  notes : string;
  assignedDepartment : string;
  assignedTo : string }.
End UpdateData.

Module AdminPanel.

Local Open Scope string_scope.

(** [useState({ status: "", notes: "", ... })] *)
Definition initial : UpdateData.t :=
  {| UpdateData.status := Some "";
     UpdateData.notes := "";
     UpdateData.assignedDepartment := "";
     UpdateData.assignedTo := "" |}.

(** The [onClick] of the edit button of a row: the dialog opens on the
    values of the issue. *)
Definition openDialog (issue : Issue.t) : UpdateData.t :=
  {| UpdateData.status := option_map Schema.issueStatus_label (Issue.status issue);
     UpdateData.notes := "";
     UpdateData.assignedDepartment :=
       JS.or_lit (Issue.assignedDepartment issue) "";
     UpdateData.assignedTo := JS.or_lit (Issue.assignedTo issue) "" |}.

(** The four inputs of the dialog. *)
Inductive Edit : Type :=
| SetStatus (value : string)
| SetDepartment (value : string)
| SetAssignedTo (value : string)
| SetNotes (value : string).

(** [setUpdateData(prev => ({...prev, key: value}))] *)
Definition setUpdateData (prev : UpdateData.t) (e : Edit) : UpdateData.t :=
  match e with
  | SetStatus value =>
      {| UpdateData.status := Some value;
         UpdateData.notes := UpdateData.notes prev;
         UpdateData.assignedDepartment := UpdateData.assignedDepartment prev;
         UpdateData.assignedTo := UpdateData.assignedTo prev |}
  | SetDepartment value =>
      {| UpdateData.status := UpdateData.status prev;
         UpdateData.notes := UpdateData.notes prev;
         UpdateData.assignedDepartment := value;
         UpdateData.assignedTo := UpdateData.assignedTo prev |}
  | SetAssignedTo value =>
      {| UpdateData.status := UpdateData.status prev;
         UpdateData.notes := UpdateData.notes prev;
         UpdateData.assignedDepartment := UpdateData.assignedDepartment prev;
         UpdateData.assignedTo := value |}
  | SetNotes value =>
      {| UpdateData.status := UpdateData.status prev;
         UpdateData.notes := value;
         UpdateData.assignedDepartment := UpdateData.assignedDepartment prev;
         UpdateData.assignedTo := UpdateData.assignedTo prev |}
  end.

(** [handleUpdateIssue]: the request that the mutation sends, the id of
    the path and the body, or [None] when nothing is sent. *)
Definition handleUpdateIssue (selectedIssue : option Issue.t)
  (updateData : UpdateData.t) : option (string * StatusUpdate.t) :=
  match selectedIssue with
  | Some issue =>
      if JS.truthy (UpdateData.status updateData)
      then Some (Issue.id issue,
                 {| StatusUpdate.status :=
                      match UpdateData.status updateData with
                      | Some status => JS.value status
                      | None => JS.null
                      end;
                    StatusUpdate.notes := Some (UpdateData.notes updateData);
                    StatusUpdate.updatedBy := Some "admin";
                    StatusUpdate.assignedDepartment :=
                      Some (UpdateData.assignedDepartment updateData);
                    StatusUpdate.assignedTo :=
                      Some (UpdateData.assignedTo updateData) |})
      else None
  | None => None
  end.

(** The update button pressed in a dialog opened on [issue] after the
    edits [edits]: the answer of the server and the database left, or
    [None] and the database as it was when nothing is sent. *)
Definition update (env : PatchEnv.t) (issue : Issue.t) (edits : list Edit)
  (db : Db.t) : option Response.t * Db.t :=
  match handleUpdateIssue (Some issue)
          (fold_left setUpdateData edits (openDialog issue)) with
  | Some (issueId, updateData) =>
      let (response, db') :=
        Routes.patch_api_issues_id_status env issueId updateData db in
      (Some response, db')
  | None => (None, db)
  end.

End AdminPanel.

(** * Properties *)

(** ** Statistics *)

Section Statistics.

Import Schema.

Lemma status_is_count (st : IssueStatus) (l : list Issue.t) :
  length (filter (fun i => status_is st (Issue.status i)) l)
  = StatsSpec.count_status st l.
Proof.
  induction l as [|i r IH]; simpl; [reflexivity|].
  destruct (Issue.status i) as [s|]; simpl; [|exact IH].
  destruct (issueStatus_eqb s st); simpl; now rewrite IH.
Qed.

Lemma pending_count (l : list Issue.t) :
  length (filter (fun i => status_is submitted (Issue.status i)
                           || status_is acknowledged (Issue.status i)) l)
  = (StatsSpec.count_status submitted l
     + StatsSpec.count_status acknowledged l)%nat.
Proof.
  induction l as [|i r IH]; simpl; [reflexivity|].
  destruct (Issue.status i) as [[]|]; simpl; rewrite IH; lia.
Qed.

Lemma resolved_filter_qualifies (l : list Issue.t) :
  filter (fun i => status_is resolved (Issue.status i)
                   && Storage.isSome (Issue.actualResolutionDate i)) l
  = filter StatsSpec.qualifies l.
Proof.
  apply filter_ext. intros i. unfold status_is, StatsSpec.qualifies.
  destruct (Issue.status i) as [[]|], (Issue.actualResolutionDate i);
    reflexivity.
Qed.

Lemma Math_ceil_div (a b : Z) :
  JS.Math_ceil (inject_Z a / inject_Z b) = - ((- a) / b).
Proof.
  unfold JS.Math_ceil, Qceiling. f_equal.
  rewrite Zdiv_Qdiv. apply Qfloor_comp.
  rewrite inject_Z_opp. unfold Qdiv. ring.
Qed.

Lemma diffDays_resolution_days (i : Issue.t) :
  Storage.diffDays i = StatsSpec.resolution_days i.
Proof.
  unfold Storage.diffDays, StatsSpec.resolution_days, StatsSpec.day.
  rewrite Math_ceil_div. do 2 f_equal. ring.
Qed.

(** [resolution_days] is the ceiling of the elapsed time in days. *)
Lemma resolution_days_ceiling (i : Issue.t) :
  let elapsed := Storage.getTime (Issue.actualResolutionDate i)
                 - Storage.getTime (Issue.createdAt i) in
  StatsSpec.day * (StatsSpec.resolution_days i - 1) < elapsed
  /\ elapsed <= StatsSpec.day * StatsSpec.resolution_days i.
Proof.
  unfold StatsSpec.resolution_days, StatsSpec.day. cbv zeta.
  set (c := Storage.getTime (Issue.createdAt i)).
  set (r := Storage.getTime (Issue.actualResolutionDate i)).
  pose proof (Z.div_mod (c - r) (86400 * 1000) ltac:(lia)) as E.
  pose proof (Z.mod_pos_bound (c - r) (86400 * 1000) ltac:(lia)) as B.
  lia.
Qed.

Lemma reduce_sum_days (l : list Issue.t) (acc : Z) :
  fold_left (fun sum issue => sum + Storage.diffDays issue) l acc
  = acc + StatsSpec.sum_days l.
Proof.
  revert acc. induction l as [|i r IH]; intros acc; simpl; [lia|].
  rewrite IH, diffDays_resolution_days. lia.
Qed.

(** [Math.round] returns the integer nearest to its argument, the upper
    one of the two on a tie. *)
Lemma Math_round_nearest (x : Q) :
  (inject_Z (JS.Math_round x) - (1 # 2) <= x
   /\ x < inject_Z (JS.Math_round x) + (1 # 2))%Q.
Proof.
  unfold JS.Math_round.
  pose proof (Qfloor_le (x + (1 # 2))) as L.
  pose proof (Qlt_floor (x + (1 # 2))) as U.
  rewrite inject_Z_plus in U. change (inject_Z 1) with 1%Q in U.
  split; lra.
Qed.

End Statistics.

Section StatisticsClaim.

Import Schema.

(** C3.  Over the issues in scope (all of them, or those whose
    [assignedDepartment] is exactly the department asked for), [total] is
    their number, [pending] the number of submitted plus the number of
    acknowledged ones, [inProgress] and [resolved] the numbers of issues
    in these states, and [avgResolutionDays] is [0] when no issue is
    resolved with a resolution date, and otherwise the tenth nearest to
    the mean, over those issues, of the time from creation to resolution
    in days rounded up to a whole number; a single issue resolved three
    days after its creation gives [3]. *)
Theorem getIssueStats_spec (filters : option StatsFilters.t) (db : Db.t) :
  let allIssues := Storage.baseQuery filters db in
  let stats := Storage.getIssueStats filters db in
  let qualifying := filter StatsSpec.qualifies allIssues in
  (forall i, In i allIssues
             <-> In i (Db.issues db) /\ StatsSpec.in_scope filters i)
  /\ Stats.total stats = length allIssues
  /\ Stats.pending stats
     = (StatsSpec.count_status submitted allIssues
        + StatsSpec.count_status acknowledged allIssues)%nat
  /\ Stats.inProgress stats = StatsSpec.count_status in_progress allIssues
  /\ Stats.resolved stats = StatsSpec.count_status resolved allIssues
  /\ (forall i,
        StatsSpec.day * (StatsSpec.resolution_days i - 1)
        < Storage.getTime (Issue.actualResolutionDate i)
          - Storage.getTime (Issue.createdAt i)
        <= StatsSpec.day * StatsSpec.resolution_days i)
  /\ (qualifying = [] -> Stats.avgResolutionDays stats = 0%Q)
  /\ (qualifying <> [] ->
      exists tenths : Z,
        Stats.avgResolutionDays stats = (inject_Z tenths / 10)%Q
        /\ (inject_Z tenths - (1 # 2) <= StatsSpec.mean_days qualifying * 10
            /\ StatsSpec.mean_days qualifying * 10 < inject_Z tenths + (1 # 2))%Q)
  /\ (forall (i : Issue.t) (T : Z),
        allIssues = [i] ->
        Issue.status i = Some resolved ->
        Issue.createdAt i = Some T ->
        Issue.actualResolutionDate i = Some (T + 3 * StatsSpec.day) ->
        (Stats.avgResolutionDays stats == 3)%Q).
Proof.
  cbv zeta.
  split; [|split; [|split; [|split; [|split; [|split; [|split; [|split]]]]]]].
  - intros i. unfold Storage.baseQuery, StatsSpec.in_scope.
    destruct filters as [[[d|]]|]; simpl; try tauto.
    destruct (String.eqb_spec d "") as [E|E]; [tauto|].
    rewrite filter_In. split.
    + intros [H1 H2]. split; [exact H1|right].
      destruct (Issue.assignedDepartment i) as [a|]; [|discriminate].
      apply String.eqb_eq in H2. now subst.
    + intros [H1 [H2|H2]]; [contradiction|]. split; [exact H1|].
      rewrite H2. apply String.eqb_refl.
  - reflexivity.
  - apply pending_count.
  - apply status_is_count.
  - apply status_is_count.
  - apply resolution_days_ceiling.
  - unfold Storage.getIssueStats; simpl.
    rewrite resolved_filter_qualifies. intros ->. reflexivity.
  - unfold Storage.getIssueStats; simpl.
    rewrite resolved_filter_qualifies. intros NE.
    destruct (filter StatsSpec.qualifies (Storage.baseQuery filters db))
      as [|i r] eqn:E; [congruence|].
    rewrite reduce_sum_days, Z.add_0_l.
    eexists; split; [reflexivity|].
    apply Math_round_nearest.
  - intros i T E St Cr Re.
    assert (D : StatsSpec.resolution_days i = 3).
    { unfold StatsSpec.resolution_days. rewrite Cr, Re.
      unfold Storage.getTime, StatsSpec.day.
      replace (T - (T + 3 * (86400 * 1000))) with ((-3) * (86400 * 1000))
        by lia.
      rewrite Z.div_mul by lia. reflexivity. }
    unfold Storage.getIssueStats; simpl.
    rewrite resolved_filter_qualifies, E. simpl.
    unfold StatsSpec.qualifies. rewrite St, Re. simpl.
    rewrite diffDays_resolution_days, D.
    reflexivity.
Qed.

(** The average over the sample database is a tenth nearest to the mean,
    and the database with one issue resolved after three days gives 3. *)
Lemma getIssueStats_spec_witness :
  (exists tenths : Z,
      Stats.avgResolutionDays (Storage.getIssueStats None Sample.db)
      = (inject_Z tenths / 10)%Q
      /\ (inject_Z tenths - (1 # 2)
          <= StatsSpec.mean_days
               (filter StatsSpec.qualifies (Storage.baseQuery None Sample.db)) * 10
          /\ StatsSpec.mean_days
               (filter StatsSpec.qualifies (Storage.baseQuery None Sample.db)) * 10
             < inject_Z tenths + (1 # 2))%Q)
  /\ (Stats.avgResolutionDays
        (Storage.getIssueStats
           (Some {| StatsFilters.department := Some "Sanitation"%string |})
           Sample.db) == 3)%Q.
Proof.
  split.
  - destruct (getIssueStats_spec None Sample.db)
      as (_ & _ & _ & _ & _ & _ & _ & H & _).
    apply H. discriminate.
  - destruct (getIssueStats_spec
                (Some {| StatsFilters.department := Some "Sanitation"%string |})
                Sample.db) as (_ & _ & _ & _ & _ & _ & _ & _ & H).
    apply (H (Sample.issue "i3" resolved (Some "Sanitation"%string) Sample.t0
                (Some (Sample.t0 + 259200000))) Sample.t0); reflexivity.
Defined.

End StatisticsClaim.

(** ** Status workflow *)

Section Workflow.

Import Schema.

Lemma set_columns_id st updates now i :
  Issue.id (Storage.set_columns st updates now i) = Issue.id i.
Proof. reflexivity. Qed.

Lemma update_where_ids id f rows :
  (forall i, Issue.id (f i) = Issue.id i) ->
  map Issue.id (Storage.update_where id f rows) = map Issue.id rows.
Proof.
  intros Hf. unfold Storage.update_where. rewrite map_map.
  apply map_ext. intros i. destruct (String.eqb (Issue.id i) id); auto.
Qed.

Lemma update_where_find id f rows :
  (forall i, Issue.id (f i) = Issue.id i) ->
  find (fun i => String.eqb (Issue.id i) id) (Storage.update_where id f rows)
  = option_map f (find (fun i => String.eqb (Issue.id i) id) rows).
Proof.
  intros Hf. induction rows as [|i r IH]; simpl; [reflexivity|].
  destruct (String.eqb (Issue.id i) id) eqn:E.
  - rewrite Hf, E. reflexivity.
  - rewrite E. exact IH.
Qed.

Lemma update_where_absent id f rows :
  find (fun i => String.eqb (Issue.id i) id) rows = None ->
  Storage.update_where id f rows = rows.
Proof.
  induction rows as [|i r IH]; simpl; [reflexivity|].
  destruct (String.eqb (Issue.id i) id); [discriminate|].
  intros H. now rewrite IH.
Qed.

Lemma mem_issue_ids_find id rows :
  Storage.mem id (map Issue.id rows)
  = Storage.isSome (find (fun i => String.eqb (Issue.id i) id) rows).
Proof.
  induction rows as [|i r IH]; simpl; [reflexivity|].
  rewrite String.eqb_sym.
  destruct (String.eqb (Issue.id i) id); simpl; [reflexivity|exact IH].
Qed.

(** What the status handler does with a status that is a label of the
    enum: the update is written, and then the history entry if the
    database accepts it. *)
Lemma patch_valid_status env id body db s st :
  StatusUpdate.status body = JS.value s ->
  issueStatusEnum s = Some st ->
  Routes.patch_api_issues_id_status env id body db
  = if WorkflowSpec.history_accepted env id body db
    then ({| Response.status := 200;
             Response.json :=
               JsonIssue (Storage.getIssue id
                            (WorkflowSpec.after_update env id body (JS.value st) db)) |},
          WorkflowSpec.append_history
            (WorkflowSpec.history_entry env id body st)
            (WorkflowSpec.after_update env id body (JS.value st) db))
    else (WorkflowSpec.failed_to_update,
          WorkflowSpec.after_update env id body (JS.value st) db).
Proof.
  intros Hs Hst.
  unfold Routes.patch_api_issues_id_status, Routes.try_respond, bind,
    Storage.updateIssue.
  simpl. rewrite Hs, Hst.
  unfold Storage.addStatusHistory. simpl. rewrite ?Hs, ?Hst.
  unfold WorkflowSpec.history_accepted, Storage.history_ids,
    Storage.issue_ids, Storage.getIssue. simpl.
  rewrite update_where_ids by apply set_columns_id.
  rewrite mem_issue_ids_find.
  destruct (Storage.mem (PatchEnv.historyId env)
              (map IssueStatusHistory.id (Db.issueStatusHistory db)));
    simpl; [reflexivity|].
  destruct (find (fun i => String.eqb (Issue.id i) id) (Db.issues db));
    simpl; [|reflexivity].
  destruct (Storage.references (StatusUpdate.updatedBy body) (Db.users db));
    reflexivity.
Qed.

Lemma getIssue_after_update env id body st db :
  Storage.getIssue id (WorkflowSpec.after_update env id body st db)
  = option_map
      (Storage.set_columns st (Routes.updateData (PatchEnv.now env) body)
         (PatchEnv.updatedAt env))
      (Storage.getIssue id db).
Proof.
  unfold Storage.getIssue. simpl.
  apply update_where_find, set_columns_id.
Qed.

(** The history insert leaves the table [issues] alone. *)
Lemma issues_after_patch env id body db s st :
  StatusUpdate.status body = JS.value s ->
  issueStatusEnum s = Some st ->
  Db.issues (snd (Routes.patch_api_issues_id_status env id body db))
  = Db.issues (WorkflowSpec.after_update env id body (JS.value st) db).
Proof.
  intros Hs Hst. rewrite (patch_valid_status _ _ _ _ _ _ Hs Hst).
  destruct (WorkflowSpec.history_accepted env id body db); reflexivity.
Qed.

Lemma getIssue_after_patch env id body db s st :
  StatusUpdate.status body = JS.value s ->
  issueStatusEnum s = Some st ->
  Storage.getIssue id (snd (Routes.patch_api_issues_id_status env id body db))
  = option_map
      (Storage.set_columns (JS.value st) (Routes.updateData (PatchEnv.now env) body)
         (PatchEnv.updatedAt env))
      (Storage.getIssue id db).
Proof.
  intros Hs Hst. rewrite <- getIssue_after_update.
  unfold Storage.getIssue.
  now rewrite (issues_after_patch _ _ _ _ _ _ Hs Hst).
Qed.


Lemma issueStatus_eqb_eq a b : issueStatus_eqb a b = true <-> a = b.
Proof. destruct a, b; simpl; split; congruence. Qed.









(** A status update by an actor that is no user, here the literal "admin":
    the issue is updated, the history insert is refused, the answer is the
    general failure and the update stays. *)
Lemma update_stays_when_history_is_refused :
  Routes.patch_api_issues_id_status Sample.patchEnv "i1"
    {| StatusUpdate.status := JS.value "acknowledged"%string;
       StatusUpdate.notes := None;
       StatusUpdate.updatedBy := Some "admin"%string;
       StatusUpdate.assignedDepartment := Some ""%string;
       StatusUpdate.assignedTo := Some ""%string |} Sample.db
  = (WorkflowSpec.failed_to_update,
     {| Db.users := Db.users Sample.db;
        Db.issues :=
          [ Storage.set_columns (JS.value acknowledged)
              {| IssueUpdates.status := JS.value "acknowledged"%string;
                 IssueUpdates.assignedDepartment := None;
                 IssueUpdates.assignedTo := None;
                 IssueUpdates.actualResolutionDate := None |}
              (PatchEnv.updatedAt Sample.patchEnv)
              (Sample.issue "i1" submitted (Some "Public Works"%string)
                 Sample.t0 None);
            Sample.issue "i2" resolved (Some "Public Works"%string) Sample.t0
              (Some (Sample.t0 + 216000000));
            Sample.issue "i3" resolved (Some "Sanitation"%string) Sample.t0
              (Some (Sample.t0 + 259200000)) ];
        Db.issueStatusHistory := [] |}).
Proof. reflexivity. Qed.

(** C1, the code at an id that no issue has.  Whatever the body of the
    status update, the handler answers with status 500 and its general
    failure message, and the database is as it was: no history entry is
    written, and the answer is not the not-found answer that
    [GET /api/issues/:id] gives for the same id. *)
Theorem status_update_unknown_issue_is_500 env id body db :
  Storage.getIssue id db = None ->
  Routes.patch_api_issues_id_status env id body db
  = ({| Response.status := 500;
        Response.json := JsonMessage "Failed to update issue status" None |},
     db)
  /\ Routes.get_api_issues_id id db
     = {| Response.status := 404;
          Response.json := JsonMessage "Issue not found" None |}.
Proof.
  intros Hi. split; [|unfold Routes.get_api_issues_id; now rewrite Hi].
  change {| Response.status := 500;
            Response.json := JsonMessage "Failed to update issue status" None |}
    with WorkflowSpec.failed_to_update.
  assert (Hrows : forall f, Storage.update_where id f (Db.issues db)
                            = Db.issues db)
    by (intros f; now apply update_where_absent).
  destruct (StatusUpdate.status body) as [| |s] eqn:Hs.
  - unfold Routes.patch_api_issues_id_status, Routes.try_respond, bind,
      Storage.updateIssue, Storage.addStatusHistory. simpl.
    rewrite Hs. simpl. rewrite Hrows. destruct db; reflexivity.
  - unfold Routes.patch_api_issues_id_status, Routes.try_respond, bind,
      Storage.updateIssue, Storage.addStatusHistory. simpl.
    rewrite Hs. simpl. rewrite Hrows. destruct db; reflexivity.
  - destruct (issueStatusEnum s) as [st|] eqn:Hst.
    + rewrite (patch_valid_status _ _ _ _ _ _ Hs Hst).
      unfold WorkflowSpec.history_accepted. rewrite Hi, andb_false_r. simpl.
      unfold WorkflowSpec.after_update. rewrite Hrows.
      destruct db; reflexivity.
    + unfold Routes.patch_api_issues_id_status, Routes.try_respond, bind,
        Storage.updateIssue. simpl. rewrite Hs, Hst. reflexivity.
Qed.

(** The update "acknowledged" on the id "missing" in the sample database. *)
Lemma status_update_unknown_issue_is_500_witness :
  Routes.patch_api_issues_id_status Sample.patchEnv "missing"
    (Sample.statusUpdate "acknowledged") Sample.db
  = ({| Response.status := 500;
        Response.json := JsonMessage "Failed to update issue status" None |},
     Sample.db)
  /\ Routes.get_api_issues_id "missing" Sample.db
     = {| Response.status := 404;
          Response.json := JsonMessage "Issue not found" None |}.
Proof.
  apply (status_update_unknown_issue_is_500 Sample.patchEnv "missing"
           (Sample.statusUpdate "acknowledged") Sample.db).
  reflexivity.
Defined.

End Workflow.

(** ** Submission *)

Section Submission.

Import Schema.

Lemma issueType_label_enum s t :
  issueTypeEnum s = Some t -> issueType_label t = s.
Proof.
  unfold issueTypeEnum.
  repeat match goal with
         | |- context [String.eqb s ?l] =>
             destruct (String.eqb_spec s l) as [->|]
         end;
    intros [= <-] || discriminate; reflexivity.
Qed.


Lemma or_lit_present (s lit : string) :
  s <> ""%string -> JS.or_lit (Some s) lit = s.
Proof.
  intros H. simpl. destruct (String.eqb_spec s ""); [contradiction|reflexivity].
Qed.



(** What a successful [insertIssueSchema.parse] returns. *)
Lemma parse_inv d v :
  InsertIssueSchema.parse d = Return v ->
  InsertIssue.title v = IssueData.title d
  /\ InsertIssue.description v = IssueData.description d
  /\ issueTypeEnum (IssueData.issueType d) = Some (InsertIssue.issueType v)
  /\ option_map Some (priorityEnum (IssueData.priority d))
     = Some (InsertIssue.priority v)
  /\ InsertIssue.latitude v = IssueData.latitude d
  /\ InsertIssue.longitude v = IssueData.longitude d
  /\ InsertIssue.aiConfidence v = IssueData.aiConfidence d
  /\ InsertIssue.aiDetectionResult v = IssueData.aiDetectionResult d
  /\ InsertIssue.transcription v = IssueData.transcription d
  /\ InsertIssue.reporterId v = IssueData.reporterId d.
Proof.
  unfold InsertIssueSchema.parse.
  destruct (issueTypeEnum (IssueData.issueType d)); [|discriminate].
  destruct (priorityEnum (IssueData.priority d)); [|discriminate].
  destruct (languageEnum (IssueData.language d)); [|discriminate].
  destruct (_ && _)%bool; [|discriminate].
  intros [= <-]. simpl. repeat split.
Qed.

Lemma mem_last x l : Storage.mem x (l ++ [x]) = true.
Proof.
  unfold Storage.mem. rewrite existsb_app. simpl.
  rewrite String.eqb_refl. now rewrite orb_true_r.
Qed.

(** A submission whose data pass the validation, with numbers that their
    columns accept, a reporter that is absent or a user and free
    generated ids, is stored with its first history entry and answered
    with status 201. *)
Lemma create_from_created env body ai tr ex db v :
  InsertIssueSchema.parse (Routes.issueData body ai tr ex) = Return v ->
  (Storage.real_ok (InsertIssue.latitude v)
   && Storage.real_ok (InsertIssue.longitude v)
   && Storage.real_ok (InsertIssue.aiConfidence v))%bool = true ->
  Storage.references (JS.or_null (IssueForm.reporterId body)) (Db.users db)
  = true ->
  Storage.mem (PostEnv.issueId env) (Storage.issue_ids db) = false ->
  Storage.mem (PostEnv.historyId env) (Storage.history_ids db) = false ->
  Routes.create_from env body ai tr ex db
  = ({| Response.status := 201;
        Response.json :=
          JsonIssue (Some (Storage.new_issue_row (PostEnv.issueId env)
                             (PostEnv.issueNow env) v)) |},
     SubmissionSpec.after_create env body
       (Storage.new_issue_row (PostEnv.issueId env) (PostEnv.issueNow env) v)
       db).
Proof.
  intros Hp Hn Hr Hi Hh.
  pose proof (parse_inv _ _ Hp) as (_ & _ & _ & _ & _ & _ & _ & _ & _ & Hrep).
  simpl in Hrep.
  unfold Routes.create_from, Routes.try_respond, bind, lift.
  rewrite Hp. unfold Storage.createIssue. rewrite Hn, Hi, Hrep, Hr. simpl.
  unfold Storage.addStatusHistory. simpl.
  unfold Storage.history_ids in Hh |- *. simpl. rewrite Hh.
  unfold Storage.issue_ids. simpl. rewrite map_app. simpl.
  rewrite mem_last, Hr. simpl. reflexivity.
Qed.

(** A submission whose data fail the validation is answered with status
    500 and nothing is stored. *)
Lemma create_from_rejected env body ai tr ex db e :
  InsertIssueSchema.parse (Routes.issueData body ai tr ex) = Throw e ->
  Routes.create_from env body ai tr ex db
  = ({| Response.status := 500;
        Response.json := JsonMessage "Failed to create issue" (Some e) |},
     db).
Proof.
  intros Hp.
  unfold Routes.create_from, Routes.try_respond, bind, lift.
  rewrite Hp. reflexivity.
Qed.

(** The three ways a submission can end: refused with nothing written,
    the issue written and its first history entry refused, or both
    written. *)
Lemma create_from_cases env body ai tr ex db :
  (Response.status (fst (Routes.create_from env body ai tr ex db)) = 500
   /\ snd (Routes.create_from env body ai tr ex db) = db)
  \/ (exists v,
         InsertIssueSchema.parse (Routes.issueData body ai tr ex) = Return v
         /\ (Storage.real_ok (InsertIssue.latitude v)
             && Storage.real_ok (InsertIssue.longitude v)
             && Storage.real_ok (InsertIssue.aiConfidence v))%bool = true
         /\ Storage.mem (PostEnv.issueId env) (Storage.issue_ids db) = false
         /\ Storage.references (JS.or_null (IssueForm.reporterId body))
              (Db.users db) = true
         /\ Storage.mem (PostEnv.historyId env) (Storage.history_ids db) = true
         /\ Response.status (fst (Routes.create_from env body ai tr ex db)) = 500
         /\ snd (Routes.create_from env body ai tr ex db)
            = {| Db.users := Db.users db;
                 Db.issues :=
                   Db.issues db
                   ++ [Storage.new_issue_row (PostEnv.issueId env)
                         (PostEnv.issueNow env) v];
                 Db.issueStatusHistory := Db.issueStatusHistory db |})
  \/ (exists v,
         InsertIssueSchema.parse (Routes.issueData body ai tr ex) = Return v
         /\ (Storage.real_ok (InsertIssue.latitude v)
             && Storage.real_ok (InsertIssue.longitude v)
             && Storage.real_ok (InsertIssue.aiConfidence v))%bool = true
         /\ Storage.mem (PostEnv.issueId env) (Storage.issue_ids db) = false
         /\ Storage.references (JS.or_null (IssueForm.reporterId body))
              (Db.users db) = true
         /\ Storage.mem (PostEnv.historyId env) (Storage.history_ids db) = false
         /\ Routes.create_from env body ai tr ex db
            = ({| Response.status := 201;
                  Response.json :=
                    JsonIssue (Some (Storage.new_issue_row (PostEnv.issueId env)
                                       (PostEnv.issueNow env) v)) |},
               SubmissionSpec.after_create env body
                 (Storage.new_issue_row (PostEnv.issueId env)
                    (PostEnv.issueNow env) v) db)).
Proof.
  destruct (InsertIssueSchema.parse (Routes.issueData body ai tr ex))
    as [v|e] eqn:Hp.
  2:{ left. rewrite (create_from_rejected _ _ _ _ _ _ _ Hp). now split. }
  pose proof (parse_inv _ _ Hp) as (_ & _ & _ & _ & _ & _ & _ & _ & _ & Hrep).
  simpl in Hrep.
  destruct (Storage.real_ok (InsertIssue.latitude v)
            && Storage.real_ok (InsertIssue.longitude v)
            && Storage.real_ok (InsertIssue.aiConfidence v))%bool eqn:Hn.
  2:{ left. unfold Routes.create_from, Routes.try_respond, bind, lift.
      rewrite Hp. unfold Storage.createIssue. rewrite Hn. now split. }
  destruct (Storage.mem (PostEnv.issueId env) (Storage.issue_ids db)) eqn:Hi.
  { left. unfold Routes.create_from, Routes.try_respond, bind, lift.
    rewrite Hp. unfold Storage.createIssue. rewrite Hn, Hi. now split. }
  destruct (Storage.references (JS.or_null (IssueForm.reporterId body))
              (Db.users db)) eqn:Hr.
  2:{ left. unfold Routes.create_from, Routes.try_respond, bind, lift.
      rewrite Hp. unfold Storage.createIssue. rewrite Hn, Hi, Hrep, Hr.
      now split. }
  destruct (Storage.mem (PostEnv.historyId env) (Storage.history_ids db)) eqn:Hh.
  - right; left. exists v. repeat (split; [reflexivity || assumption|]).
    unfold Routes.create_from, Routes.try_respond, bind, lift.
    rewrite Hp. unfold Storage.createIssue. rewrite Hn, Hi, Hrep, Hr. simpl.
    unfold Storage.addStatusHistory. simpl.
    unfold Storage.history_ids in Hh |- *. simpl. rewrite Hh. now split.
  - right; right. exists v. repeat (split; [reflexivity || assumption|]).
    now apply create_from_created.
Qed.

(** A number that passed the validation and that its column accepted is
    stored as a finite number. *)
Lemma stored_real_finite (v : option JS.JSNumber) (x : JS.JSNumber) :
  InsertIssueSchema.number_ok v = true ->
  Storage.real_ok v = true ->
  Storage.real v = Some x ->
  exists q, x = JS.Finite q.
Proof.
  destruct v as [[| |q]|]; simpl; try discriminate.
  intros _ H [= <-].
  destruct (JS.to_single (JS.shortest JS.to_double q)) as [| |f];
    [discriminate..|now exists f].
Qed.

Lemma parse_numbers_ok d v :
  InsertIssueSchema.parse d = Return v ->
  InsertIssueSchema.number_ok (IssueData.latitude d) = true
  /\ InsertIssueSchema.number_ok (IssueData.longitude d) = true
  /\ InsertIssueSchema.number_ok (IssueData.aiConfidence d) = true.
Proof.
  unfold InsertIssueSchema.parse.
  destruct (issueTypeEnum (IssueData.issueType d)); [|discriminate].
  destruct (priorityEnum (IssueData.priority d)); [|discriminate].
  destruct (languageEnum (IssueData.language d)); [|discriminate].
  destruct (_ && _)%bool eqn:E; [|discriminate].
  intros _. apply andb_true_iff in E as [E ?].
  apply andb_true_iff in E as [? ?]. auto.
Qed.





Lemma or_else_first_present (a b c : option string) :
  match SubmissionSpec.first_present [a; b; c] with
  | Some s => JS.or_else a (JS.or_else b c) = Some s
  | None => JS.truthy (JS.or_else a (JS.or_else b c)) = false
  end.
Proof.
  unfold JS.or_else.
  destruct a as [x|], b as [y|], c as [z|]; simpl;
    repeat match goal with
           | |- context [String.eqb ?s ""] =>
               destruct (String.eqb_spec s ""); [subst|]; simpl
           end;
    reflexivity.
Qed.

(** C5, as the code has it.  The description of the issue data is the
    first non-empty one of the description of the form, the description
    of the image detection and the description of the voice extraction;
    when there is none it is absent or empty, there is no default text,
    and the validation passes it on as it is. *)
Theorem description_precedence body aiDetectionResult transcription
  extractedInfo :
  let d := Routes.issueData body aiDetectionResult transcription extractedInfo in
  match SubmissionSpec.first_present
          [IssueForm.description body;
           SubmissionSpec.description_of aiDetectionResult;
           SubmissionSpec.voice_description_of extractedInfo] with
  | Some s => IssueData.description d = Some s
  | None => JS.truthy (IssueData.description d) = false
  end
  /\ match InsertIssueSchema.parse d with
     | Return v => InsertIssue.description v = IssueData.description d
     | Throw _ => True
     end.
Proof.
  cbv zeta. split.
  - apply or_else_first_present.
  - destruct (InsertIssueSchema.parse _) as [v|e] eqn:Hp; [|exact I].
    now destruct (parse_inv _ _ Hp) as (_ & H & _).
Qed.

(** C5 as stated fails: a submission with no description from any source
    gets the title "New Issue" but no description, and is stored so. *)
Lemma description_has_no_default :
  IssueData.title (Routes.issueData Sample.emptyForm None None None)
  = "New Issue"%string
  /\ IssueData.description (Routes.issueData Sample.emptyForm None None None)
     = None
  /\ option_map Issue.description
       (SubmissionSpec.issue_of
          (fst (Routes.post_api_issues Sample.postEnv Sample.emptyForm
                  SubmissionSpec.noFiles Sample.db)))
     = Some None
  /\ @None string <> Some "New Issue"%string.
Proof. repeat split; discriminate. Qed.

Lemma parse_coordinate_spec (s : option string) :
  Routes.parse_coordinate s
  = match s with
    | Some v => if String.eqb v "" then None else Some (JS.parseFloat v)
    | None => None
    end.
Proof.
  destruct s as [v|]; simpl; [|reflexivity].
  now destruct (String.eqb v "").
Qed.

(** The validation refuses a coordinate that is NaN. *)
Lemma parse_refuses_NaN d :
  IssueData.latitude d = Some JS.NaN \/ IssueData.longitude d = Some JS.NaN ->
  InsertIssueSchema.parse d = Throw (ZodError (InsertIssueSchema.issues_of d)).
Proof.
  intros H. unfold InsertIssueSchema.parse.
  assert (E : (InsertIssueSchema.number_ok (IssueData.latitude d)
               && InsertIssueSchema.number_ok (IssueData.longitude d)
               && InsertIssueSchema.number_ok (IssueData.aiConfidence d))%bool
              = false).
  { destruct H as [-> | ->]; simpl; [reflexivity|].
    now rewrite andb_false_r. }
  rewrite E.
  destruct (issueTypeEnum (IssueData.issueType d)),
    (priorityEnum (IssueData.priority d)),
    (languageEnum (IssueData.language d)); reflexivity.
Qed.

(** What is stored of a coordinate when the submission is answered with
    201: null for an input that is absent or empty, else a finite number,
    the one that the column makes of the number parsed. *)
Lemma created_coordinate env body ai tr ex db issue
  (input : IssueForm.t -> option string)
  (data : IssueData.t -> option JS.JSNumber)
  (validated : InsertIssue.t -> option JS.JSNumber)
  (column : Issue.t -> option JS.JSNumber) :
  (forall d v, InsertIssueSchema.parse d = Return v ->
               validated v = data d
               /\ InsertIssueSchema.number_ok (data d) = true) ->
  (forall v, (Storage.real_ok (InsertIssue.latitude v)
              && Storage.real_ok (InsertIssue.longitude v)
              && Storage.real_ok (InsertIssue.aiConfidence v))%bool = true ->
             Storage.real_ok (validated v) = true) ->
  (forall i n v, column (Storage.new_issue_row i n v)
                 = Storage.real (validated v)) ->
  data (Routes.issueData body ai tr ex) = Routes.parse_coordinate (input body) ->
  fst (Routes.create_from env body ai tr ex db)
  = {| Response.status := 201; Response.json := JsonIssue (Some issue) |} ->
  (column issue = None <-> JS.truthy (input body) = false)
  /\ (forall x, column issue = Some x -> exists q, x = JS.Finite q)
  /\ column issue = Storage.real (Routes.parse_coordinate (input body)).
Proof.
  intros Hparse Hreal Hrow Hdata H.
  destruct (create_from_cases env body ai tr ex db)
    as [[Hs _]|[(v & _ & _ & _ & _ & _ & Hs & _)|(v & Hp & Hn & _ & _ & _ & E)]];
    try (rewrite H in Hs; discriminate).
  rewrite E in H. simpl in H. injection H as <-.
  destruct (Hparse _ _ Hp) as [Hv Hok]. rewrite Hrow, Hv, Hdata.
  split; [|split; [|reflexivity]].
  - rewrite parse_coordinate_spec.
    destruct (input body) as [s|]; simpl; [|tauto].
    destruct (String.eqb s ""); simpl; split; congruence.
  - intros x Hx. apply (stored_real_finite (Routes.parse_coordinate (input body))).
    + now rewrite <- Hdata.
    + rewrite <- Hdata, <- Hv. now apply Hreal.
    + exact Hx.
Qed.

(** C6, as the code has it.  A coordinate of the issue data is null
    exactly when its input is absent or empty; any other input, numeric
    or not, gives the value of [parseFloat], which is total; a submission
    with a coordinate that came out as NaN is refused by the validation:
    it is answered with status 500 and nothing is stored; and in an issue
    that is created a coordinate is null exactly when its input is absent
    or empty, and otherwise the single-precision number that the column
    makes of the value of [parseFloat], a finite number, never NaN. *)
Theorem coordinates_parsed_or_refused env body aiDetectionResult
  transcription extractedInfo db :
  let d := Routes.issueData body aiDetectionResult transcription extractedInfo in
  (IssueData.latitude d = None <-> JS.truthy (IssueForm.latitude body) = false)
  /\ (IssueData.longitude d = None
      <-> JS.truthy (IssueForm.longitude body) = false)
  /\ (forall s, IssueForm.latitude body = Some s -> s <> ""%string ->
                IssueData.latitude d = Some (JS.parseFloat s))
  /\ (forall s, IssueForm.longitude body = Some s -> s <> ""%string ->
                IssueData.longitude d = Some (JS.parseFloat s))
  /\ (IssueData.latitude d = Some JS.NaN \/ IssueData.longitude d = Some JS.NaN ->
      Routes.create_from env body aiDetectionResult transcription extractedInfo db
      = ({| Response.status := 500;
            Response.json :=
              JsonMessage "Failed to create issue"
                (Some (ZodError (InsertIssueSchema.issues_of d))) |},
         db))
  /\ (forall issue,
        fst (Routes.create_from env body aiDetectionResult transcription
               extractedInfo db)
        = {| Response.status := 201; Response.json := JsonIssue (Some issue) |} ->
        (Issue.latitude issue = None
         <-> JS.truthy (IssueForm.latitude body) = false)
        /\ (Issue.longitude issue = None
            <-> JS.truthy (IssueForm.longitude body) = false)
        /\ (forall s, IssueForm.latitude body = Some s -> s <> ""%string ->
                      Issue.latitude issue
                      = Some (Storage.float4 (JS.parseFloat s)))
        /\ (forall s, IssueForm.longitude body = Some s -> s <> ""%string ->
                      Issue.longitude issue
                      = Some (Storage.float4 (JS.parseFloat s)))
        /\ (forall x, Issue.latitude issue = Some x
                      \/ Issue.longitude issue = Some x ->
                      exists q, x = JS.Finite q)).
Proof.
  cbv zeta. simpl IssueData.latitude. simpl IssueData.longitude.
  rewrite !parse_coordinate_spec.
  split; [|split; [|split; [|split; [|split]]]].
  - destruct (IssueForm.latitude body) as [v|]; simpl; [|tauto].
    destruct (String.eqb v ""); simpl; split; congruence.
  - destruct (IssueForm.longitude body) as [v|]; simpl; [|tauto].
    destruct (String.eqb v ""); simpl; split; congruence.
  - intros s -> Hs. now destruct (String.eqb_spec s "").
  - intros s -> Hs. now destruct (String.eqb_spec s "").
  - intros H. apply create_from_rejected, parse_refuses_NaN.
    simpl. now rewrite !parse_coordinate_spec.
  - intros issue H.
    destruct (created_coordinate env body aiDetectionResult transcription
                extractedInfo db issue IssueForm.latitude IssueData.latitude
                InsertIssue.latitude Issue.latitude) as (L1 & L2 & L3);
      try reflexivity; try exact H.
    { intros d v Hp. split.
      - now destruct (parse_inv _ _ Hp) as (_ & _ & _ & _ & ? & _).
      - now destruct (parse_numbers_ok _ _ Hp) as (? & _). }
    { intros v Hn. apply andb_true_iff in Hn as [Hn _].
      now apply andb_true_iff in Hn as [? _]. }
    destruct (created_coordinate env body aiDetectionResult transcription
                extractedInfo db issue IssueForm.longitude IssueData.longitude
                InsertIssue.longitude Issue.longitude) as (G1 & G2 & G3);
      try reflexivity; try exact H.
    { intros d v Hp. split.
      - now destruct (parse_inv _ _ Hp) as (_ & _ & _ & _ & _ & ? & _).
      - now destruct (parse_numbers_ok _ _ Hp) as (_ & ? & _). }
    { intros v Hn. apply andb_true_iff in Hn as [Hn _].
      now apply andb_true_iff in Hn as [_ ?]. }
    split; [exact L1|]. split; [exact G1|].
    split; [|split].
    + intros s Hs Hne. rewrite L3, Hs. simpl.
      now destruct (String.eqb_spec s "").
    + intros s Hs Hne. rewrite G3, Hs. simpl.
      now destruct (String.eqb_spec s "").
    + intros x [Hx|Hx]; [now apply L2|now apply G2].
Qed.

(** The latitude "19.1197" of the sample form, the submission with the
    latitude "abc", and the coordinates that the sample form is stored
    with. *)
Lemma coordinates_parsed_or_refused_witness :
  IssueData.latitude (Routes.issueData Sample.form None None None)
  = Some (JS.parseFloat "19.1197")
  /\ Routes.create_from Sample.postEnv (Sample.formWithLatitude "abc")
       None None None Sample.db
     = ({| Response.status := 500;
           Response.json :=
             JsonMessage "Failed to create issue"
               (Some (ZodError ["latitude"%string])) |},
        Sample.db)
  /\ (forall x,
        Issue.latitude
          (Storage.new_issue_row "i4" (Sample.t0 + 500000000)
             Sample.validForm) = Some x
        \/ Issue.longitude
             (Storage.new_issue_row "i4" (Sample.t0 + 500000000)
                Sample.validForm) = Some x ->
        exists q, x = JS.Finite q).
Proof.
  split; [|split].
  - apply (proj1 (proj2 (proj2 (coordinates_parsed_or_refused
                                  Sample.postEnv Sample.form None None None
                                  Sample.db))) "19.1197"%string);
      [reflexivity|discriminate].
  - apply (proj1 (proj2 (proj2 (proj2 (proj2 (coordinates_parsed_or_refused
                                         Sample.postEnv
                                         (Sample.formWithLatitude "abc")
                                         None None None Sample.db)))))).
    left. reflexivity.
  - apply (proj2 (proj2 (proj2 (proj2
             (proj2 (proj2 (proj2 (proj2 (proj2
                (coordinates_parsed_or_refused Sample.postEnv Sample.form
                   None None None Sample.db)))))
                (Storage.new_issue_row "i4" (Sample.t0 + 500000000)
                   Sample.validForm) eq_refl))))).
Defined.

(** C6 as stated fails: the latitude "abc" does not become null, it
    becomes NaN in the issue data, and the submission is answered with
    status 500. *)
Lemma invalid_latitude_is_NaN_not_null :
  IssueData.latitude
    (Routes.issueData (Sample.formWithLatitude "abc") None None None)
  = Some JS.NaN
  /\ Some JS.NaN <> @None JS.JSNumber
  /\ Response.status
       (fst (Routes.post_api_issues Sample.postEnv
               (Sample.formWithLatitude "abc") SubmissionSpec.noFiles
               Sample.db))
     = 500.
Proof. repeat split; discriminate. Qed.

(** A detection result with a confidence other than zero has it as
    [aiConfidence]; the confidence of a result is within 0 and 1, or NaN
    when the answer gave a value that is truthy and no number. *)
Lemma confidence_or_null_nonzero r q :
  IssueDetectionResult.confidence r = JS.Finite q ->
  ~ (q == 0)%Q ->
  Routes.confidence_or_null (Some r) = Some (JS.Finite q).
Proof.
  intros E H. unfold Routes.confidence_or_null. rewrite E. simpl.
  destruct (Qeq_bool q 0) eqn:E0; [|reflexivity].
  apply Qeq_bool_iff in E0. contradiction.
Qed.

Lemma analyzeIssueImage_clamps result r :
  OpenAI.analyzeIssueImage (Replied result) = Return r ->
  match IssueDetectionResult.confidence r with
  | JS.Finite q => (0 <= q /\ q <= 1)%Q
  | JS.NaN =>
      JS.truthy_value (RawDetection.confidence result) = true
      /\ JS.ToNumber (RawDetection.confidence result) = JS.NaN
  | JS.Infinity _ => False
  end.
Proof.
  intros [= <-]. simpl. unfold OpenAI.confidence_or_0.
  destruct (JS.truthy_value (RawDetection.confidence result)).
  - destruct (JS.ToNumber (RawDetection.confidence result)) as [|[|]|c];
      simpl; try (split; [discriminate|apply Qle_refl]);
      try (split; [apply Qle_refl|discriminate]); [now split|].
    destruct (Qle_bool 1 c) eqn:E1; simpl.
    + split; [discriminate|apply Qle_refl].
    + destruct (Qle_bool 0 c) eqn:E0.
      * split; [now apply Qle_bool_iff|].
        apply Qlt_le_weak, Qnot_le_lt. intros H.
        apply Qle_bool_iff in H. congruence.
      * split; [apply Qle_refl|discriminate].
  - simpl. split; [apply Qle_refl|discriminate].
Qed.

(** C7, the code at a detection whose confidence is zero.  The detection
    result is kept in [aiDetectionResult], with its confidence 0, while
    [aiConfidence] is null, in the issue data and in what the validation
    passes on to the store. *)
Theorem zero_confidence_is_stored_as_null body r q transcription
  extractedInfo :
  IssueDetectionResult.confidence r = JS.Finite q ->
  (q == 0)%Q ->
  let d := Routes.issueData body (Some r) transcription extractedInfo in
  IssueData.aiDetectionResult d = Some r
  /\ IssueData.aiConfidence d = None
  /\ match InsertIssueSchema.parse d with
     | Return v => InsertIssue.aiDetectionResult v = Some r
                   /\ InsertIssue.aiConfidence v = None
     | Throw _ => True
     end.
Proof.
  intros Hq H. cbv zeta.
  assert (E : IssueData.aiConfidence
                (Routes.issueData body (Some r) transcription extractedInfo)
              = None).
  { simpl. unfold Routes.confidence_or_null. rewrite Hq. simpl.
    apply Qeq_bool_iff in H. now rewrite H. }
  split; [reflexivity|]. split; [exact E|].
  destruct (InsertIssueSchema.parse _) as [v|e] eqn:Hp; [|exact I].
  destruct (parse_inv _ _ Hp) as (_ & _ & _ & _ & _ & _ & Hc & Hd & _).
  rewrite Hc, Hd. split; [reflexivity|exact E].
Qed.

(** The empty form with a photo for which the service answers with the
    confidence 0: the issue is created with [aiConfidence] null. *)
Lemma zero_confidence_is_stored_as_null_witness :
  (IssueData.aiDetectionResult
     (Routes.issueData Sample.emptyForm
        (Routes.process_photo
           (Sample.photoOnly (Replied (Sample.detection (JS.number (JS.Finite 0))))))
        None None)
   = Routes.process_photo
       (Sample.photoOnly (Replied (Sample.detection (JS.number (JS.Finite 0)))))
   /\ IssueData.aiConfidence
        (Routes.issueData Sample.emptyForm
           (Routes.process_photo
              (Sample.photoOnly (Replied (Sample.detection (JS.number (JS.Finite 0))))))
           None None)
      = None)
  /\ option_map IssueDetectionResult.confidence
       (Routes.process_photo
          (Sample.photoOnly (Replied (Sample.detection (JS.number (JS.Finite 0))))))
     = Some (JS.Finite 0)
  /\ option_map Issue.aiConfidence
       (SubmissionSpec.issue_of
          (fst (Routes.post_api_issues Sample.postEnv Sample.emptyForm
                  (Sample.photoOnly (Replied (Sample.detection (JS.number (JS.Finite 0)))))
                  Sample.db)))
     = Some None.
Proof.
  split; [|split; reflexivity].
  destruct (zero_confidence_is_stored_as_null Sample.emptyForm
              {| IssueDetectionResult.issueType := "pothole";
                 IssueDetectionResult.confidence := JS.Finite 0;
                 IssueDetectionResult.description := "Large pothole";
                 IssueDetectionResult.severity := "high";
                 IssueDetectionResult.suggestedDepartment := "General Services" |}
              0%Q None None eq_refl) as (H1 & H2 & _).
  - reflexivity.
  - split; [exact H1|exact H2].
Defined.

(** The scenario of the specification: an empty form with a photo detected
    as a large pothole with confidence 0.92. *)
Example pothole_scenario :
  option_map
    (fun i => (Issue.title i, Issue.issueType i, Issue.priority i,
               Issue.aiConfidence i))
    (SubmissionSpec.issue_of
       (fst (Routes.post_api_issues Sample.postEnv Sample.emptyForm
               (Sample.photoOnly
                  (Replied (Sample.detection
                              (JS.number (JS.parseFloat "0.92")))))
               Sample.db)))
  = Some ("Large pothole"%string, pothole, Some high,
          Some (Storage.float4 (JS.parseFloat "0.92"))).
Proof. reflexivity. Qed.






End Submission.

(** ** What the two writing handlers keep *)

Section HandlersKeep.

Import Schema.

Lemma mem_In (x : string) (l : list string) :
  Storage.mem x l = true <-> In x l.
Proof.
  unfold Storage.mem. rewrite existsb_exists. split.
  - intros (y & Hy & E). apply String.eqb_eq in E. now subst.
  - intros H. exists x. split; [exact H|apply String.eqb_refl].
Qed.

Lemma mem_false_not_In (x : string) (l : list string) :
  Storage.mem x l = false <-> ~ In x l.
Proof.
  rewrite <- mem_In. destruct (Storage.mem x l); split; congruence.
Qed.

End HandlersKeep.

(** ** Submission: what a created issue is *)

Section SubmissionKeeps.

Import Schema.

Lemma post_cases env body files db :
  exists ai tr ex,
    Routes.post_api_issues env body files db
    = Routes.create_from env body ai tr ex db.
Proof.
  unfold Routes.post_api_issues.
  destruct (Routes.process_audio files) as [tr ex].
  now exists (Routes.process_photo files), tr, ex.
Qed.

Lemma getIssue_last id rows row :
  Storage.mem id (map Issue.id rows) = false ->
  Issue.id row = id ->
  find (fun i => String.eqb (Issue.id i) id) (rows ++ [row]) = Some row.
Proof.
  intros Hm Hid. induction rows as [|i r IH]; simpl in *.
  - now rewrite Hid, String.eqb_refl.
  - apply orb_false_iff in Hm as [H1 H2].
    rewrite String.eqb_sym, H1. now apply IH.
Qed.

(** What a submission answered with 201 has done. *)
Lemma post_created_inv env body files db issue :
  fst (Routes.post_api_issues env body files db)
  = {| Response.status := 201; Response.json := JsonIssue (Some issue) |} ->
  exists v,
    issue = Storage.new_issue_row (PostEnv.issueId env) (PostEnv.issueNow env) v
    /\ Storage.mem (PostEnv.issueId env) (Storage.issue_ids db) = false
    /\ Storage.references (JS.or_null (IssueForm.reporterId body))
         (Db.users db) = true
    /\ InsertIssue.reporterId v = JS.or_null (IssueForm.reporterId body)
    /\ Storage.mem (PostEnv.historyId env) (Storage.history_ids db) = false
    /\ snd (Routes.post_api_issues env body files db)
       = SubmissionSpec.after_create env body issue db.
Proof.
  destruct (post_cases env body files db) as (ai & tr & ex & ->).
  intros H.
  destruct (create_from_cases env body ai tr ex db)
    as [[Hs _]|[(v & _ & _ & _ & _ & _ & Hs & _)
      |(v & Hp & _ & Hi & Hr & Hh & E)]].
  - rewrite H in Hs. discriminate.
  - rewrite H in Hs. discriminate.
  - rewrite E in H |- *. simpl in H. injection H as <-.
    exists v. repeat (split; [reflexivity || assumption|]). split.
    + now destruct (parse_inv _ _ Hp) as (_ & _ & _ & _ & _ & _ & _ & _ & _ & ?).
    + split; [assumption|reflexivity].
Qed.

(** X1.  An issue that [POST /api/issues] answers with 201 is the one that
    [GET /api/issues/:id] returns for its id afterwards; before the
    submission that id gave the not-found answer. *)
Theorem created_issue_can_be_fetched env body files db issue :
  fst (Routes.post_api_issues env body files db)
  = {| Response.status := 201; Response.json := JsonIssue (Some issue) |} ->
  Routes.get_api_issues_id (Issue.id issue)
    (snd (Routes.post_api_issues env body files db))
  = {| Response.status := 200; Response.json := JsonIssue (Some issue) |}
  /\ Response.status (Routes.get_api_issues_id (Issue.id issue) db) = 404.
Proof.
  intros H.
  destruct (post_created_inv _ _ _ _ _ H) as (v & -> & Hi & _ & _ & _ & ->).
  unfold Routes.get_api_issues_id, Storage.getIssue. simpl. split.
  - rewrite getIssue_last; [reflexivity|exact Hi|reflexivity].
  - unfold Storage.issue_ids in Hi. rewrite mem_issue_ids_find in Hi.
    destruct (find _ (Db.issues db)); [discriminate|reflexivity].
Qed.

Lemma created_issue_can_be_fetched_witness :
  Routes.get_api_issues_id "i4"
    (snd (Routes.post_api_issues Sample.postEnv Sample.form
            SubmissionSpec.noFiles Sample.db))
  = {| Response.status := 200;
       Response.json := JsonIssue (Some Examples.streetlight) |}
  /\ Response.status (Routes.get_api_issues_id "i4" Sample.db) = 404.
Proof.
  apply (created_issue_can_be_fetched Sample.postEnv Sample.form
           SubmissionSpec.noFiles Sample.db Examples.streetlight).
  reflexivity.
Defined.

Lemma parse_defaults d v :
  InsertIssueSchema.parse d = Return v ->
  InsertIssue.status v = None
  /\ InsertIssue.assignedTo v = None
  /\ InsertIssue.actualResolutionDate v = None.
Proof.
  unfold InsertIssueSchema.parse.
  destruct (issueTypeEnum (IssueData.issueType d)); [|discriminate].
  destruct (priorityEnum (IssueData.priority d)); [|discriminate].
  destruct (languageEnum (IssueData.language d)); [|discriminate].
  destruct (_ && _)%bool; [|discriminate].
  intros [= <-]. simpl. repeat split.
Qed.

(** X2.  An issue that [POST /api/issues] answers with 201 is in the state
    submitted, with no assignee and no resolution date, whatever the form
    and the AI said; it is the last row of [issues], and the history has
    grown by one entry, for this issue, with the status submitted and
    the reporter as actor. *)
Theorem created_issue_starts_submitted env body files db issue :
  fst (Routes.post_api_issues env body files db)
  = {| Response.status := 201; Response.json := JsonIssue (Some issue) |} ->
  Issue.status issue = Some submitted
  /\ Issue.assignedTo issue = None
  /\ Issue.actualResolutionDate issue = None
  /\ Db.issues (snd (Routes.post_api_issues env body files db))
     = Db.issues db ++ [issue]
  /\ exists entry,
      Db.issueStatusHistory (snd (Routes.post_api_issues env body files db))
      = Db.issueStatusHistory db ++ [entry]
      /\ IssueStatusHistory.issueId entry = Some (Issue.id issue)
      /\ IssueStatusHistory.status entry = submitted
      /\ IssueStatusHistory.updatedBy entry = Issue.reporterId issue.
Proof.
  intros H.
  destruct (post_cases env body files db) as (ai & tr & ex & E).
  rewrite E in H |- *.
  destruct (create_from_cases env body ai tr ex db)
    as [[Hs _]|[(v & _ & _ & _ & _ & _ & Hs & _)
      |(v & Hp & _ & Hi & Hr & Hh & E')]];
    try (rewrite H in Hs; discriminate).
  rewrite E' in H |- *. simpl in H. injection H as <-.
  destruct (parse_defaults _ _ Hp) as (S1 & S2 & S3).
  pose proof (parse_inv _ _ Hp) as (_ & _ & _ & _ & _ & _ & _ & _ & _ & Hrep).
  simpl in Hrep. simpl. rewrite S1, S2, S3. repeat split.
  exists (SubmissionSpec.first_entry env body). simpl. now rewrite Hrep.
Qed.

Lemma created_issue_starts_submitted_witness :
  Issue.status Examples.streetlight = Some submitted
  /\ Issue.assignedTo Examples.streetlight = None
  /\ Issue.actualResolutionDate Examples.streetlight = None
  /\ Db.issues (snd (Routes.post_api_issues Sample.postEnv Sample.form
                       SubmissionSpec.noFiles Sample.db))
     = Db.issues Sample.db ++ [Examples.streetlight]
  /\ exists entry,
      Db.issueStatusHistory
        (snd (Routes.post_api_issues Sample.postEnv Sample.form
                SubmissionSpec.noFiles Sample.db))
      = Db.issueStatusHistory Sample.db ++ [entry]
      /\ IssueStatusHistory.issueId entry = Some (Issue.id Examples.streetlight)
      /\ IssueStatusHistory.status entry = submitted
      /\ IssueStatusHistory.updatedBy entry
         = Issue.reporterId Examples.streetlight.
Proof.
  apply (created_issue_starts_submitted Sample.postEnv Sample.form
           SubmissionSpec.noFiles Sample.db Examples.streetlight).
  reflexivity.
Defined.

(** X3.  When the id generated for the history entry is free, a
    submission is all or nothing: it is answered with 201 and the issue
    and its history entry are both stored, or it is answered with 500 and
    the database is as before. *)
Theorem submission_is_all_or_nothing env body files db :
  Storage.mem (PostEnv.historyId env) (Storage.history_ids db) = false ->
  (exists issue,
      Routes.post_api_issues env body files db
      = ({| Response.status := 201; Response.json := JsonIssue (Some issue) |},
         SubmissionSpec.after_create env body issue db))
  \/ (Response.status (fst (Routes.post_api_issues env body files db)) = 500
      /\ snd (Routes.post_api_issues env body files db) = db).
Proof.
  intros Hh.
  destruct (post_cases env body files db) as (ai & tr & ex & ->).
  destruct (create_from_cases env body ai tr ex db)
    as [H|[(v & _ & _ & _ & _ & Hh' & _)|(v & _ & _ & _ & _ & _ & E)]].
  - now right.
  - congruence.
  - left. eexists. exact E.
Qed.

(** The form with the latitude "abc" is refused and nothing is stored. *)
Lemma submission_is_all_or_nothing_witness :
  (exists issue,
      Routes.post_api_issues Sample.postEnv (Sample.formWithLatitude "abc")
        SubmissionSpec.noFiles Sample.db
      = ({| Response.status := 201; Response.json := JsonIssue (Some issue) |},
         SubmissionSpec.after_create Sample.postEnv
           (Sample.formWithLatitude "abc") issue Sample.db))
  \/ (Response.status
        (fst (Routes.post_api_issues Sample.postEnv
                (Sample.formWithLatitude "abc") SubmissionSpec.noFiles
                Sample.db)) = 500
      /\ snd (Routes.post_api_issues Sample.postEnv
                (Sample.formWithLatitude "abc") SubmissionSpec.noFiles
                Sample.db) = Sample.db).
Proof.
  apply (submission_is_all_or_nothing Sample.postEnv
           (Sample.formWithLatitude "abc") SubmissionSpec.noFiles Sample.db).
  reflexivity.
Defined.

End SubmissionKeeps.

(** ** Status update: what it writes and what it leaves *)

Section StatusUpdateKeeps.

Import Schema.

Lemma issueStatus_label_enum s st :
  issueStatusEnum s = Some st -> issueStatus_label st = s.
Proof.
  unfold issueStatusEnum.
  repeat match goal with
         | |- context [String.eqb s ?l] =>
             destruct (String.eqb_spec s l) as [->|]
         end;
    intros [= <-] || discriminate; reflexivity.
Qed.

(** The status handler by the status it is sent. *)
Lemma patch_cases env id body db :
  match StatusUpdate.status body with
  | JS.undefined =>
      Routes.patch_api_issues_id_status env id body db
      = (WorkflowSpec.failed_to_update,
         WorkflowSpec.after_update env id body JS.undefined db)
  | JS.null =>
      Routes.patch_api_issues_id_status env id body db
      = (WorkflowSpec.failed_to_update,
         WorkflowSpec.after_update env id body JS.null db)
  | JS.value s =>
      match issueStatusEnum s with
      | None =>
          Routes.patch_api_issues_id_status env id body db
          = (WorkflowSpec.failed_to_update, db)
      | Some st =>
          Routes.patch_api_issues_id_status env id body db
          = if WorkflowSpec.history_accepted env id body db
            then ({| Response.status := 200;
                     Response.json :=
                       JsonIssue
                         (Storage.getIssue id
                            (WorkflowSpec.after_update env id body (JS.value st) db)) |},
                  WorkflowSpec.append_history
                    (WorkflowSpec.history_entry env id body st)
                    (WorkflowSpec.after_update env id body (JS.value st) db))
            else (WorkflowSpec.failed_to_update,
                  WorkflowSpec.after_update env id body (JS.value st) db)
      end
  end.
Proof.
  destruct (StatusUpdate.status body) as [| |s] eqn:Hs.
  - unfold Routes.patch_api_issues_id_status, Routes.try_respond, bind,
      Storage.updateIssue, Storage.addStatusHistory. simpl.
    rewrite Hs. reflexivity.
  - unfold Routes.patch_api_issues_id_status, Routes.try_respond, bind,
      Storage.updateIssue, Storage.addStatusHistory. simpl.
    rewrite Hs. reflexivity.
  - destruct (issueStatusEnum s) as [st|] eqn:Hst.
    + now apply (patch_valid_status env id body db s st).
    + unfold Routes.patch_api_issues_id_status, Routes.try_respond, bind,
        Storage.updateIssue. simpl. rewrite Hs, Hst. reflexivity.
Qed.

(** The database after the handler is the one before, the one after the
    update, or the one after the update and the history insert. *)
Lemma patch_db_cases env id body db :
  snd (Routes.patch_api_issues_id_status env id body db) = db
  \/ (exists st,
         snd (Routes.patch_api_issues_id_status env id body db)
         = WorkflowSpec.after_update env id body st db)
  \/ (exists st,
         StatusUpdate.status body = JS.value (issueStatus_label st)
         /\ WorkflowSpec.history_accepted env id body db = true
         /\ Routes.patch_api_issues_id_status env id body db
            = ({| Response.status := 200;
                  Response.json :=
                    JsonIssue
                      (Storage.getIssue id
                         (WorkflowSpec.after_update env id body (JS.value st) db)) |},
               WorkflowSpec.append_history
                 (WorkflowSpec.history_entry env id body st)
                 (WorkflowSpec.after_update env id body (JS.value st) db))).
Proof.
  pose proof (patch_cases env id body db) as H.
  destruct (StatusUpdate.status body) as [| |s] eqn:Hs.
  - right; left. exists JS.undefined. now rewrite H.
  - right; left. exists JS.null. now rewrite H.
  - destruct (issueStatusEnum s) as [st|] eqn:Hst.
    + destruct (WorkflowSpec.history_accepted env id body db) eqn:Ha.
      * right; right. exists st. split; [|split; [reflexivity|exact H]].
        now rewrite (issueStatus_label_enum _ _ Hst).
      * right; left. exists (JS.value st). now rewrite H.
    + left. now rewrite H.
Qed.

Lemma update_where_other id id' f rows :
  (forall i, Issue.id (f i) = Issue.id i) ->
  id' <> id ->
  find (fun i => String.eqb (Issue.id i) id') (Storage.update_where id f rows)
  = find (fun i => String.eqb (Issue.id i) id') rows.
Proof.
  intros Hf Hne. induction rows as [|i r IH]; simpl; [reflexivity|].
  destruct (String.eqb_spec (Issue.id i) id) as [E|E].
  - rewrite Hf.
    destruct (String.eqb_spec (Issue.id i) id'); [congruence|exact IH].
  - rewrite IH. reflexivity.
Qed.

(** X4.  A status update, answered with 200 or with 500, never touches the
    users, never adds or removes an issue, never changes another issue,
    and in the issue it is for never changes the report itself: id,
    reporter, title, description, type, priority, location, coordinates
    and creation time. *)
Theorem status_update_frame env id body db :
  Db.users (snd (Routes.patch_api_issues_id_status env id body db))
  = Db.users db
  /\ Storage.issue_ids (snd (Routes.patch_api_issues_id_status env id body db))
     = Storage.issue_ids db
  /\ (forall id', id' <> id ->
        Storage.getIssue id'
          (snd (Routes.patch_api_issues_id_status env id body db))
        = Storage.getIssue id' db)
  /\ (forall i, Storage.getIssue id db = Some i ->
        exists i',
          Storage.getIssue id
            (snd (Routes.patch_api_issues_id_status env id body db)) = Some i'
          /\ Integrity.report_of i' = Integrity.report_of i).
Proof.
  assert (A : forall st,
             let d := WorkflowSpec.after_update env id body st db in
             Db.users d = Db.users db
             /\ Storage.issue_ids d = Storage.issue_ids db
             /\ (forall id', id' <> id ->
                   Storage.getIssue id' d = Storage.getIssue id' db)
             /\ (forall i, Storage.getIssue id db = Some i ->
                   exists i', Storage.getIssue id d = Some i'
                              /\ Integrity.report_of i' = Integrity.report_of i)).
  { intros st. cbv zeta. split; [reflexivity|]. split; [|split].
    - unfold Storage.issue_ids. simpl.
      apply update_where_ids, set_columns_id.
    - intros id' Hne. unfold Storage.getIssue. simpl.
      apply update_where_other; [apply set_columns_id|exact Hne].
    - intros i Hi. rewrite getIssue_after_update, Hi. simpl.
      eexists; split; reflexivity. }
  destruct (patch_db_cases env id body db) as [->|[[st ->]|(st & _ & _ & ->)]].
  - split; [reflexivity|]. split; [reflexivity|]. split; [reflexivity|].
    intros i Hi. now exists i.
  - apply A.
  - apply (A (JS.value st)).
Qed.

(** Resolving "i1" leaves "i2" as it was. *)
Lemma status_update_frame_witness :
  Storage.getIssue "i2"
    (snd (Routes.patch_api_issues_id_status Sample.patchEnv "i1"
            (Sample.statusUpdate "resolved") Sample.db))
  = Storage.getIssue "i2" Sample.db.
Proof.
  apply (proj1 (proj2 (proj2 (status_update_frame Sample.patchEnv "i1"
                                (Sample.statusUpdate "resolved") Sample.db)))).
  discriminate.
Defined.

(** X5.  A status update whose status is no label of the enum is answered
    with 500 and writes nothing, not even the assignment it carries. *)
Theorem unknown_status_writes_nothing env id body db s :
  StatusUpdate.status body = JS.value s ->
  issueStatusEnum s = None ->
  Routes.patch_api_issues_id_status env id body db
  = ({| Response.status := 500;
        Response.json := JsonMessage "Failed to update issue status" None |},
     db).
Proof.
  intros Hs He. pose proof (patch_cases env id body db) as H.
  now rewrite Hs, He in H.
Qed.

Lemma unknown_status_writes_nothing_witness :
  Routes.patch_api_issues_id_status Sample.patchEnv "i1"
    (Sample.statusUpdate "closed") Sample.db
  = ({| Response.status := 500;
        Response.json := JsonMessage "Failed to update issue status" None |},
     Sample.db).
Proof.
  apply (unknown_status_writes_nothing Sample.patchEnv "i1"
           (Sample.statusUpdate "closed") Sample.db "closed");
    reflexivity.
Defined.





(** X8.  The history only grows, by one entry per status update answered
    with 200: such an answer means that the issue exists and that one
    entry was appended for it, with the status, the notes and the actor of
    the request; an update answered with 500 leaves the history as it
    was. *)
Theorem status_update_appends_one_entry env id body db :
  (exists st entry,
      Response.status (fst (Routes.patch_api_issues_id_status env id body db))
      = 200
      /\ StatusUpdate.status body = JS.value (issueStatus_label st)
      /\ Storage.isSome (Storage.getIssue id db) = true
      /\ Db.issueStatusHistory
           (snd (Routes.patch_api_issues_id_status env id body db))
         = Db.issueStatusHistory db ++ [entry]
      /\ IssueStatusHistory.issueId entry = Some id
      /\ IssueStatusHistory.status entry = st
      /\ IssueStatusHistory.notes entry = StatusUpdate.notes body
      /\ IssueStatusHistory.updatedBy entry = StatusUpdate.updatedBy body)
  \/ (Response.status (fst (Routes.patch_api_issues_id_status env id body db))
      = 500
      /\ Db.issueStatusHistory
           (snd (Routes.patch_api_issues_id_status env id body db))
         = Db.issueStatusHistory db).
Proof.
  pose proof (patch_cases env id body db) as H.
  destruct (StatusUpdate.status body) as [| |s] eqn:Hs.
  - right. rewrite H. now split.
  - right. rewrite H. now split.
  - destruct (issueStatusEnum s) as [st|] eqn:Hst.
    + destruct (WorkflowSpec.history_accepted env id body db) eqn:Ha;
        rewrite H; simpl.
      * left. exists st, (WorkflowSpec.history_entry env id body st).
        unfold WorkflowSpec.history_accepted in Ha.
        apply andb_true_iff in Ha as [Ha _].
        apply andb_true_iff in Ha as [_ Ha].
        rewrite (issueStatus_label_enum _ _ Hst). repeat split; assumption.
      * right. now split.
    + right. rewrite H. now split.
Qed.

End StatusUpdateKeeps.

(** ** The handlers keep the keys of the schema *)

Section Consistency.

Import Schema.

Lemma references_app v keys more :
  Storage.references v keys = true ->
  Storage.references v (keys ++ more) = true.
Proof.
  destruct v as [k|]; simpl; [|reflexivity].
  unfold Storage.mem. rewrite existsb_app. now intros ->.
Qed.

Lemma In_update_where id f rows i' :
  In i' (Storage.update_where id f rows) ->
  exists i, In i rows /\ (i' = i \/ i' = f i).
Proof.
  unfold Storage.update_where. rewrite in_map_iff.
  intros (i & E & Hi). exists i. split; [exact Hi|].
  destruct (String.eqb (Issue.id i) id); auto.
Qed.

Lemma after_update_consistent env id body st db :
  Integrity.consistent db ->
  Integrity.consistent (WorkflowSpec.after_update env id body st db).
Proof.
  intros [[U1 U2] [F1 F2]].
  assert (Ids : Storage.issue_ids (WorkflowSpec.after_update env id body st db)
                = Storage.issue_ids db)
    by (unfold Storage.issue_ids; simpl;
        apply update_where_ids, set_columns_id).
  split; split.
  - now rewrite Ids.
  - exact U2.
  - intros i' Hi'. simpl in Hi' |- *.
    destruct (In_update_where _ _ _ _ Hi') as (i & Hi & [->| ->]);
      exact (F1 i Hi).
  - intros h Hh. rewrite Ids. now apply F2.
Qed.

Lemma append_history_consistent env id body st db :
  Integrity.consistent db ->
  Storage.mem (PatchEnv.historyId env) (Storage.history_ids db) = false ->
  Storage.references (Some id) (Storage.issue_ids db) = true ->
  Storage.references (StatusUpdate.updatedBy body) (Db.users db) = true ->
  Integrity.consistent
    (WorkflowSpec.append_history (WorkflowSpec.history_entry env id body st) db).
Proof.
  intros [[U1 U2] [F1 F2]] Hh Hi Hu.
  split; split.
  - exact U1.
  - unfold Storage.history_ids in *. simpl. rewrite map_app. simpl.
    apply NoDup_app; [exact U2|repeat constructor; intros []|].
    intros x Hx [<-|[]]. apply mem_false_not_In in Hh. contradiction.
  - exact F1.
  - intros h Hh'. simpl in Hh'. apply in_app_iff in Hh' as [Hh'|[<-|[]]].
    + now apply F2.
    + split; assumption.
Qed.

(** X9.  Both writing handlers keep the database consistent with the keys
    of the schema: after a submission and after a status update, answered
    with success or not, ids are still unique, every issue still has a
    reporter that is absent or a user, and every history entry still
    points to an issue that exists and to an actor that is absent or a
    user. *)
Theorem handlers_keep_consistency :
  (forall env body files db,
      Integrity.consistent db ->
      Integrity.consistent (snd (Routes.post_api_issues env body files db)))
  /\ (forall env id body db,
        Integrity.consistent db ->
        Integrity.consistent
          (snd (Routes.patch_api_issues_id_status env id body db))).
Proof.
  split.
  - intros env body files db C.
    destruct (post_cases env body files db) as (ai & tr & ex & ->).
    assert (Row : forall v,
               InsertIssueSchema.parse (Routes.issueData body ai tr ex)
               = Return v ->
               Storage.mem (PostEnv.issueId env) (Storage.issue_ids db) = false ->
               Storage.references (JS.or_null (IssueForm.reporterId body))
                 (Db.users db) = true ->
               Integrity.consistent
                 {| Db.users := Db.users db;
                    Db.issues :=
                      Db.issues db
                      ++ [Storage.new_issue_row (PostEnv.issueId env)
                            (PostEnv.issueNow env) v];
                    Db.issueStatusHistory := Db.issueStatusHistory db |}).
    { intros v Hp Hi Hr. destruct C as [[U1 U2] [F1 F2]].
      pose proof (parse_inv _ _ Hp)
        as (_ & _ & _ & _ & _ & _ & _ & _ & _ & Hrep).
      simpl in Hrep.
      split; split.
      - unfold Storage.issue_ids in *. simpl. rewrite map_app. simpl.
        apply NoDup_app; [exact U1|repeat constructor; intros []|].
        intros x Hx [<-|[]]. apply mem_false_not_In in Hi. contradiction.
      - exact U2.
      - intros i Hi'. simpl in Hi' |- *.
        apply in_app_iff in Hi' as [Hi'|[<-|[]]]; [now apply F1|].
        simpl. now rewrite Hrep.
      - intros h Hh. simpl. destruct (F2 h Hh) as [A B]. split; [|exact B].
        unfold Storage.issue_ids in *. simpl. rewrite map_app.
        now apply references_app. }
    destruct (create_from_cases env body ai tr ex db)
      as [[_ ->]|[(v & Hp & _ & Hi & Hr & _ & _ & ->)
                 |(v & Hp & _ & Hi & Hr & Hh & ->)]].
    + exact C.
    + now apply Row.
    + simpl. specialize (Row v Hp Hi Hr).
      destruct Row as [[U1 U2] [F1 F2]]. split; split.
      * exact U1.
      * unfold Storage.history_ids in *. simpl in *. rewrite map_app. simpl.
        apply NoDup_app; [exact U2|repeat constructor; intros []|].
        intros x Hx [<-|[]]. apply mem_false_not_In in Hh. contradiction.
      * exact F1.
      * intros h Hh'. simpl in Hh'.
        apply in_app_iff in Hh' as [Hh'|[<-|[]]]; [now apply F2|].
        simpl. split; [|exact Hr].
        unfold Storage.issue_ids. simpl. rewrite map_app. apply mem_last.
  - intros env id body db C.
    destruct (patch_db_cases env id body db)
      as [->|[[st ->]|(st & _ & Ha & ->)]].
    + exact C.
    + now apply after_update_consistent.
    + simpl. unfold WorkflowSpec.history_accepted in Ha.
      apply andb_true_iff in Ha as [Ha Hu].
      apply andb_true_iff in Ha as [Hh Hi].
      apply negb_true_iff in Hh.
      apply append_history_consistent;
        [now apply after_update_consistent|exact Hh| |exact Hu].
      simpl. unfold Storage.issue_ids. simpl.
      rewrite update_where_ids by apply set_columns_id.
      rewrite mem_issue_ids_find. exact Hi.
Qed.

Lemma sample_db_consistent : Integrity.consistent Sample.db.
Proof.
  split; split.
  - repeat constructor; simpl; intuition discriminate.
  - constructor.
  - intros i [<-|[<-|[<-|[]]]]; reflexivity.
  - intros h [].
Defined.

(** The sample database stays consistent when the sample form is
    submitted and when "i1" is resolved. *)
Lemma handlers_keep_consistency_witness :
  Integrity.consistent
    (snd (Routes.post_api_issues Sample.postEnv Sample.form
            SubmissionSpec.noFiles Sample.db))
  /\ Integrity.consistent
       (snd (Routes.patch_api_issues_id_status Sample.patchEnv "i1"
               (Sample.statusUpdate "resolved") Sample.db)).
Proof.
  split.
  - apply (proj1 handlers_keep_consistency), sample_db_consistent.
  - apply (proj2 handlers_keep_consistency), sample_db_consistent.
Defined.

End Consistency.

(** ** Statistics: what the numbers satisfy *)

Section StatisticsMore.

Import Schema.

(** X10.  The statistics count every issue in scope once: [total] is the
    sum of [pending], [inProgress], [resolved], the rejected issues and
    the issues with no status, so the three counts shown never exceed
    [total]. *)
Theorem stats_partition filters db :
  let stats := Storage.getIssueStats filters db in
  let allIssues := Storage.baseQuery filters db in
  Stats.total stats
  = (Stats.pending stats + Stats.inProgress stats + Stats.resolved stats
     + StatsSpec.count_status rejected allIssues
     + Counting.count_without_status allIssues)%nat
  /\ (Stats.pending stats + Stats.inProgress stats + Stats.resolved stats
      <= Stats.total stats)%nat.
Proof.
  cbv zeta. unfold Storage.getIssueStats. simpl.
  rewrite pending_count, !status_is_count.
  assert (E : forall l,
             length l
             = (StatsSpec.count_status submitted l
                + StatsSpec.count_status acknowledged l
                + StatsSpec.count_status in_progress l
                + StatsSpec.count_status resolved l
                + StatsSpec.count_status rejected l
                + Counting.count_without_status l)%nat).
  { induction l as [|i r IH]; simpl; [reflexivity|].
    destruct (Issue.status i) as [[]|]; simpl; lia. }
  rewrite (E (Storage.baseQuery filters db)). lia.
Qed.



(** The average of a non-empty set in terms of the sum of the days. *)
Lemma average_of_qualifying filters db i r :
  filter StatsSpec.qualifies (Storage.baseQuery filters db) = i :: r ->
  Stats.avgResolutionDays (Storage.getIssueStats filters db)
  = (inject_Z
       (JS.Math_round
          (inject_Z (StatsSpec.sum_days (i :: r))
           / inject_Z (Z.of_nat (length (i :: r))) * 10)) / 10)%Q.
Proof.
  intros E. unfold Storage.getIssueStats. simpl Stats.avgResolutionDays.
  rewrite resolved_filter_qualifies, E.
  now rewrite reduce_sum_days, Z.add_0_l.
Qed.



Lemma filter_Permutation {A : Type} (p : A -> bool) (l l' : list A) :
  Permutation l l' -> Permutation (filter p l) (filter p l').
Proof.
  induction 1 as [|x l l' _ IH|x y l|l l' l'' _ IH1 _ IH2]; simpl.
  - constructor.
  - destruct (p x); [now constructor|exact IH].
  - destruct (p x), (p y); try apply Permutation_refl.
    + apply perm_swap.
  - now transitivity (filter p l').
Qed.

Lemma sum_days_Permutation (l l' : list Issue.t) :
  Permutation l l' -> StatsSpec.sum_days l = StatsSpec.sum_days l'.
Proof.
  induction 1; simpl; lia.
Qed.

Lemma baseQuery_Permutation filters db db' :
  Permutation (Db.issues db) (Db.issues db') ->
  Permutation (Storage.baseQuery filters db) (Storage.baseQuery filters db').
Proof.
  intros P. unfold Storage.baseQuery.
  destruct filters as [[[d|]]|]; simpl; try exact P.
  destruct (String.eqb d ""); [exact P|now apply filter_Permutation].
Qed.

(** X12.  The statistics do not depend on the order in which the query
    returns the issues: two databases whose tables [issues] hold the same
    rows, in any order, give the same five numbers. *)
Theorem stats_ignore_row_order filters db db' :
  Permutation (Db.issues db) (Db.issues db') ->
  Storage.getIssueStats filters db = Storage.getIssueStats filters db'.
Proof.
  intros P. apply (baseQuery_Permutation filters) in P.
  assert (L : forall p : Issue.t -> bool,
             length (filter p (Storage.baseQuery filters db))
             = length (filter p (Storage.baseQuery filters db')))
    by (intros p; apply Permutation_length; now apply filter_Permutation).
  assert (A : Stats.avgResolutionDays (Storage.getIssueStats filters db)
              = Stats.avgResolutionDays (Storage.getIssueStats filters db')).
  { pose proof (filter_Permutation StatsSpec.qualifies _ _ P) as Pq.
    pose proof (Permutation_length Pq) as Lq.
    pose proof (sum_days_Permutation _ _ Pq) as Sq.
    destruct (filter StatsSpec.qualifies (Storage.baseQuery filters db))
      as [|i r] eqn:E;
      destruct (filter StatsSpec.qualifies (Storage.baseQuery filters db'))
      as [|i' r'] eqn:E'; try discriminate.
    - unfold Storage.getIssueStats. simpl Stats.avgResolutionDays.
      now rewrite !resolved_filter_qualifies, E, E'.
    - rewrite (average_of_qualifying _ _ _ _ E),
        (average_of_qualifying _ _ _ _ E'), Sq, Lq. reflexivity. }
  revert A. unfold Storage.getIssueStats. simpl Stats.avgResolutionDays.
  intros ->. now rewrite !L, (Permutation_length P).
Qed.

Lemma stats_ignore_row_order_witness :
  Storage.getIssueStats None Sample.db
  = Storage.getIssueStats None Examples.reversed.
Proof.
  apply (stats_ignore_row_order None Sample.db Examples.reversed).
  change (Permutation [Examples.i1; Examples.i2; Examples.i3]
            [Examples.i3; Examples.i2; Examples.i1]).
  apply (Permutation_rev [Examples.i1; Examples.i2; Examples.i3]).
Defined.

Lemma filter_filter_length {A : Type} (p q : A -> bool) (l : list A) :
  (length (filter p (filter q l)) <= length (filter p l))%nat.
Proof.
  induction l as [|x r IH]; simpl; [lia|].
  destruct (q x); simpl; destruct (p x); simpl; lia.
Qed.

Lemma baseQuery_is_filter filters db :
  exists q, Storage.baseQuery filters db = filter q (Db.issues db).
Proof.
  assert (T : Db.issues db = filter (fun _ => true) (Db.issues db))
    by (induction (Db.issues db) as [|x r IH]; simpl; congruence).
  unfold Storage.baseQuery.
  destruct filters as [[[d|]]|]; simpl; try (eexists; exact T).
  destruct (String.eqb d ""); eexists; [exact T|reflexivity].
Qed.

(** X13.  The numbers for one department are part of the numbers for all:
    with any filter, [total], [pending], [inProgress] and [resolved] are
    at most what they are with no filter. *)
Theorem filtered_stats_at_most_all filters db :
  (Stats.total (Storage.getIssueStats filters db)
   <= Stats.total (Storage.getIssueStats None db))%nat
  /\ (Stats.pending (Storage.getIssueStats filters db)
      <= Stats.pending (Storage.getIssueStats None db))%nat
  /\ (Stats.inProgress (Storage.getIssueStats filters db)
      <= Stats.inProgress (Storage.getIssueStats None db))%nat
  /\ (Stats.resolved (Storage.getIssueStats filters db)
      <= Stats.resolved (Storage.getIssueStats None db))%nat.
Proof.
  destruct (baseQuery_is_filter filters db) as [q E].
  unfold Storage.getIssueStats. simpl. rewrite E.
  repeat split; try apply filter_filter_length.
  apply filter_length_le.
Qed.

Lemma count_status_cons st i r :
  StatsSpec.count_status st (i :: r)
  = (Counting.one_if st (Issue.status i) + StatsSpec.count_status st r)%nat.
Proof.
  simpl. unfold Counting.one_if, status_is.
  destruct (Issue.status i) as [s|]; [|reflexivity].
  now destruct (issueStatus_eqb s st).
Qed.

Lemma count_status_app st l l' :
  StatsSpec.count_status st (l ++ l')
  = (StatsSpec.count_status st l + StatsSpec.count_status st l')%nat.
Proof.
  induction l as [|i r IH]; [reflexivity|].
  change ((i :: r) ++ l') with (i :: (r ++ l')).
  rewrite !count_status_cons, IH. lia.
Qed.

(** X14.  A submission answered with 201 shows in the overall statistics
    as one more issue and one more pending issue; the numbers of issues in
    progress and resolved and the average resolution time are as
    before. *)
Theorem submission_adds_one_pending env body files db issue :
  fst (Routes.post_api_issues env body files db)
  = {| Response.status := 201; Response.json := JsonIssue (Some issue) |} ->
  let before := Storage.getIssueStats None db in
  let after :=
    Storage.getIssueStats None
      (snd (Routes.post_api_issues env body files db)) in
  Stats.total after = S (Stats.total before)
  /\ Stats.pending after = S (Stats.pending before)
  /\ Stats.inProgress after = Stats.inProgress before
  /\ Stats.resolved after = Stats.resolved before
  /\ Stats.avgResolutionDays after = Stats.avgResolutionDays before.
Proof.
  intros H.
  destruct (post_created_inv _ _ _ _ _ H) as (v & E & _ & _ & _ & _ & Is).
  apply (f_equal Db.issues) in Is. simpl in Is.
  assert (St : Issue.status issue = Some submitted).
  { destruct (post_cases env body files db) as (ai & tr & ex & Ec).
    rewrite Ec in H.
    destruct (create_from_cases env body ai tr ex db)
      as [[Hs _]|[(v' & _ & _ & _ & _ & _ & Hs & _)
        |(v' & Hp & _ & _ & _ & _ & E')]];
      try (rewrite H in Hs; discriminate).
    rewrite E' in H. simpl in H. injection H as <-.
    destruct (parse_defaults _ _ Hp) as (S1 & _). simpl. now rewrite S1. }
  cbv zeta. unfold Storage.getIssueStats, Storage.baseQuery.
  rewrite Is. simpl.
  rewrite !filter_app. simpl. rewrite St. simpl.
  rewrite !length_app, !app_nil_r. simpl.
  rewrite !Nat.add_0_r. repeat split; lia.
Qed.

Lemma submission_adds_one_pending_witness :
  let before := Storage.getIssueStats None Sample.db in
  let after :=
    Storage.getIssueStats None
      (snd (Routes.post_api_issues Sample.postEnv Sample.form
              SubmissionSpec.noFiles Sample.db)) in
  Stats.total after = S (Stats.total before)
  /\ Stats.pending after = S (Stats.pending before)
  /\ Stats.inProgress after = Stats.inProgress before
  /\ Stats.resolved after = Stats.resolved before
  /\ Stats.avgResolutionDays after = Stats.avgResolutionDays before.
Proof.
  apply (submission_adds_one_pending Sample.postEnv Sample.form
           SubmissionSpec.noFiles Sample.db Examples.streetlight).
  reflexivity.
Defined.





End StatisticsMore.

(** ** Listing issues *)

Section Listing.

Import Schema.

Lemma insert_Permutation {A : Type} (leb : A -> A -> bool) x l :
  Permutation (x :: l) (OrderBy.insert leb x l).
Proof.
  induction l as [|y r IH]; simpl; [apply Permutation_refl|].
  destruct (leb x y); [apply Permutation_refl|].
  transitivity (y :: x :: r); [apply perm_swap|now constructor].
Qed.

Lemma sort_Permutation {A : Type} (leb : A -> A -> bool) l :
  Permutation l (OrderBy.sort leb l).
Proof.
  induction l as [|x r IH]; simpl; [constructor|].
  transitivity (x :: OrderBy.sort leb r); [now constructor|].
  apply insert_Permutation.
Qed.

Section Sorted.

Variable A : Type.
Variable leb : A -> A -> bool.
Hypothesis leb_total : forall a b, leb a b = true \/ leb b a = true.
Hypothesis leb_trans :
  forall a b c, leb a b = true -> leb b c = true -> leb a c = true.

Let R (a b : A) : Prop := leb a b = true.

Lemma insert_sorted x l :
  StronglySorted R l -> StronglySorted R (OrderBy.insert leb x l).
Proof.
  induction 1 as [|y r S IH F]; simpl.
  - repeat constructor.
  - destruct (leb x y) eqn:E.
    + constructor; [now constructor|].
      constructor; [exact E|].
      eapply Forall_impl; [|exact F]. intros z Hz. now apply (leb_trans x y z).
    + constructor; [exact IH|].
      assert (Hyx : R y x) by (destruct (leb_total x y); congruence).
      eapply Permutation_Forall; [apply insert_Permutation|].
      now constructor.
Qed.

Lemma sort_sorted l : StronglySorted R (OrderBy.sort leb l).
Proof.
  induction l as [|x r IH]; simpl; [constructor|now apply insert_sorted].
Qed.

End Sorted.

Lemma timestamp_leb_total a b :
  OrderBy.timestamp_leb a b = true \/ OrderBy.timestamp_leb b a = true.
Proof.
  destruct a as [x|], b as [y|]; simpl; auto.
  destruct (Z.leb_spec x y); [now left|right].
  apply Z.leb_le. lia.
Qed.

Lemma timestamp_leb_trans a b c :
  OrderBy.timestamp_leb a b = true -> OrderBy.timestamp_leb b c = true ->
  OrderBy.timestamp_leb a c = true.
Proof.
  destruct a as [x|], b as [y|], c as [z|]; simpl; try congruence.
  rewrite !Z.leb_le. lia.
Qed.

Lemma In_firstn {A : Type} (n : nat) (l : list A) (x : A) :
  In x (firstn n l) -> In x l.
Proof.
  intros H. rewrite <- (firstn_skipn n l). apply in_or_app. now left.
Qed.

Lemma In_skipn {A : Type} (n : nat) (l : list A) (x : A) :
  In x (skipn n l) -> In x l.
Proof.
  intros H. rewrite <- (firstn_skipn n l). apply in_or_app. now right.
Qed.

Lemma StronglySorted_firstn {A : Type} (R : A -> A -> Prop) n l :
  StronglySorted R l -> StronglySorted R (firstn n l).
Proof.
  intros S. revert n. induction S as [|x r S IH F]; intros [|n]; simpl;
    try constructor.
  - apply IH.
  - rewrite Forall_forall in *. intros y Hy. apply F.
    now apply (In_firstn n r).
Qed.

Lemma StronglySorted_skipn {A : Type} (R : A -> A -> Prop) n l :
  StronglySorted R l -> StronglySorted R (skipn n l).
Proof.
  intros S. revert n. induction S as [|x r S IH F]; intros [|n]; simpl;
    try constructor; try assumption.
  apply IH.
Qed.

Lemma issueType_eqb_eq a b : Queries.issueType_eqb a b = true <-> a = b.
Proof. destruct a, b; simpl; split; congruence. Qed.

Lemma issueStatusEnum_label st : issueStatusEnum (issueStatus_label st) = Some st.
Proof. now destruct st. Qed.

Lemma issueTypeEnum_label t : issueTypeEnum (issueType_label t) = Some t.
Proof. now destruct t. Qed.

Lemma condition_asked filter test P i :
  (forall v, test v i = true <-> P v) ->
  Queries.condition filter test i = true <-> ListingSpec.asked filter P.
Proof.
  intros H. unfold Queries.condition, ListingSpec.asked.
  destruct filter as [v|]; [|tauto].
  destruct (String.eqb_spec v "") as [E|E]; [tauto|].
  rewrite H. tauto.
Qed.

(** On filters whose enum texts are labels, the conditions of the query
    say what the caller asked. *)
Lemma matches_satisfies filters i :
  Queries.bad_label issueStatusEnum (IssueFilters.status filters) = None ->
  Queries.bad_label issueTypeEnum (IssueFilters.issueType filters) = None ->
  Queries.matches filters i = true <-> ListingSpec.satisfies filters i.
Proof.
  intros Bs Bt. unfold Queries.matches, ListingSpec.satisfies.
  rewrite !andb_true_iff.
  assert (C1 : Queries.condition (IssueFilters.reporterId filters)
                 (fun v i => Queries.eq_text (Issue.reporterId i) v) i = true
               <-> ListingSpec.asked (IssueFilters.reporterId filters)
                     (fun v => Issue.reporterId i = Some v)).
  { apply condition_asked. intros v. unfold Queries.eq_text.
    destruct (Issue.reporterId i) as [r|]; [|split; discriminate].
    rewrite String.eqb_eq. split; congruence. }
  assert (C4 : Queries.condition (IssueFilters.department filters)
                 (fun v i => Queries.eq_text (Issue.assignedDepartment i) v) i
               = true
               <-> ListingSpec.asked (IssueFilters.department filters)
                     (fun v => Issue.assignedDepartment i = Some v)).
  { apply condition_asked. intros v. unfold Queries.eq_text.
    destruct (Issue.assignedDepartment i) as [r|]; [|split; discriminate].
    rewrite String.eqb_eq. split; congruence. }
  assert (C2 : Queries.condition (IssueFilters.status filters)
                 (fun v i =>
                    match issueStatusEnum v, Issue.status i with
                    | Some st, Some s => issueStatus_eqb s st
                    | _, _ => false
                    end) i = true
               <-> ListingSpec.asked (IssueFilters.status filters)
                     (fun v => option_map issueStatus_label (Issue.status i)
                               = Some v)).
  { unfold Queries.condition, ListingSpec.asked, Queries.bad_label in *.
    destruct (IssueFilters.status filters) as [v|]; [|tauto].
    destruct (String.eqb_spec v "") as [E|E]; [tauto|].
    destruct (issueStatusEnum v) as [st|] eqn:Ev; [|discriminate].
    apply issueStatus_label_enum in Ev. subst v.
    destruct (Issue.status i) as [s|]; simpl.
    - rewrite issueStatus_eqb_eq. split.
      + intros ->. now right.
      + intros [H|H]; [contradiction|].
        injection H as H. destruct s, st; simpl in H; congruence.
    - split; [discriminate|]. intros [H|H]; [contradiction|discriminate]. }
  assert (C3 : Queries.condition (IssueFilters.issueType filters)
                 (fun v i =>
                    match issueTypeEnum v with
                    | Some t => Queries.issueType_eqb (Issue.issueType i) t
                    | None => false
                    end) i = true
               <-> ListingSpec.asked (IssueFilters.issueType filters)
                     (fun v => issueType_label (Issue.issueType i) = v)).
  { unfold Queries.condition, ListingSpec.asked, Queries.bad_label in *.
    destruct (IssueFilters.issueType filters) as [v|]; [|tauto].
    destruct (String.eqb_spec v "") as [E|E]; [tauto|].
    destruct (issueTypeEnum v) as [t|] eqn:Ev; [|discriminate].
    apply issueType_label_enum in Ev. subst v.
    rewrite issueType_eqb_eq. split.
    - intros ->. now right.
    - intros [H|H]; [contradiction|].
      destruct (Issue.issueType i), t; simpl in H; congruence. }
  rewrite C1, C2, C3, C4. tauto.
Qed.

(** A double holds every integer up to 2^53. *)
Lemma Qred_inject_Z (z : Z) : Qred (inject_Z z) = inject_Z z.
Proof.
  unfold Qred, inject_Z.
  pose proof (Z.ggcd_gcd z 1) as G.
  pose proof (Z.ggcd_correct_divisors z 1) as D.
  destruct (Z.ggcd z 1) as [g [a b]]. simpl in G.
  rewrite Z.gcd_1_r in G. subst g. destruct D as [D1 D2].
  rewrite Z.mul_1_l in D1, D2. subst a b. reflexivity.
Qed.

Lemma Qred_scale2 (z k : Z) :
  0 <= k -> Qred ((z * 2 ^ k) # Z.to_pos (2 ^ k)) = inject_Z z.
Proof.
  intros Hk. rewrite <- Qred_inject_Z. apply Qred_complete.
  unfold Qeq, inject_Z. simpl.
  rewrite Z2Pos.id by (apply Z.pow_pos_nonneg; lia). ring.
Qed.

Lemma nearest_integer (z : Z) :
  0 < z < 2 ^ 53 ->
  JS.nearest 53 (-1074) z 1
  = (z * 2 ^ (52 - Z.log2 z), Z.log2 z - 52).
Proof.
  intros Hz. unfold JS.nearest.
  change (Z.log2 1) with 0. rewrite Z.sub_0_r.
  pose proof (Z.log2_spec z ltac:(lia)) as [L U].
  pose proof (Z.log2_nonneg z) as N.
  assert (B : Z.log2 z < 53) by (apply Z.log2_lt_pow2; lia).
  destruct (Z.leb_spec 0 (Z.log2 z)) as [_|]; [|lia].
  rewrite Z.mul_1_l.
  destruct (Z.ltb_spec z (2 ^ Z.log2 z)) as [|_]; [lia|].
  change (53 - 1) with 52.
  rewrite Z.max_l by lia.
  destruct (Z.leb_spec 0 (Z.log2 z - 52)) as [H|H].
  - assert (E : Z.log2 z = 52) by lia. rewrite E. simpl (52 - 52).
    change (2 ^ 0) with 1. rewrite !Z.mul_1_r, Z.div_1_r, Z.mod_1_r.
    reflexivity.
  - replace (- (Z.log2 z - 52)) with (52 - Z.log2 z) by lia.
    rewrite Z.div_1_r, Z.mod_1_r. reflexivity.
Qed.

Lemma to_double_integer (z : Z) :
  0 <= z <= 2 ^ 53 -> JS.to_double (inject_Z z) = JS.Finite (inject_Z z).
Proof.
  intros Hz.
  destruct (Z.eq_dec z 0) as [->|Hn]; [reflexivity|].
  destruct (Z.eq_dec z (2 ^ 53)) as [->|Hm]; [reflexivity|].
  unfold JS.to_double, JS.round. simpl Qnum. simpl Qden.
  destruct z as [|p|p]; [lia| |lia].
  rewrite nearest_integer by lia.
  pose proof (Z.log2_nonneg (Zpos p)) as N.
  assert (B : Z.log2 (Zpos p) < 53) by (apply Z.log2_lt_pow2; lia).
  rewrite Z.log2_mul_pow2 by lia.
  destruct (Z.leb_spec 1024 (52 - Z.log2 (Zpos p) + Z.log2 (Zpos p)
                             + (Z.log2 (Zpos p) - 52))) as [|_]; [lia|].
  f_equal. unfold JS.scale2.
  destruct (Z.leb_spec 0 (Z.log2 (Zpos p) - 52)) as [H|H].
  - assert (E : Z.log2 (Zpos p) = 52) by lia. rewrite E. simpl (52 - 52).
    change (2 ^ 0) with 1. rewrite !Z.mul_1_r. apply Qred_inject_Z.
  - replace (- (Z.log2 (Zpos p) - 52)) with (52 - Z.log2 (Zpos p)) by lia.
    apply Qred_scale2. lia.
Qed.

Lemma bigint_integer (z : Z) :
  Queries.bigint (JS.Finite (inject_Z z))
  = if ((- 2 ^ 63 <=? z) && (z <? 2 ^ 63))%bool then Some z else None.
Proof. unfold Queries.bigint. now rewrite Qred_inject_Z. Qed.

(** What [getIssues] returns when it returns. *)
Lemma getIssues_Return filters db issues :
  Queries.getIssues filters db = Return issues ->
  Queries.bad_label issueStatusEnum (IssueFilters.status filters) = None
  /\ Queries.bad_label issueTypeEnum (IssueFilters.issueType filters) = None
  /\ Queries.page (IssueFilters.limit filters) (IssueFilters.offset filters)
       (OrderBy.sort (OrderBy.desc Issue.createdAt)
          (filter (Queries.matches filters) (Db.issues db)))
     = Return issues.
Proof.
  unfold Queries.getIssues.
  destruct (Queries.bad_label issueStatusEnum _); [discriminate|].
  destruct (Queries.bad_label issueTypeEnum _); [discriminate|].
  intros H. repeat split. exact H.
Qed.

Lemma apply_offset_Return offset rows rest :
  Queries.apply_offset offset rows = Return rest ->
  rest = rows \/ exists n, rest = skipn n rows.
Proof.
  unfold Queries.apply_offset.
  destruct (JS.truthy_num offset); [|intros [= <-]; now left].
  destruct (Queries.bigint offset) as [n|]; [|discriminate].
  destruct (n <? 0); [discriminate|].
  intros [= <-]. right. now exists (Z.to_nat n).
Qed.

Lemma apply_limit_Return limit rows issues :
  Queries.apply_limit limit rows = Return issues ->
  issues = rows \/ exists n, issues = firstn n rows.
Proof.
  unfold Queries.apply_limit.
  destruct (JS.truthy_num limit && Queries.is_nonneg limit)%bool;
    [|intros [= <-]; now left].
  destruct (Queries.bigint limit) as [n|]; [|discriminate].
  intros [= <-]. right. now exists (Z.to_nat n).
Qed.

Lemma page_Return limit offset rows issues :
  Queries.page limit offset rows = Return issues ->
  exists rest,
    (rest = rows \/ exists n, rest = skipn n rows)
    /\ (issues = rest \/ exists n, issues = firstn n rest)
    /\ Queries.apply_limit limit rest = Return issues.
Proof.
  unfold Queries.page.
  destruct (Queries.apply_offset offset rows) as [rest|e] eqn:E;
    [|discriminate].
  intros H. exists rest. split; [now apply (apply_offset_Return offset)|].
  split; [now apply (apply_limit_Return limit)|exact H].
Qed.

Lemma In_page limit offset rows issues i :
  Queries.page limit offset rows = Return issues ->
  In i issues -> In i rows.
Proof.
  intros H Hi.
  destruct (page_Return _ _ _ _ H) as (rest & [->|[m ->]] & [->|[n ->]] & _);
    repeat (apply In_firstn in Hi || apply In_skipn in Hi); exact Hi.
Qed.

Lemma page_sorted (R : Issue.t -> Issue.t -> Prop) limit offset rows issues :
  Queries.page limit offset rows = Return issues ->
  StronglySorted R rows -> StronglySorted R issues.
Proof.
  intros H S.
  destruct (page_Return _ _ _ _ H) as (rest & [->|[m ->]] & [->|[n ->]] & _);
    repeat (apply StronglySorted_firstn || apply StronglySorted_skipn);
    exact S.
Qed.

(** With no offset and a limit that is NaN, zero or negative, the page is
    all the rows. *)
Lemma page_all limit offset rows :
  (JS.truthy_num limit && Queries.is_nonneg limit)%bool = false ->
  JS.truthy_num offset = false ->
  Queries.page limit offset rows = Return rows.
Proof.
  intros Hl Ho. unfold Queries.page, Queries.apply_offset, Queries.apply_limit.
  now rewrite Ho, Hl.
Qed.

Lemma page_limit limit offset rows issues n :
  Queries.page limit offset rows = Return issues ->
  limit = JS.Finite (inject_Z n) -> 0 < n ->
  (length issues <= Z.to_nat n)%nat.
Proof.
  intros H -> Hn.
  destruct (page_Return _ _ _ _ H) as (rest & _ & _ & L).
  unfold Queries.apply_limit in L.
  assert (T : (JS.truthy_num (JS.Finite (inject_Z n))
               && Queries.is_nonneg (JS.Finite (inject_Z n)))%bool = true).
  { simpl. unfold Qeq_bool, Qle_bool. simpl. rewrite !Z.mul_1_r.
    destruct (Z.eqb_spec n 0); [lia|]. simpl. apply Z.leb_le. lia. }
  rewrite T, bigint_integer in L.
  destruct ((- 2 ^ 63 <=? n) && (n <? 2 ^ 63))%bool; [|discriminate].
  injection L as <-. apply firstn_le_length.
Qed.

(** With no limit and no offset in the statement, every row that
    satisfies the filters is returned. *)
Lemma getIssues_unpaged filters db issues :
  Queries.getIssues filters db = Return issues ->
  (JS.truthy_num (IssueFilters.limit filters)
   && Queries.is_nonneg (IssueFilters.limit filters))%bool = false ->
  JS.truthy_num (IssueFilters.offset filters) = false ->
  forall i, In i (Db.issues db) -> ListingSpec.satisfies filters i ->
            In i issues.
Proof.
  intros H Hl Ho i Hi Hs.
  destruct (getIssues_Return _ _ _ H) as (Bs & Bt & P).
  rewrite (page_all _ _ _ Hl Ho) in P. injection P as <-.
  apply (Permutation_in _ (sort_Permutation _ _)).
  apply filter_In. split; [exact Hi|]. now apply matches_satisfies.
Qed.

(** X16.  What [getIssues] returns: every issue in the result is a row of
    the table that satisfies each filter that was given, and the result
    is ordered newest first; it has at most [limit] rows when the limit
    is a whole number above zero; and with a limit that is NaN, zero or
    negative and an offset that is NaN or zero it holds every row that
    satisfies the filters. *)
Theorem getIssues_answers_the_filters filters db issues :
  Queries.getIssues filters db = Return issues ->
  (forall i, In i issues ->
             In i (Db.issues db) /\ ListingSpec.satisfies filters i)
  /\ ListingSpec.newest_first issues
  /\ (forall n, IssueFilters.limit filters = JS.Finite (inject_Z n) ->
                0 < n -> (length issues <= Z.to_nat n)%nat)
  /\ ((JS.truthy_num (IssueFilters.limit filters)
       && Queries.is_nonneg (IssueFilters.limit filters))%bool = false ->
      JS.truthy_num (IssueFilters.offset filters) = false ->
      forall i, In i (Db.issues db) -> ListingSpec.satisfies filters i ->
                In i issues).
Proof.
  intros H.
  destruct (getIssues_Return _ _ _ H) as (Bs & Bt & P).
  split; [|split; [|split]].
  - intros i Hi. apply (In_page _ _ _ _ _ P) in Hi.
    apply (Permutation_in _ (Permutation_sym (sort_Permutation _ _))) in Hi.
    apply filter_In in Hi as [Hi Hm]. split; [exact Hi|].
    now apply matches_satisfies.
  - apply (page_sorted _ _ _ _ _ P).
    apply (sort_sorted _ (OrderBy.desc Issue.createdAt)).
    + intros a b. apply timestamp_leb_total.
    + intros a b c Hab Hbc. unfold OrderBy.desc in *.
      now apply (timestamp_leb_trans _ (Issue.createdAt b)).
  - intros n Hn Hz. now apply (page_limit _ _ _ _ n P).
  - now apply getIssues_unpaged.
Qed.

(** The first page of the issues of "Public Works" in the sample
    database. *)
Lemma getIssues_answers_the_filters_witness :
  (forall i, In i [Examples.i1; Examples.i2] ->
             In i (Db.issues Sample.db)
             /\ ListingSpec.satisfies ListingExamples.publicWorks i)
  /\ ListingSpec.newest_first [Examples.i1; Examples.i2]
  /\ (length [Examples.i1; Examples.i2] <= Z.to_nat 2)%nat.
Proof.
  destruct (getIssues_answers_the_filters ListingExamples.publicWorks
              Sample.db [Examples.i1; Examples.i2] eq_refl)
    as (H1 & H2 & H3 & _).
  split; [exact H1|]. split; [exact H2|].
  apply (H3 2); reflexivity.
Defined.

(** X17.  The page size of [GET /api/issues]: with no [limit] parameter
    the answer has at most 50 issues; with a [limit] that [parseInt]
    reads as no number, as zero or as a negative number, and no [offset],
    no limit applies and every issue that satisfies the filters is in the
    answer. *)
Theorem listing_page_size query db issues :
  ReadRoutes.get_api_issues query db
  = {| Answer.status := 200; Answer.json := Answer.Issues issues |} ->
  (IssuesQuery.limit query = None -> (length issues <= 50)%nat)
  /\ (forall l,
        IssuesQuery.limit query = Some l ->
        (JS.truthy_num (JSInt.parseInt l)
         && Queries.is_nonneg (JSInt.parseInt l))%bool = false ->
        IssuesQuery.offset query = None ->
        forall i, In i (Db.issues db) ->
                  ListingSpec.satisfies (ReadRoutes.filters_of query) i ->
                  In i issues).
Proof.
  unfold ReadRoutes.get_api_issues.
  destruct (Queries.getIssues (ReadRoutes.filters_of query) db)
    as [l|e] eqn:E; [|discriminate].
  intros [= <-]. split.
  - intros Hl.
    destruct (getIssues_Return _ _ _ E) as (_ & _ & P).
    apply (page_limit _ _ _ _ 50 P); [|lia].
    simpl. rewrite Hl. reflexivity.
  - intros t Hl Ht Ho i Hi Hs.
    apply (getIssues_unpaged _ _ _ E); try assumption.
    + simpl. now rewrite Hl.
    + simpl. now rewrite Ho.
Qed.

(** The resolved potholes of the sample database, asked for with the
    limit "-1": both are in the answer. *)
Lemma listing_page_size_witness :
  In Examples.i2 [Examples.i2; Examples.i3]
  /\ In Examples.i3 [Examples.i2; Examples.i3].
Proof.
  destruct (listing_page_size
              (ListingExamples.resolvedPotholes (Some "-1"%string))
              Sample.db [Examples.i2; Examples.i3] eq_refl) as [_ H].
  assert (S : forall i, In i [Examples.i2; Examples.i3] ->
                        ListingSpec.satisfies
                          (ReadRoutes.filters_of
                             (ListingExamples.resolvedPotholes
                                (Some "-1"%string)))
                          i).
  { intros i [<-|[<-|[]]]; repeat split; right; reflexivity. }
  split.
  - apply (H "-1"%string eq_refl eq_refl eq_refl);
      [right; left; reflexivity|].
    apply S. now left.
  - apply (H "-1"%string eq_refl eq_refl eq_refl);
      [right; right; left; reflexivity|].
    apply S. right. now left.
Defined.

(** X18.  [GET /api/issues] answers with status 500, not with an empty
    list, when the status or the issue type asked for is no label of its
    enum, and when [offset] is read as a negative number. *)
Theorem listing_refuses_bad_filters query db :
  (exists s, IssuesQuery.status query = Some s /\ s <> ""%string
             /\ issueStatusEnum s = None)
  \/ (exists t, IssuesQuery.issueType query = Some t /\ t <> ""%string
                /\ issueTypeEnum t = None)
  \/ (exists q,
         JSInt.parseInt (ReadRoutes.default_to (IssuesQuery.offset query) "0")
         = JS.Finite q
         /\ (q < 0)%Q) ->
  ReadRoutes.get_api_issues query db
  = {| Answer.status := 500;
       Answer.json := Answer.Message "Failed to fetch issues" |}.
Proof.
  intros H. unfold ReadRoutes.get_api_issues.
  destruct (Queries.getIssues (ReadRoutes.filters_of query) db)
    as [l|e] eqn:E; [exfalso|reflexivity].
  destruct (getIssues_Return _ _ _ E) as (Bs & Bt & P).
  simpl in Bs, Bt, P. unfold Queries.bad_label in Bs, Bt.
  destruct H as [(s & Hs & Hne & He)|[(t & Ht & Hne & He)|(q & Hq & Hlt)]].
  - rewrite Hs in Bs. destruct (String.eqb_spec s ""); [contradiction|].
    rewrite He in Bs. discriminate.
  - rewrite Ht in Bt. destruct (String.eqb_spec t ""); [contradiction|].
    rewrite He in Bt. discriminate.
  - unfold Queries.page, Queries.apply_offset in P. rewrite Hq in P.
    assert (T : JS.truthy_num (JS.Finite q) = true).
    { simpl. destruct (Qeq_bool q 0) eqn:Z; [|reflexivity].
      apply Qeq_bool_iff in Z. rewrite Z in Hlt. discriminate. }
    rewrite T in P. unfold Queries.bigint in P.
    destruct (Pos.eqb (Qden (Qred q)) 1
              && (- 2 ^ 63 <=? Qnum (Qred q))
              && (Qnum (Qred q) <? 2 ^ 63))%bool; [|discriminate].
    destruct (Z.ltb_spec (Qnum (Qred q)) 0) as [|N]; [discriminate|].
    apply Qred_lt in Hlt. unfold Qlt in Hlt. simpl in Hlt. lia.
Qed.

(** A query for the status "closed", which is no status. *)
Lemma listing_refuses_bad_filters_witness :
  ReadRoutes.get_api_issues ListingExamples.closedIssues Sample.db
  = {| Answer.status := 500;
       Answer.json := Answer.Message "Failed to fetch issues" |}.
Proof.
  apply (listing_refuses_bad_filters ListingExamples.closedIssues Sample.db).
  left. exists "closed"%string. repeat split; discriminate.
Defined.

End Listing.

(** ** The history of an issue *)

Section HistoryListing.

Import Schema.

Lemma eq_text_Some column value :
  Queries.eq_text column value = true <-> column = Some value.
Proof.
  unfold Queries.eq_text. destruct column as [c|]; [|split; discriminate].
  rewrite String.eqb_eq. split; congruence.
Qed.

(** In a consistent database no history entry points to an id that no
    issue has. *)
Lemma no_history_without_issue id db :
  Integrity.consistent db ->
  Storage.mem id (Storage.issue_ids db) = false ->
  filter (fun h => Queries.eq_text (IssueStatusHistory.issueId h) id)
    (Db.issueStatusHistory db) = [].
Proof.
  intros [_ [_ F]] Hid.
  assert (G : forall h, In h (Db.issueStatusHistory db) ->
                Queries.eq_text (IssueStatusHistory.issueId h) id = false).
  { intros h Hh. destruct (F h Hh) as [R _].
    destruct (Queries.eq_text (IssueStatusHistory.issueId h) id) eqn:E;
      [|reflexivity].
    apply eq_text_Some in E. rewrite E in R. simpl in R. congruence. }
  clear F. induction (Db.issueStatusHistory db) as [|h r IH]; [reflexivity|].
  simpl. rewrite (G h (or_introl eq_refl)). apply IH.
  intros h' Hh'. apply G. now right.
Qed.



(** X20.  In a consistent database, the history of an issue that
    [POST /api/issues] has just created is one entry, with the status
    submitted and the reporter as actor. *)
Theorem new_issue_has_one_history_entry env body files db issue :
  Integrity.consistent db ->
  fst (Routes.post_api_issues env body files db)
  = {| Response.status := 201; Response.json := JsonIssue (Some issue) |} ->
  exists entry,
    Queries.getIssueStatusHistory (Issue.id issue)
      (snd (Routes.post_api_issues env body files db)) = [entry]
    /\ IssueStatusHistory.status entry = submitted
    /\ IssueStatusHistory.updatedBy entry = Issue.reporterId issue.
Proof.
  intros C H.
  destruct (post_created_inv _ _ _ _ _ H) as (v & -> & Hi & _ & Hrep & _ & ->).
  exists (SubmissionSpec.first_entry env body).
  unfold Queries.getIssueStatusHistory. simpl.
  rewrite filter_app, (no_history_without_issue _ _ C Hi). simpl.
  rewrite String.eqb_refl. simpl. now rewrite Hrep.
Qed.

Lemma new_issue_has_one_history_entry_witness :
  exists entry,
    Queries.getIssueStatusHistory (Issue.id Examples.streetlight)
      (snd (Routes.post_api_issues Sample.postEnv Sample.form
              SubmissionSpec.noFiles Sample.db)) = [entry]
    /\ IssueStatusHistory.status entry = submitted
    /\ IssueStatusHistory.updatedBy entry = Issue.reporterId Examples.streetlight.
Proof.
  apply (new_issue_has_one_history_entry Sample.postEnv Sample.form
           SubmissionSpec.noFiles Sample.db Examples.streetlight).
  - exact sample_db_consistent.
  - reflexivity.
Defined.

(** X21.  A status update answered with 200 adds one entry, with the new
    status, to the history listed for its issue, and the history listed
    for every other issue is the same list as before. *)
Theorem status_update_shows_in_history env id body db :
  Response.status (fst (Routes.patch_api_issues_id_status env id body db))
  = 200 ->
  (exists entry,
      Permutation
        (entry :: Queries.getIssueStatusHistory id db)
        (Queries.getIssueStatusHistory id
           (snd (Routes.patch_api_issues_id_status env id body db)))
      /\ StatusUpdate.status body
         = JS.value (issueStatus_label (IssueStatusHistory.status entry)))
  /\ (forall id', id' <> id ->
        Queries.getIssueStatusHistory id'
          (snd (Routes.patch_api_issues_id_status env id body db))
        = Queries.getIssueStatusHistory id' db).
Proof.
  intros H. pose proof (patch_cases env id body db) as C.
  destruct (StatusUpdate.status body) as [| |s] eqn:Hs;
    [rewrite C in H; discriminate..|].
  destruct (issueStatusEnum s) as [st|] eqn:Hst;
    [|rewrite C in H; discriminate].
  destruct (WorkflowSpec.history_accepted env id body db);
    [|rewrite C in H; discriminate].
  assert (Hl : JS.value s
               = JS.value (issueStatus_label
                         (IssueStatusHistory.status
                            (WorkflowSpec.history_entry env id body st))))
    by (simpl; now rewrite (issueStatus_label_enum _ _ Hst)).
  rename C into E. revert E. intros E.
  rewrite E. simpl snd. split.
  - exists (WorkflowSpec.history_entry env id body st). split; [|exact Hl].
    unfold Queries.getIssueStatusHistory. simpl.
    rewrite filter_app. simpl. rewrite String.eqb_refl.
    etransitivity; [|apply sort_Permutation].
    etransitivity; [|apply Permutation_cons_append].
    constructor. apply Permutation_sym, sort_Permutation.
  - intros id' Hne. unfold Queries.getIssueStatusHistory. simpl.
    rewrite filter_app. simpl.
    destruct (String.eqb_spec id id'); [congruence|].
    now rewrite app_nil_r.
Qed.

(** Resolving "i1" leaves the history listed for "i2" as it was. *)
Lemma status_update_shows_in_history_witness :
  Queries.getIssueStatusHistory "i2"
    (snd (Routes.patch_api_issues_id_status Sample.patchEnv "i1"
            (Sample.statusUpdate "resolved") Sample.db))
  = Queries.getIssueStatusHistory "i2" Sample.db.
Proof.
  apply (proj2 (status_update_shows_in_history Sample.patchEnv "i1"
                  (Sample.statusUpdate "resolved") Sample.db eq_refl)).
  discriminate.
Defined.

End HistoryListing.

(** ** What the AI functions return *)

Section Normalisation.

Import Schema.

Lemma or_lit_not_empty (a : option string) (lit : string) :
  lit <> ""%string -> JS.or_lit a lit <> ""%string.
Proof.
  intros H. destruct a as [s|]; simpl; [|exact H].
  destruct (String.eqb_spec s ""); [exact H|assumption].
Qed.

(** X22.  For an answer of the AI service whose text keys hold strings or
    are missing, whatever its confidence is, the result of
    [analyzeIssueImage] has an issue type, a description, a severity and
    a suggested department that are not empty, and a confidence that is
    a number from 0 to 1 or NaN: NaN exactly when the confidence of the
    answer is truthy and [ToNumber] makes NaN of it.
    [POST /api/analyze-image] answers 200 with this result, in which a
    confidence that is NaN is written as [null]. *)
Theorem analyzeIssueImage_result_is_complete result r :
  OpenAI.analyzeIssueImage (Replied result) = Return r ->
  match IssueDetectionResult.confidence r with
  | JS.Finite q => (0 <= q /\ q <= 1)%Q
  | JS.NaN => True
  | JS.Infinity _ => False
  end
  /\ (IssueDetectionResult.confidence r = JS.NaN
      <-> JS.truthy_value (RawDetection.confidence result) = true
          /\ JS.ToNumber (RawDetection.confidence result) = JS.NaN)
  /\ IssueDetectionResult.issueType r <> ""%string
  /\ IssueDetectionResult.description r <> ""%string
  /\ IssueDetectionResult.severity r <> ""%string
  /\ IssueDetectionResult.suggestedDepartment r <> ""%string
  /\ PreviewRoutes.post_api_analyze_image (Some (Replied result))
     = {| Answer.status := 200;
          Answer.json := Answer.Detection (Storage.jsonb r) |}
  /\ (StoredDetection.confidence (Storage.jsonb r) = None
      <-> IssueDetectionResult.confidence r = JS.NaN).
Proof.
  intros H. pose proof (analyzeIssueImage_clamps result r H) as C.
  assert (R : PreviewRoutes.post_api_analyze_image (Some (Replied result))
              = {| Answer.status := 200;
                   Answer.json := Answer.Detection (Storage.jsonb r) |})
    by (unfold PreviewRoutes.post_api_analyze_image; now rewrite H).
  split; [|split; [|split; [|split; [|split; [|split; [|split]]]]]].
  - destruct (IssueDetectionResult.confidence r) as [|b|q]; tauto.
  - split.
    + intros E. now rewrite E in C.
    + intros [T N]. injection H as <-. simpl.
      unfold OpenAI.confidence_or_0. now rewrite T, N.
  - injection H as <-. apply or_lit_not_empty. discriminate.
  - injection H as <-. apply or_lit_not_empty. discriminate.
  - injection H as <-. apply or_lit_not_empty. discriminate.
  - injection H as <-. apply or_lit_not_empty. discriminate.
  - exact R.
  - simpl. destruct (IssueDetectionResult.confidence r) as [|b|q];
      split; try congruence; contradiction.
Qed.

(** The answer with the confidence "high". *)
Lemma analyzeIssueImage_result_is_complete_witness :
  IssueDetectionResult.confidence PreviewExamples.unsureResult = JS.NaN
  /\ PreviewRoutes.post_api_analyze_image
       (Some (Replied PreviewExamples.unsure))
     = {| Answer.status := 200;
          Answer.json :=
            Answer.Detection (Storage.jsonb PreviewExamples.unsureResult) |}
  /\ StoredDetection.confidence (Storage.jsonb PreviewExamples.unsureResult)
     = None.
Proof.
  destruct (analyzeIssueImage_result_is_complete PreviewExamples.unsure
              PreviewExamples.unsureResult eq_refl)
    as (_ & H1 & _ & _ & _ & _ & H2 & H3).
  split; [apply H1; split; reflexivity|].
  split; [exact H2|]. apply H3. reflexivity.
Defined.

(** X23.  What the voice functions return, for answers whose keys hold
    strings or are missing.  The text of a transcription is the
    transcribed text and its language is the detected one, "en" when
    none was detected.  The issue type and the priority of an extraction
    are never empty, its location is passed on as it came, and its
    description is the one of the answer when that is not empty and the
    transcribed text when it is missing or empty.
    [POST /api/transcribe-audio] answers 200 exactly when both calls of
    the AI service succeed. *)
Theorem voice_results_are_complete :
  (forall r t,
      OpenAI.transcribeAudio (Replied r) = Return t ->
      Transcription.text t = RawTranscription.text r
      /\ Transcription.language t <> ""%string
      /\ (forall l, RawTranscription.language r = Some l -> l <> ""%string ->
                    Transcription.language t = l)
      /\ (JS.truthy (RawTranscription.language r) = false ->
          Transcription.language t = "en"%string))
  /\ (forall result text language e,
        OpenAI.extractIssueFromText (Replied result) text language = Return e ->
        ExtractedInfo.issueType e <> ""%string
        /\ ExtractedInfo.priority e <> ""%string
        /\ (forall d, RawExtraction.description result = Some d ->
                      d <> ""%string -> ExtractedInfo.description e = d)
        /\ (JS.truthy (RawExtraction.description result) = false ->
            ExtractedInfo.description e = text)
        /\ ExtractedInfo.location e = RawExtraction.location result)
  /\ (forall recording,
        Answer.status (PreviewRoutes.post_api_transcribe_audio (Some recording))
        = 200
        <-> exists r result, recording = (Replied r, Replied result)).
Proof.
  split; [|split].
  - intros r t [= <-]. simpl.
    split; [reflexivity|]. split; [apply or_lit_not_empty; discriminate|].
    split.
    + intros l -> Hl. now apply or_lit_present.
    + destruct (RawTranscription.language r) as [l|]; simpl; [|reflexivity].
      destruct (String.eqb l ""); [reflexivity|discriminate].
  - intros result text language e [= <-]. simpl.
    split; [apply or_lit_not_empty; discriminate|].
    split; [apply or_lit_not_empty; discriminate|].
    split; [|split; [|reflexivity]].
    + intros d -> Hd. now apply or_lit_present.
    + destruct (RawExtraction.description result) as [d|]; simpl;
        [|reflexivity].
      destruct (String.eqb d ""); [reflexivity|discriminate].
  - intros [[r|m] [result|m']]; simpl; split;
      try discriminate; try (intros (? & ? & ?); discriminate).
    + intros _. now exists r, result.
    + reflexivity.
Qed.

(** A recording whose extraction comes with an empty description. *)
Lemma voice_results_are_complete_witness :
  ExtractedInfo.description PreviewExamples.extracted
  = "light is broken"%string.
Proof.
  destruct (proj1 (proj2 voice_results_are_complete)
              {| RawExtraction.issueType := None;
                 RawExtraction.location := Some "Main Road"%string;
                 RawExtraction.description := Some ""%string;
                 RawExtraction.priority := None |}
              "light is broken"%string "en"%string PreviewExamples.extracted
              eq_refl) as (_ & _ & _ & H & _).
  apply H. reflexivity.
Defined.

End Normalisation.

(** ** Reading numbers *)

Section Numbers.

Import Schema.

Lemma take_digits_numeral d rest a cnt :
  Numeral.ends_number rest ->
  JS.take_digits (Numeral.digits d ++ rest) (Z.of_nat a) cnt
  = (Z.of_nat (Nat.of_uint_acc d a), (cnt + Numeral.size d)%nat, rest).
Proof.
  intros Hr. revert a cnt.
  induction d as [|d IH|d IH|d IH|d IH|d IH|d IH|d IH|d IH|d IH|d IH];
    intros a cnt;
    [ simpl; rewrite Nat.add_0_r;
      destruct rest as [|c r]; [reflexivity|];
      simpl in Hr |- *; now rewrite Hr
    | .. ];
    cbn [Numeral.digits DecimalString.NilEmpty.string_of_uint String.append JS.take_digits
         Nat.of_uint_acc];
    match goal with
    | |- context [JS.digit_value ?c] =>
        let v := eval vm_compute in (JS.digit_value c) in
        change (JS.digit_value c) with v
    end;
    cbv iota; fold (Numeral.digits d);
    match goal with
    | |- JS.take_digits _ ?z _ = (Z.of_nat (Nat.of_uint_acc _ ?a') , _, _) =>
        replace z with (Z.of_nat a')
          by (rewrite ?Nat2Z.inj_succ, Nat.tail_mul_spec, Nat2Z.inj_mul;
              simpl Z.of_nat; lia)
    end;
    rewrite IH; cbn [Numeral.size DecimalNat.Unsigned.usize];
    now rewrite Nat.add_succ_r.
Qed.

Lemma to_uint_nonnil n : Nat.to_uint n <> Decimal.Nil.
Proof.
  rewrite <- (DecimalNat.Unsigned.of_to n) at 1. rewrite DecimalNat.Unsigned.to_of.
  apply DecimalFacts.unorm_nonnil.
Qed.

Lemma toString_digits n : Numeral.toString n = Numeral.digits (Nat.to_uint n).
Proof.
  unfold Numeral.toString, DecimalString.NilZero.string_of_uint, Numeral.digits.
  pose proof (to_uint_nonnil n). now destruct (Nat.to_uint n).
Qed.

Lemma append_empty (s : string) : (s ++ "")%string = s.
Proof. induction s as [|c r IH]; simpl; congruence. Qed.

Lemma size_nonnil d : d <> Decimal.Nil -> exists k, Numeral.size d = S k.
Proof. destruct d; try congruence; intros _; eexists; reflexivity. Qed.

(** A numeral starts with a digit: no white space is trimmed, no sign is
    taken, and it is not the word Infinity. *)
Lemma numeral_head d rest :
  d <> Decimal.Nil ->
  JS.take_sign (JS.trimStart (Numeral.digits d ++ rest))
  = (false, (Numeral.digits d ++ rest)%string)
  /\ String.prefix "Infinity" (Numeral.digits d ++ rest) = false.
Proof.
  destruct d; try congruence; intros _; split; reflexivity.
Qed.

Lemma of_uint_acc_value d a :
  Z.of_nat (Nat.of_uint_acc d a)
  = Z.of_nat a * 10 ^ Z.of_nat (Numeral.size d) + Z.of_nat (Numeral.value d).
Proof.
  rewrite DecimalNat.Unsigned.of_uint_acc_spec.
  unfold Numeral.value, Nat.of_uint.
  rewrite (DecimalNat.Unsigned.of_uint_acc_spec 0 d).
  rewrite Nat2Z.inj_add, Nat2Z.inj_mul, Nat2Z.inj_pow. simpl Z.of_nat.
  unfold Numeral.size. lia.
Qed.

(** [parseInt] reads a decimal numeral as its number, which up to 2^53
    is a double. *)
Lemma parseInt_toString n :
  Z.of_nat n <= 2 ^ 53 ->
  JSInt.parseInt (Numeral.toString n) = JS.Finite (inject_Z (Z.of_nat n)).
Proof.
  intros Hn.
  rewrite toString_digits.
  pose proof (to_uint_nonnil n) as NN.
  pose proof (take_digits_numeral (Nat.to_uint n) "" 0 0 I) as T.
  rewrite append_empty in T. simpl Z.of_nat in T.
  change (Nat.of_uint_acc (Nat.to_uint n) 0) with (Nat.of_uint (Nat.to_uint n))
    in T.
  rewrite DecimalNat.Unsigned.of_to in T.
  destruct (size_nonnil _ NN) as [k Hk].
  unfold JSInt.parseInt.
  destruct (numeral_head (Nat.to_uint n) "" NN) as [Hs _].
  rewrite append_empty in Hs. rewrite Hs.
  assert (E : match Numeral.digits (Nat.to_uint n) with
              | String "0"%char (String "x"%char r) =>
                  JSInt.take_hex_digits r 0 0%nat
              | String "0"%char (String "X"%char r) =>
                  JSInt.take_hex_digits r 0 0%nat
              | _ => JS.take_digits (Numeral.digits (Nat.to_uint n)) 0 0%nat
              end
              = JS.take_digits (Numeral.digits (Nat.to_uint n)) 0 0%nat).
  { destruct (Nat.to_uint n) as [|d|d|d|d|d|d|d|d|d|d]; try reflexivity.
    destruct d; reflexivity. }
  rewrite E, T. cbv iota beta. rewrite Nat.add_0_l, Hk.
  apply to_double_integer. lia.
Qed.

(** [parseFloat] reads the numeral [n.d], with or without a minus sign,
    as the number it writes. *)
Lemma parseFloat_decimal n d :
  JS.parseFloat (Numeral.decimal n d)
  = JS.to_double
      (JS.scale10
         (Z.of_nat n * 10 ^ Z.of_nat (Numeral.size d)
          + Z.of_nat (Numeral.value d))
         (- Z.of_nat (Numeral.size d)))
  /\ JS.parseFloat (String "-" (Numeral.decimal n d))
     = JS.to_double
         (JS.scale10
            (- (Z.of_nat n * 10 ^ Z.of_nat (Numeral.size d)
                + Z.of_nat (Numeral.value d)))
            (- Z.of_nat (Numeral.size d))).
Proof.
  pose proof (to_uint_nonnil n) as NN.
  destruct (size_nonnil _ NN) as [k Hk].
  destruct (numeral_head (Nat.to_uint n) ("." ++ Numeral.digits d)%string NN)
    as [Hs Hi].
  pose proof (take_digits_numeral (Nat.to_uint n)
                ("." ++ Numeral.digits d)%string 0 0 eq_refl) as T1.
  change (Nat.of_uint_acc (Nat.to_uint n) 0) with (Nat.of_uint (Nat.to_uint n))
    in T1.
  rewrite DecimalNat.Unsigned.of_to, Hk in T1. simpl Z.of_nat in T1.
  pose proof (take_digits_numeral d "" n 0 I) as T2.
  rewrite append_empty, of_uint_acc_value in T2.
  unfold Numeral.decimal. rewrite toString_digits.
  split.
  - unfold JS.parseFloat. rewrite Hs. cbv iota beta. rewrite Hi, T1.
    change ("." ++ Numeral.digits d)%string
      with (String "."%char (Numeral.digits d)).
    cbv iota beta. rewrite T2. reflexivity.
  - unfold JS.parseFloat.
    change (JS.take_sign
              (JS.trimStart
                 (String "-" (Numeral.digits (Nat.to_uint n)
                              ++ "." ++ Numeral.digits d))))
      with (true,
            (Numeral.digits (Nat.to_uint n) ++ "." ++ Numeral.digits d)%string).
    cbv iota beta. rewrite Hi, T1.
    change ("." ++ Numeral.digits d)%string
      with (String "."%char (Numeral.digits d)).
    cbv iota beta. rewrite T2. reflexivity.
Qed.

Lemma decimal_not_empty n d : String.eqb (Numeral.decimal n d) "" = false.
Proof.
  unfold Numeral.decimal. rewrite toString_digits.
  pose proof (to_uint_nonnil n) as NN.
  now destruct (Nat.to_uint n).
Qed.

(** X25.  A [limit] parameter that is the decimal numeral of a number [n]
    from 1 to 2^53, the range in which a JS number is an exact integer,
    caps the answer of [GET /api/issues] at [n] issues. *)
Theorem numeric_limit_caps_the_answer query db issues n :
  IssuesQuery.limit query = Some (Numeral.toString n) ->
  (1 <= n)%nat ->
  Z.of_nat n <= 2 ^ 53 ->
  ReadRoutes.get_api_issues query db
  = {| Answer.status := 200; Answer.json := Answer.Issues issues |} ->
  (length issues <= n)%nat.
Proof.
  intros Hl Hn Hb. unfold ReadRoutes.get_api_issues.
  destruct (Queries.getIssues (ReadRoutes.filters_of query) db)
    as [l|e] eqn:E; [|discriminate].
  intros [= <-].
  destruct (getIssues_Return _ _ _ E) as (_ & _ & P).
  rewrite <- (Nat2Z.id n).
  apply (page_limit _ _ _ _ (Z.of_nat n) P); [|lia].
  simpl. rewrite Hl. simpl ReadRoutes.default_to.
  now apply parseInt_toString.
Qed.

(** The first two issues of the sample database. *)
Lemma numeric_limit_caps_the_answer_witness :
  (length [Examples.i1; Examples.i2] <= 2)%nat.
Proof.
  apply (numeric_limit_caps_the_answer (NumeralExamples.firstIssues "2")
           Sample.db [Examples.i1; Examples.i2] 2).
  - reflexivity.
  - apply le_S, le_n.
  - discriminate.
  - reflexivity.
Defined.

(** X26.  A latitude or longitude sent as a plain decimal numeral, with or
    without a minus sign, is taken into the issue data as the double
    nearest to the number that the numeral writes: integer part times a
    power of ten plus fraction digits, over that power of ten, with the
    sign of the numeral. *)
Theorem decimal_coordinates_are_read_as_doubles body ai tr ex n d :
  let number :=
    Z.of_nat n * 10 ^ Z.of_nat (Numeral.size d) + Z.of_nat (Numeral.value d) in
  let places := - Z.of_nat (Numeral.size d) in
  (IssueForm.latitude body = Some (Numeral.decimal n d) ->
   IssueData.latitude (Routes.issueData body ai tr ex)
   = Some (JS.to_double (JS.scale10 number places)))
  /\ (IssueForm.latitude body = Some (String "-" (Numeral.decimal n d)) ->
      IssueData.latitude (Routes.issueData body ai tr ex)
      = Some (JS.to_double (JS.scale10 (- number) places)))
  /\ (IssueForm.longitude body = Some (Numeral.decimal n d) ->
      IssueData.longitude (Routes.issueData body ai tr ex)
      = Some (JS.to_double (JS.scale10 number places)))
  /\ (IssueForm.longitude body = Some (String "-" (Numeral.decimal n d)) ->
      IssueData.longitude (Routes.issueData body ai tr ex)
      = Some (JS.to_double (JS.scale10 (- number) places))).
Proof.
  cbv zeta. destruct (parseFloat_decimal n d) as [P N].
  simpl IssueData.latitude. simpl IssueData.longitude.
  repeat split; intros ->; unfold Routes.parse_coordinate; simpl JS.truthy;
    rewrite ?decimal_not_empty; cbv iota; now rewrite ?P, ?N.
Qed.

(** The latitude of the sample form: the double nearest to 19.1197, which
    is 2690858556107365 / 2^47. *)
Lemma decimal_coordinates_are_read_as_doubles_witness :
  IssueData.latitude (Routes.issueData Sample.form None None None)
  = Some (JS.Finite (2690858556107365 # 140737488355328)).
Proof.
  refine (eq_trans
            (proj1 (decimal_coordinates_are_read_as_doubles Sample.form None
                      None None 19
                      (Decimal.D1
                         (Decimal.D1 (Decimal.D9 (Decimal.D7 Decimal.Nil)))))
               eq_refl) _).
  vm_compute. reflexivity.
Defined.

End Numbers.

(** ** Comments and departments *)

Section Comments.

Import Schema.

Lemma post_comment_cases env id body s :
  (exists text,
      CommentForm.comment body = Some text
      /\ Storage.mem (CommentEnv.commentId env) (Discussion.comment_ids s) = false
      /\ Storage.mem id (Storage.issue_ids (Store.db s)) = true
      /\ Storage.references (CommentForm.userId body) (Db.users (Store.db s))
         = true
      /\ Discussion.post_api_issues_id_comments env id body s
         = let c :=
             {| IssueComment.id := CommentEnv.commentId env;
                IssueComment.issueId := Some id;
                IssueComment.userId := CommentForm.userId body;
                IssueComment.comment := text;
                IssueComment.isInternal :=
                  Some (Discussion.or_false (CommentForm.isInternal body));
                IssueComment.createdAt := Some (CommentEnv.commentNow env) |} in
           ({| Answer.status := 201; Answer.json := Answer.Comment c |},
            {| Store.db := Store.db s;
               Store.issueComments := Store.issueComments s ++ [c];
               Store.departments := Store.departments s |}))
  \/ ((CommentForm.comment body = None
       \/ Storage.mem (CommentEnv.commentId env) (Discussion.comment_ids s) = true
       \/ Storage.mem id (Storage.issue_ids (Store.db s)) = false
       \/ Storage.references (CommentForm.userId body) (Db.users (Store.db s))
          = false)
      /\ Discussion.post_api_issues_id_comments env id body s
         = ({| Answer.status := 500;
               Answer.json := Answer.Message "Failed to add comment" |}, s)).
Proof.
  unfold Discussion.post_api_issues_id_comments, Discussion.parse. simpl.
  destruct (CommentForm.comment body) as [text|]; [|right; auto].
  unfold Discussion.addIssueComment. simpl.
  destruct (Storage.mem (CommentEnv.commentId env) (Discussion.comment_ids s))
    eqn:E1; [right; auto|].
  destruct (Storage.mem id (Storage.issue_ids (Store.db s))) eqn:E2;
    [|right; auto 6].
  destruct (Storage.references (CommentForm.userId body) (Db.users (Store.db s)))
    eqn:E3; [|right; auto 6].
  left. exists text. simpl. auto.
Qed.



(** X28.  A comment that was answered with 201 is stored as sent: it
    belongs to the issue of the path, carries the text of the body and is
    internal only if the body said so.  The comments that
    [GET /api/issues/:id/comments] then lists for that issue are the
    former ones and the new one, oldest first, and the lists of the other
    issues are as before. *)
Theorem new_comment_is_listed env id body s c :
  fst (Discussion.post_api_issues_id_comments env id body s)
  = {| Answer.status := 201; Answer.json := Answer.Comment c |} ->
  let s' := snd (Discussion.post_api_issues_id_comments env id body s) in
  IssueComment.issueId c = Some id
  /\ CommentForm.comment body = Some (IssueComment.comment c)
  /\ IssueComment.isInternal c
     = Some (match CommentForm.isInternal body with
             | Some flag => flag
             | None => false
             end)
  /\ Permutation (c :: Discussion.getIssueComments id s)
       (Discussion.getIssueComments id s')
  /\ StronglySorted
       (fun a b => OrderBy.timestamp_leb (IssueComment.createdAt a)
                     (IssueComment.createdAt b) = true)
       (Discussion.getIssueComments id s')
  /\ (forall other, other <> id ->
        Discussion.getIssueComments other s'
        = Discussion.getIssueComments other s).
Proof.
  destruct (post_comment_cases env id body s)
    as [(text & Ht & E1 & E2 & E3 & ->)|(_ & ->)]; [|discriminate].
  cbv zeta. simpl. intros H. injection H as <-. simpl.
  split; [reflexivity|]. split; [exact Ht|]. split; [reflexivity|].
  split; [|split].
  - unfold Discussion.getIssueComments. simpl.
    rewrite filter_app. simpl. rewrite String.eqb_refl.
    eapply Permutation_trans; [|apply sort_Permutation].
    eapply Permutation_trans; [|apply Permutation_cons_append].
    constructor. apply Permutation_sym, sort_Permutation.
  - apply (sort_sorted _ (OrderBy.asc IssueComment.createdAt)).
    + intros a b. apply timestamp_leb_total.
    + intros a b d. apply timestamp_leb_trans.
  - intros other Ho. unfold Discussion.getIssueComments. simpl.
    rewrite filter_app. simpl.
    replace (id =? other)%string with false
      by (symmetry; apply String.eqb_neq; congruence).
    now rewrite app_nil_r.
Qed.

Lemma new_comment_is_listed_witness :
  Permutation
    (DiscussionExamples.stored
     :: Discussion.getIssueComments "i1" DiscussionExamples.store)
    (Discussion.getIssueComments "i1"
       (snd (Discussion.post_api_issues_id_comments DiscussionExamples.env "i1"
               (DiscussionExamples.remark (Some ""%string))
               DiscussionExamples.store))).
Proof.
  apply (new_comment_is_listed DiscussionExamples.env "i1"
           (DiscussionExamples.remark (Some ""%string))
           DiscussionExamples.store DiscussionExamples.stored).
  reflexivity.
Defined.

End Comments.

Lemma string_compare_trans (a b c : string) :
  String.compare a b <> Gt -> String.compare b c <> Gt ->
  String.compare a c <> Gt.
Proof.
  revert b c. induction a as [|x a IH]; intros [|y b] [|z c]; simpl;
    try congruence.
  unfold Ascii.compare.
  destruct (N.compare_spec (N_of_ascii x) (N_of_ascii y)) as [E1|L1|G1];
    [| |congruence];
    (destruct (N.compare_spec (N_of_ascii y) (N_of_ascii z)) as [E2|L2|G2];
     [| |congruence]).
  - rewrite E1, E2, N.compare_refl. apply IH.
  - intros _ _. rewrite E1. now rewrite (proj2 (N.compare_lt_iff _ _) L2).
  - intros _ _. rewrite <- E2. now rewrite (proj2 (N.compare_lt_iff _ _) L1).
  - intros _ _.
    now rewrite (proj2 (N.compare_lt_iff _ _) (N.lt_trans _ _ _ L1 L2)).
Qed.

Lemma string_leb_trans (a b c : string) :
  String.leb a b = true -> String.leb b c = true -> String.leb a c = true.
Proof.
  unfold String.leb. intros H1 H2.
  assert (H := string_compare_trans a b c).
  destruct (String.compare a b); try discriminate;
    destruct (String.compare b c); try discriminate;
    destruct (String.compare a c); try reflexivity;
    exfalso; apply H; congruence.
Qed.

Section Departments.

Variable name_leb : string -> string -> bool.
Hypothesis name_leb_total :
  forall a b, name_leb a b = true \/ name_leb b a = true.
Hypothesis name_leb_trans :
  forall a b c, name_leb a b = true -> name_leb b c = true ->
                name_leb a c = true.

(** X29.  Whatever total order the database compares names by,
    [getDepartments] lists the departments whose flag [isActive] is true,
    each once and ordered by name; a department that [createDepartment]
    has stored is listed when it was created without the flag or with the
    flag true, and not when the flag was false or null. *)
Theorem getDepartments_lists_the_active_by_name s :
  Permutation (filter is_active (Store.departments s))
    (getDepartments name_leb s)
  /\ (forall d, In d (getDepartments name_leb s)
                <-> In d (Store.departments s)
                    /\ Department.isActive d = Some true)
  /\ StronglySorted
       (fun a b => name_leb (Department.name a) (Department.name b) = true)
       (getDepartments name_leb s)
  /\ (forall newId now department d s',
        createDepartment newId now department s = (Return d, s') ->
        (In d (getDepartments name_leb s')
         <-> InsertDepartment.isActive department = JS.undefined
             \/ InsertDepartment.isActive department = JS.value true)).
Proof.
  assert (P : forall t, Permutation (filter is_active (Store.departments t))
                          (getDepartments name_leb t))
    by (intros t; apply sort_Permutation).
  assert (I : forall t d, In d (getDepartments name_leb t)
                          <-> In d (Store.departments t)
                              /\ Department.isActive d = Some true).
  { intros t d.
    assert (A : is_active d = true <-> Department.isActive d = Some true).
    { unfold is_active. destruct (Department.isActive d) as [[|]|];
        split; congruence. }
    rewrite <- A, <- filter_In. split; intros H.
    - now apply (Permutation_in _ (Permutation_sym (P t))).
    - now apply (Permutation_in _ (P t)). }
  split; [apply P|]. split; [apply I|]. split.
  - apply (sort_sorted _
             (fun a b => name_leb (Department.name a) (Department.name b))).
    + intros a b. apply name_leb_total.
    + intros a b c. apply name_leb_trans.
  - intros newId now department d s'. unfold createDepartment.
    destruct (Storage.mem newId (department_ids s)); [discriminate|].
    intros H. injection H as <- <-. rewrite I. simpl.
    destruct (InsertDepartment.isActive department) as [| |[|]]; simpl;
      (split; [intros [_ H]; first [discriminate H | now left | now right]
              |intros [H|H]]);
      try discriminate H;
      (split; [apply in_or_app; right; now left|reflexivity]).
Qed.

End Departments.

Lemma getDepartments_lists_the_active_by_name_witness :
  In {| Department.id := "d1";
        Department.name := "Sanitation";
        Department.description :=
          InsertDepartment.description DiscussionExamples.sanitation;
        Department.contactEmail := Some "sanitation@city.gov"%string;
        Department.contactPhone := Some "+1-555-0102"%string;
        Department.isActive := Some true;
        Department.createdAt := Some Sample.t0 |}
    (getDepartments String.leb
       (snd (createDepartment "d1" Sample.t0 DiscussionExamples.sanitation
               DiscussionExamples.store))).
Proof.
  apply (proj2 (proj2 (proj2
           (getDepartments_lists_the_active_by_name String.leb
              String.leb_total string_leb_trans DiscussionExamples.store)))
           "d1"%string Sample.t0 DiscussionExamples.sanitation).
  - reflexivity.
  - now left.
Defined.

(** ** The update dialog against the status handler *)

Section Dashboard.

Import Schema.

Lemma issueStatusEnum_not_empty s st :
  issueStatusEnum s = Some st -> JS.truthy (Some s) = true.
Proof.
  intros H. simpl. destruct (String.eqb_spec s ""); [|reflexivity].
  subst s. discriminate.
Qed.

Lemma written_if_filled (value : string) (old : option string) :
  match Routes.if_truthy (Some value) with
  | Some d => Some d
  | None => old
  end
  = if (value =? "")%string then old else Some value.
Proof.
  unfold Routes.if_truthy. simpl. now destruct (value =? "")%string.
Qed.

Lemma or_lit_written_back (old : option string) :
  (if (JS.or_lit old "" =? "")%string then old else Some (JS.or_lit old ""))
  = old.
Proof.
  destruct old as [d|]; simpl; [|reflexivity].
  destruct (String.eqb_spec d ""); simpl; [reflexivity|].
  destruct (String.eqb_spec d ""); congruence.
Qed.

(** X30.  The update button of the admin dialog, pressed for an issue of
    the database with a status of the enumeration selected: a request is
    sent and the issue gets that status; the department and the assignee
    are written when their field is filled and left as they were when it
    is empty, so the dialog cannot clear them; with no edit at all the
    three columns stay as they are.  The answer is 200 exactly when the
    database has a user whose id is "admin", the actor that the dialog
    always sends, and the id generated for the history entry is free. *)
Theorem dialog_update_writes_the_filled_fields env db issue edits s st :
  Storage.getIssue (Issue.id issue) db = Some issue ->
  let updateData :=
    fold_left AdminPanel.setUpdateData edits (AdminPanel.openDialog issue) in
  UpdateData.status updateData = Some s ->
  issueStatusEnum s = Some st ->
  exists response issue',
    fst (AdminPanel.update env issue edits db) = Some response
    /\ Storage.getIssue (Issue.id issue)
         (snd (AdminPanel.update env issue edits db)) = Some issue'
    /\ Issue.status issue' = Some st
    /\ Issue.assignedDepartment issue'
       = (if (UpdateData.assignedDepartment updateData =? "")%string
          then Issue.assignedDepartment issue
          else Some (UpdateData.assignedDepartment updateData))
    /\ Issue.assignedTo issue'
       = (if (UpdateData.assignedTo updateData =? "")%string
          then Issue.assignedTo issue
          else Some (UpdateData.assignedTo updateData))
    /\ (edits = [] ->
        Issue.status issue' = Issue.status issue
        /\ Issue.assignedDepartment issue' = Issue.assignedDepartment issue
        /\ Issue.assignedTo issue' = Issue.assignedTo issue)
    /\ (Response.status response = 200 <->
          Storage.mem "admin" (Db.users db) = true
          /\ Storage.mem (PatchEnv.historyId env) (Storage.history_ids db)
             = false).
Proof.
  intros Hi updateData Hs Hst.
  unfold AdminPanel.update. fold updateData.
  unfold AdminPanel.handleUpdateIssue.
  rewrite Hs, (issueStatusEnum_not_empty s st Hst).
  set (body := {| StatusUpdate.status := JS.value s;
                  StatusUpdate.notes := Some (UpdateData.notes updateData);
                  StatusUpdate.updatedBy := Some "admin"%string;
                  StatusUpdate.assignedDepartment :=
                    Some (UpdateData.assignedDepartment updateData);
                  StatusUpdate.assignedTo :=
                    Some (UpdateData.assignedTo updateData) |}).
  assert (G := getIssue_after_patch env (Issue.id issue) body db s st
                 eq_refl Hst).
  assert (R := patch_valid_status env (Issue.id issue) body db s st
                 eq_refl Hst).
  destruct (Routes.patch_api_issues_id_status env (Issue.id issue) body db)
    as [response db'] eqn:E.
  simpl in G |- *. rewrite Hi in G. simpl in G.
  eexists response, _. split; [reflexivity|]. split; [exact G|].
  assert (D : forall old,
             match Routes.if_truthy
                     (Some (UpdateData.assignedDepartment updateData)) with
             | Some d => Some d
             | None => old
             end
             = if (UpdateData.assignedDepartment updateData =? "")%string
               then old
               else Some (UpdateData.assignedDepartment updateData))
    by (intros old; apply written_if_filled).
  assert (T : forall old,
             match Routes.if_truthy
                     (Some (UpdateData.assignedTo updateData)) with
             | Some d => Some d
             | None => old
             end
             = if (UpdateData.assignedTo updateData =? "")%string
               then old
               else Some (UpdateData.assignedTo updateData))
    by (intros old; apply written_if_filled).
  split; [reflexivity|]. split; [apply D|]. split; [apply T|]. split.
  - intros He. subst edits. subst updateData. simpl in Hs |- *.
    split; [|split].
    + destruct (Issue.status issue) as [st0|]; [|discriminate]. simpl in Hs.
      injection Hs as <-. rewrite issueStatusEnum_label in Hst. congruence.
    + rewrite written_if_filled. apply or_lit_written_back.
    + rewrite written_if_filled. apply or_lit_written_back.
  - unfold WorkflowSpec.history_accepted in R. rewrite Hi in R.
    simpl in R. rewrite Bool.andb_true_r in R.
    destruct (Storage.mem (PatchEnv.historyId env) (Storage.history_ids db));
      destruct (Storage.mem "admin" (Db.users db));
      simpl in R; injection R as -> _; simpl;
      split; try discriminate; try (intros [? ?]; discriminate); auto.
Qed.

Lemma dialog_update_writes_the_filled_fields_witness :
  exists response issue',
    fst (AdminPanel.update Sample.patchEnv Examples.i1
           [AdminPanel.SetStatus "in_progress";
            AdminPanel.SetDepartment ""; AdminPanel.SetAssignedTo "R. Patil"]
           Sample.db) = Some response
    /\ Storage.getIssue "i1"
         (snd (AdminPanel.update Sample.patchEnv Examples.i1
                 [AdminPanel.SetStatus "in_progress";
                  AdminPanel.SetDepartment "";
                  AdminPanel.SetAssignedTo "R. Patil"] Sample.db))
       = Some issue'
    /\ Issue.status issue' = Some in_progress
    /\ Issue.assignedDepartment issue' = Some "Public Works"%string
    /\ Issue.assignedTo issue' = Some "R. Patil"%string
    /\ Response.status response <> 200.
Proof.
  destruct (dialog_update_writes_the_filled_fields Sample.patchEnv Sample.db
              Examples.i1
              [AdminPanel.SetStatus "in_progress";
               AdminPanel.SetDepartment ""; AdminPanel.SetAssignedTo "R. Patil"]
              "in_progress"%string in_progress
              eq_refl eq_refl eq_refl)
    as (response & issue' & H1 & H2 & H3 & H4 & H5 & _ & H6).
  exists response, issue'.
  repeat split; try assumption.
  intros H. apply H6 in H. destruct H as [H _]. discriminate H.
Defined.

End Dashboard.
